(** * django-xrechnung: invoice model, derivation on save, views, config, admin

    A shallow embedding of the Python sources

      - django_xrechnung/models.py  (XRechnungInvoice, XRechnungLineItem, save)
      - django_xrechnung/views.py   (list view, JSON detail, XML export)
      - django_xrechnung/config.py  (XRechnungConfig)
      - django_xrechnung/admin.py   (XRechnungInvoiceAdmin.get_readonly_fields)

    Python values are modelled by the types the model fields declare:
    [decimal.Decimal] by a coefficient and an exponent, [datetime.date] by a
    (year, month, day) record, [str] by [string], a nullable field by
    [option], a [dict] by a [gmap].  A Python exception is a value of
    [Exception] carried in the left summand of [Result]. *)

From Stdlib Require Import ZArith QArith Qpower Qabs List String Ascii Lia Bool.
From Stdlib Require Import Permutation Sorted DecimalString.
From stdpp Require Import base gmap strings list.

Open Scope string_scope.
Open Scope Z_scope.

(* ===================================================================== *)
(** ** Python's [decimal.Decimal] under the default context               *)
(* ===================================================================== *)

Module PyDecimal.

(** A finite decimal [coef * 10 ^ exp].  NaN, the infinities and the sign of
    a zero are left out: no arithmetic of models.py produces them from finite
    operands.  The exponent limits of the context (Emax = 999999) are left
    out as well. *)
Record Decimal : Type := mkDecimal { coef : Z; exp : Z }.

(** [getcontext().prec] of the default context. *)
Definition prec : Z := 28.

(** [Decimal.__bool__]: a decimal is truthy unless it is a zero. *)
Definition dec_bool (d : Decimal) : bool := negb (coef d =? 0).

(** [len(self._int)]: the number of decimal digits of the coefficient. *)
Definition ndigits (n : Z) : Z :=
  Z.of_nat (Decimal.nb_digits (N.to_uint (Z.abs_N n))).

(** ROUND_HALF_EVEN, dropping the [k] last digits of [c >= 0]. *)
Definition round_half_even (c k : Z) : Z :=
  let p := 10 ^ k in
  let q := c / p in
  let r := c mod p in
  if 2 * r <? p then q
  else if p <? 2 * r then q + 1
  else if Z.even q then q else q + 1.

(** [Decimal._fix]: a coefficient of more than [prec] digits is rounded to
    [prec] digits; a coefficient that fits (that is, [|coef| < 10 ^ prec])
    is returned unchanged. *)
Definition dec_fix (d : Decimal) : Decimal :=
  let a := Z.abs (coef d) in
  if a <? 10 ^ prec then d
  else
    let k := ndigits a - prec in
    let q := round_half_even a k in
    if q =? 10 ^ prec
    then mkDecimal (Z.sgn (coef d) * 10 ^ (prec - 1)) (exp d + k + 1)
    else mkDecimal (Z.sgn (coef d) * q) (exp d + k).

(** The coefficient of [d] written at the smaller exponent [e]. *)
Definition rescale (e : Z) (d : Decimal) : Z := coef d * 10 ^ (exp d - e).

(** [Decimal.__add__]: the exact sum at the smaller exponent, then [_fix]. *)
Definition dec_add (a b : Decimal) : Decimal :=
  let e := Z.min (exp a) (exp b) in
  dec_fix (mkDecimal (rescale e a + rescale e b) e).

Definition dec_neg (a : Decimal) : Decimal := mkDecimal (- coef a) (exp a).

(** [Decimal.__sub__]: [self + (-other)]. *)
Definition dec_sub (a b : Decimal) : Decimal := dec_add a (dec_neg b).

(** [Decimal.__mul__]: the exact product, exponents added, then [_fix]. *)
Definition dec_mul (a b : Decimal) : Decimal :=
  dec_fix (mkDecimal (coef a * coef b) (exp a + exp b)).

(** [Decimal.__eq__]: numeric equality, whatever the exponents. *)
Definition dec_eqb (a b : Decimal) : bool :=
  let e := Z.min (exp a) (exp b) in
  rescale e a =? rescale e b.

(** [d.quantize(Decimal(1).scaleb(-places))] under ROUND_HALF_EVEN: [d]
    written at the exponent [-places], rounded when it has more fractional
    digits than that. *)
Definition quantize (places : Z) (d : Decimal) : Decimal :=
  if - places <=? exp d
  then mkDecimal (coef d * 10 ^ (exp d + places)) (- places)
  else mkDecimal
         (Z.sgn (coef d)
          * round_half_even (Z.abs (coef d)) (- places - exp d))
         (- places).

(** The rational number a decimal denotes. *)
Definition dec_value (d : Decimal) : Q :=
  (inject_Z (coef d) * (inject_Z 10) ^ (exp d))%Q.

(** A value a [DecimalField(max_digits, decimal_places)] accepts: at most
    [decimal_places] fractional digits and at most
    [max_digits - decimal_places] digits before the point. *)
Definition field_ok (max_digits decimal_places : Z) (d : Decimal) : Prop :=
  - decimal_places <= exp d /\
  Z.abs (coef d) * 10 ^ (exp d + decimal_places) < 10 ^ max_digits.

(** *** [Decimal.__str__] *)

Definition digits_str (n : Z) : string :=
  NilZero.string_of_uint (N.to_uint (Z.abs_N n)).

Fixpoint zeros (n : nat) : string :=
  match n with
  | O => ""
  | S m => String "0" (zeros m)
  end.

(** ["%+d" % n] *)
Definition signed_str (n : Z) : string :=
  (if n <? 0 then "-" else "+") ++ digits_str n.

Definition dec_str (d : Decimal) : string :=
  let sign := if coef d <? 0 then "-" else "" in
  let int_ := digits_str (coef d) in
  let len := Z.of_nat (String.length int_) in
  let leftdigits := exp d + len in
  let dotplace :=
    if (exp d <=? 0) && (-6 <? leftdigits) then leftdigits else 1 in
  let intpart :=
    if dotplace <=? 0 then "0"
    else if len <=? dotplace then int_ ++ zeros (Z.to_nat (dotplace - len))
    else String.substring 0 (Z.to_nat dotplace) int_ in
  let fracpart :=
    if dotplace <=? 0 then "." ++ zeros (Z.to_nat (- dotplace)) ++ int_
    else if len <=? dotplace then ""
    else "." ++ String.substring (Z.to_nat dotplace)
                                 (Z.to_nat (len - dotplace)) int_ in
  let e :=
    if leftdigits =? dotplace then ""
    else "E" ++ signed_str (leftdigits - dotplace) in
  sign ++ intpart ++ fracpart ++ e.

End PyDecimal.

Import PyDecimal.

(* ===================================================================== *)
(** ** Dates, exceptions, query helpers                                   *)
(* ===================================================================== *)

Module Py.

(** [datetime.date] *)
Record date : Type := mkDate { year : nat; month : nat; day : nat }.

Definition date_compare (a b : date) : comparison :=
  match Nat.compare (year a) (year b) with
  | Eq =>
      match Nat.compare (month a) (month b) with
      | Eq => Nat.compare (day a) (day b)
      | c => c
      end
  | c => c
  end.

Definition date_leb (a b : date) : bool :=
  match date_compare a b with Gt => false | _ => true end.

Definition date_ltb (a b : date) : bool :=
  match date_compare a b with Lt => true | _ => false end.

Definition date_eqb (a b : date) : bool :=
  match date_compare a b with Eq => true | _ => false end.

Definition nat_str (n : nat) : string :=
  NilZero.string_of_uint (Nat.to_uint n).

(** ["%0*d"]: left padding with zeros up to [width] characters. *)
Definition zfill (width : nat) (s : string) : string :=
  zeros (width - String.length s) ++ s.

(** [date.isoformat()] and [date.__str__]: YYYY-MM-DD. *)
Definition isoformat (d : date) : string :=
  zfill 4 (nat_str (year d)) ++ "-" ++ zfill 2 (nat_str (month d)) ++ "-"
  ++ zfill 2 (nat_str (day d)).

(** The exceptions that reach the caller of the modelled code. *)
Inductive Exception : Type :=
| IntegrityError
| ValidationError
| Http404.

Definition Result (A : Type) : Type := Exception + A.

Definition ok {A : Type} (a : A) : Result A := inr a.
Definition raise {A : Type} (e : Exception) : Result A := inl e.

Definition bind {A B : Type} (m : Result A) (k : A -> Result B) : Result B :=
  match m with
  | inl e => inl e
  | inr a => k a
  end.

(** Truthiness of a [str] that may be [None]: present and not empty. *)
Definition str_truthy (o : option string) : bool :=
  match o with
  | Some s => negb (String.eqb s "")
  | None => false
  end.

(** Truthiness of a [Decimal] that may be [None]. *)
Definition truthy (o : option Decimal) : bool :=
  match o with
  | Some d => dec_bool d
  | None => false
  end.

Definition is_None {A : Type} (o : option A) : bool :=
  match o with
  | None => true
  | Some _ => false
  end.

(** ASCII lower-casing, as the [icontains] lookup folds case. *)
Definition lower_ascii (c : ascii) : ascii :=
  let n := nat_of_ascii c in
  if (65 <=? n)%nat && (n <=? 90)%nat then ascii_of_nat (n + 32) else c.

Fixpoint lower (s : string) : string :=
  match s with
  | EmptyString => EmptyString
  | String c t => String (lower_ascii c) (lower t)
  end.

Fixpoint startswith (p s : string) : bool :=
  match p, s with
  | EmptyString, _ => true
  | String a p', String b s' => Ascii.eqb a b && startswith p' s'
  | String _ _, EmptyString => false
  end.

(** [needle in hay] *)
Fixpoint contains (needle hay : string) : bool :=
  startswith needle hay ||
  match hay with
  | EmptyString => false
  | String _ t => contains needle t
  end.

(** The [__icontains] lookup: case-insensitive containment. *)
Definition icontains (needle hay : string) : bool :=
  contains (lower needle) (lower hay).

(** A stable insertion sort: the rows of a table in the order [leb], rows
    that compare equal keeping the order of the table. *)
Fixpoint insert_sorted {A : Type} (leb : A -> A -> bool) (x : A)
  (l : list A) : list A :=
  match l with
  | [] => [x]
  | y :: t => if leb x y then x :: y :: t else y :: insert_sorted leb x t
  end.

Definition order_by {A : Type} (leb : A -> A -> bool) (l : list A) : list A :=
  fold_right (insert_sorted leb) [] l.

End Py.

Import Py.

Notation "'try' x ':=' m 'in' k" := (bind m (fun x => k))
  (at level 10, x name, m at level 100, k at level 200).

(* ===================================================================== *)
(** ** models.py                                                          *)
(* ===================================================================== *)

Module Models.

(** [class XRechnungInvoice(models.Model)].  [id] is [None] until the first
    insert; the amounts are [option] because [save] tests them for presence;
    the two timestamps are assigned by the store. *)
Record XRechnungInvoice : Type := mkInvoice {
  id : option Z;
  invoice_number : string;
  invoice_date : date;
  due_date : option date;
  supplier_name : string;
  supplier_tax_id : string;
  buyer_name : string;
  buyer_tax_id : string;
  total_amount : option Decimal;
  tax_amount : option Decimal;
  net_amount : option Decimal;
  currency : string;
  xml_content : string;
  created_at : option Z;
  updated_at : option Z
}.

(** [class XRechnungLineItem(models.Model)].  [invoice_id] is the attribute
    behind the [invoice] foreign key. *)
Record XRechnungLineItem : Type := mkLineItem {
  item_id : option Z;
  invoice_id : Z;
  position : nat;
  description : string;
  quantity : option Decimal;
  unit_price : option Decimal;
  line_total : option Decimal;
  tax_rate : Decimal
}.

(** Field defaults: [tax_amount = 0], [currency = "EUR"], [quantity = 1],
    [tax_rate = 19.00].  The defaults 0 and 1 are Python ints, which are
    falsy and truthy as the decimals 0 and 1 are and enter decimal
    arithmetic as them; the default 19.00 is taken as the decimal the
    column stores. *)
Definition default_tax_amount : Decimal := mkDecimal 0 0.
Definition default_currency : string := "EUR".
Definition default_quantity : Decimal := mkDecimal 1 0.
Definition default_tax_rate : Decimal := mkDecimal 1900 (-2).

(** The constructor [XRechnungInvoice] called with keyword arguments,
    an omitted optional argument taking the field's default. *)
Definition new_invoice (number : string) (issued : date)
  (supplier buyer : string) (total : option Decimal)
  (tax : option (option Decimal)) (net : option Decimal) : XRechnungInvoice :=
  {| id := None;
     invoice_number := number;
     invoice_date := issued;
     due_date := None;
     supplier_name := supplier;
     supplier_tax_id := "";
     buyer_name := buyer;
     buyer_tax_id := "";
     total_amount := total;
     tax_amount := default (Some default_tax_amount) tax;
     net_amount := net;
     currency := default_currency;
     xml_content := "";
     created_at := None;
     updated_at := None |}.

(** The constructor [XRechnungLineItem] called with keyword arguments. *)
Definition new_line_item (invoice : Z) (pos : nat) (descr : string)
  (qty : option (option Decimal)) (price total : option Decimal)
  : XRechnungLineItem :=
  {| item_id := None;
     invoice_id := invoice;
     position := pos;
     description := descr;
     quantity := default (Some default_quantity) qty;
     unit_price := price;
     line_total := total;
     tax_rate := default_tax_rate |}.

(** Attribute assignments [self.<field> = v]. *)
Definition set_net_amount (v : option Decimal) (self : XRechnungInvoice)
  : XRechnungInvoice :=
  {| id := id self;
     invoice_number := invoice_number self;
     invoice_date := invoice_date self;
     due_date := due_date self;
     supplier_name := supplier_name self;
     supplier_tax_id := supplier_tax_id self;
     buyer_name := buyer_name self;
     buyer_tax_id := buyer_tax_id self;
     total_amount := total_amount self;
     tax_amount := tax_amount self;
     net_amount := v;
     currency := currency self;
     xml_content := xml_content self;
     created_at := created_at self;
     updated_at := updated_at self |}.

Definition set_invoice_number (v : string) (self : XRechnungInvoice)
  : XRechnungInvoice :=
  {| id := id self;
     invoice_number := v;
     invoice_date := invoice_date self;
     due_date := due_date self;
     supplier_name := supplier_name self;
     supplier_tax_id := supplier_tax_id self;
     buyer_name := buyer_name self;
     buyer_tax_id := buyer_tax_id self;
     total_amount := total_amount self;
     tax_amount := tax_amount self;
     net_amount := net_amount self;
     currency := currency self;
     xml_content := xml_content self;
     created_at := created_at self;
     updated_at := updated_at self |}.

(** What the store assigns on a write: the key and the two timestamps. *)
Definition set_stamps (pk created updated : option Z)
  (self : XRechnungInvoice) : XRechnungInvoice :=
  {| id := pk;
     invoice_number := invoice_number self;
     invoice_date := invoice_date self;
     due_date := due_date self;
     supplier_name := supplier_name self;
     supplier_tax_id := supplier_tax_id self;
     buyer_name := buyer_name self;
     buyer_tax_id := buyer_tax_id self;
     total_amount := total_amount self;
     tax_amount := tax_amount self;
     net_amount := net_amount self;
     currency := currency self;
     xml_content := xml_content self;
     created_at := created;
     updated_at := updated |}.

Definition set_line_total (v : option Decimal) (self : XRechnungLineItem)
  : XRechnungLineItem :=
  {| item_id := item_id self;
     invoice_id := invoice_id self;
     position := position self;
     description := description self;
     quantity := quantity self;
     unit_price := unit_price self;
     line_total := v;
     tax_rate := tax_rate self |}.

Definition set_item_id (pk : option Z) (self : XRechnungLineItem)
  : XRechnungLineItem :=
  {| item_id := pk;
     invoice_id := invoice_id self;
     position := position self;
     description := description self;
     quantity := quantity self;
     unit_price := unit_price self;
     line_total := line_total self;
     tax_rate := tax_rate self |}.

(** *** The record store *)

(** What a decimal column receives: the value at the scale of the column
    ([decimal_places]), as the field prepares it for the database
    ([DecimalField.get_db_prep_save] quantizes it to that many places,
    rounding half to even); a row read back has its decimals at that
    scale.  [None] stays [None]. *)
Definition adapt_decimal (decimal_places : Z) (value : option Decimal)
  : option Decimal :=
  option_map (quantize decimal_places) value.

(** The row an invoice instance is written as: the three amounts are
    [DecimalField(max_digits=12, decimal_places=2)]. *)
Definition adapt_invoice (self : XRechnungInvoice) : XRechnungInvoice :=
  {| id := id self;
     invoice_number := invoice_number self;
     invoice_date := invoice_date self;
     due_date := due_date self;
     supplier_name := supplier_name self;
     supplier_tax_id := supplier_tax_id self;
     buyer_name := buyer_name self;
     buyer_tax_id := buyer_tax_id self;
     total_amount := adapt_decimal 2 (total_amount self);
     tax_amount := adapt_decimal 2 (tax_amount self);
     net_amount := adapt_decimal 2 (net_amount self);
     currency := currency self;
     xml_content := xml_content self;
     created_at := created_at self;
     updated_at := updated_at self |}.

(** The row a line item instance is written as: [quantity] has
    [decimal_places=3], the other three decimals [decimal_places=2]. *)
Definition adapt_line_item (self : XRechnungLineItem) : XRechnungLineItem :=
  {| item_id := item_id self;
     invoice_id := invoice_id self;
     position := position self;
     description := description self;
     quantity := adapt_decimal 3 (quantity self);
     unit_price := adapt_decimal 2 (unit_price self);
     line_total := adapt_decimal 2 (line_total self);
     tax_rate := quantize 2 (tax_rate self) |}.

(** The two tables, rows in insertion order, and the two key sequences.  A
    row holds the field values of the instance that was written, the
    decimals at the scale of their columns ([adapt_invoice],
    [adapt_line_item]).  The limits a backend puts on the number of digits
    of a decimal column and on the length of a text column are not part of
    this model. *)
Record Store : Type := mkStore {
  invoices : list XRechnungInvoice;
  line_items : list XRechnungLineItem;
  next_invoice_id : Z;
  next_item_id : Z
}.

Definition empty_store : Store :=
  {| invoices := []; line_items := []; next_invoice_id := 1;
     next_item_id := 1 |}.

Definition pk_eqb (a b : option Z) : bool :=
  match a, b with
  | Some x, Some y => x =? y
  | _, _ => false
  end.

(** [XRechnungInvoice.objects.get(pk=pk)] *)
Definition get_invoice (pk : Z) (db : Store) : option XRechnungInvoice :=
  List.find (fun r => pk_eqb (id r) (Some pk)) (invoices db).

(** The constraints the field declarations put on the invoice table:
    [total_amount] and [tax_amount] are NOT NULL, [invoice_number] is
    [unique=True].  [others] are the rows the written row is checked
    against. *)
Definition invoice_constraints_ok (row : XRechnungInvoice)
  (others : list XRechnungInvoice) : bool :=
  negb (is_None (total_amount row)) &&
  negb (is_None (tax_amount row)) &&
  negb (existsb (fun r => String.eqb (invoice_number r) (invoice_number row))
          others).

(** The constraints on the line item table: [quantity] and [unit_price] are
    NOT NULL, the [invoice] key names a stored invoice, and
    [unique_together = ["invoice", "position"]]. *)
Definition line_item_constraints_ok (row : XRechnungLineItem)
  (others : list XRechnungLineItem) (db : Store) : bool :=
  negb (is_None (quantity row)) &&
  negb (is_None (unit_price row)) &&
  negb (is_None (get_invoice (invoice_id row) db)) &&
  negb (existsb (fun r => (invoice_id r =? invoice_id row) &&
                          Nat.eqb (position r) (position row)) others).

Definition replace_invoice (row : XRechnungInvoice)
  (rows : list XRechnungInvoice) : list XRechnungInvoice :=
  List.map (fun r => if pk_eqb (id r) (id row) then row else r) rows.

Definition replace_line_item (row : XRechnungLineItem)
  (rows : list XRechnungLineItem) : list XRechnungLineItem :=
  List.map (fun r => if pk_eqb (item_id r) (item_id row) then row else r) rows.

Definition with_invoices (rows : list XRechnungInvoice) (next : Z)
  (db : Store) : Store :=
  {| invoices := rows; line_items := line_items db;
     next_invoice_id := next; next_item_id := next_item_id db |}.

Definition with_line_items (rows : list XRechnungLineItem) (next : Z)
  (db : Store) : Store :=
  {| invoices := invoices db; line_items := rows;
     next_invoice_id := next_invoice_id db; next_item_id := next |}.

(** [models.Model.save] on an invoice, at time [now].  A row with the
    instance's key is updated unless [force_insert]; otherwise a row is
    inserted, under the instance's key or the next key of the sequence.
    [auto_now] stamps [updated_at] on every write and [auto_now_add] stamps
    [created_at] on an insert; [now] is the time of the write, the two
    stamps of one write being taken as one instant.  The instance is
    returned as the write leaves it: the stamps are set before the store
    checks its constraints, and its decimals stay as they are while the row
    gets them at column scale. *)
Definition Model_save_invoice (self : XRechnungInvoice) (force_insert : bool)
  (now : Z) (db : Store) : XRechnungInvoice * Result Store :=
  let stored :=
    match id self with
    | Some pk => negb (is_None (get_invoice pk db))
    | None => false
    end in
  if stored && negb force_insert then
    let row := set_stamps (id self) (created_at self) (Some now) self in
    let others :=
      List.filter (fun r => negb (pk_eqb (id r) (id row))) (invoices db) in
    if invoice_constraints_ok row others && negb (is_None (created_at row))
    then (row, ok (with_invoices
                     (replace_invoice (adapt_invoice row) (invoices db))
                     (next_invoice_id db) db))
    else (row, raise IntegrityError)
  else
    let stamped := set_stamps (id self) (Some now) (Some now) self in
    if stored || negb (invoice_constraints_ok stamped (invoices db))
    then (stamped, raise IntegrityError)
    else
      let pk := default (next_invoice_id db) (id self) in
      let row := set_stamps (Some pk) (Some now) (Some now) self in
      (row, ok (with_invoices (invoices db ++ [adapt_invoice row])
                  (Z.max (next_invoice_id db) (pk + 1)) db)).

(** [models.Model.save] on a line item. *)
Definition Model_save_line_item (self : XRechnungLineItem)
  (force_insert : bool) (db : Store) : XRechnungLineItem * Result Store :=
  let stored :=
    match item_id self with
    | Some pk =>
        existsb (fun r => pk_eqb (item_id r) (Some pk)) (line_items db)
    | None => false
    end in
  if stored && negb force_insert then
    let others :=
      List.filter (fun r => negb (pk_eqb (item_id r) (item_id self)))
        (line_items db) in
    if line_item_constraints_ok self others db
    then (self, ok (with_line_items
                      (replace_line_item (adapt_line_item self)
                         (line_items db))
                      (next_item_id db) db))
    else (self, raise IntegrityError)
  else
    if stored || negb (line_item_constraints_ok self (line_items db) db)
    then (self, raise IntegrityError)
    else
      let pk := default (next_item_id db) (item_id self) in
      let row := set_item_id (Some pk) self in
      (row, ok (with_line_items (line_items db ++ [adapt_line_item row])
                  (Z.max (next_item_id db) (pk + 1)) db)).

(** *** The two [save] overrides *)

(** models.py, [XRechnungInvoice.save], the statement before
    [super().save]:
      if self.net_amount is None and self.total_amount and self.tax_amount:
          self.net_amount = self.total_amount - self.tax_amount *)
Definition derive_net_amount (self : XRechnungInvoice) : XRechnungInvoice :=
  if is_None (net_amount self) && truthy (total_amount self)
     && truthy (tax_amount self)
  then
    match total_amount self, tax_amount self with
    | Some total, Some tax => set_net_amount (Some (dec_sub total tax)) self
    | _, _ => self (* not reached: a truthy amount is present *)
    end
  else self.

(** [XRechnungInvoice.save] *)
Definition XRechnungInvoice_save (self : XRechnungInvoice)
  (force_insert : bool) (now : Z) (db : Store)
  : XRechnungInvoice * Result Store :=
  Model_save_invoice (derive_net_amount self) force_insert now db.

(** models.py, [XRechnungLineItem.save], the statement before
    [super().save]:
      if self.line_total is None and self.quantity and self.unit_price:
          self.line_total = self.quantity * self.unit_price *)
Definition derive_line_total (self : XRechnungLineItem) : XRechnungLineItem :=
  if is_None (line_total self) && truthy (quantity self)
     && truthy (unit_price self)
  then
    match quantity self, unit_price self with
    | Some qty, Some price => set_line_total (Some (dec_mul qty price)) self
    | _, _ => self (* not reached: a truthy operand is present *)
    end
  else self.

(** [XRechnungLineItem.save] *)
Definition XRechnungLineItem_save (self : XRechnungLineItem)
  (force_insert : bool) (db : Store) : XRechnungLineItem * Result Store :=
  Model_save_line_item (derive_line_total self) force_insert db.

(** [Model.objects.create]: construct, then
    [save(force_insert=True)]. *)
Definition create_invoice (obj : XRechnungInvoice) (now : Z) (db : Store)
  : XRechnungInvoice * Result Store :=
  XRechnungInvoice_save obj true now db.

Definition create_line_item (obj : XRechnungLineItem) (db : Store)
  : XRechnungLineItem * Result Store :=
  XRechnungLineItem_save obj true db.

(** *** [Meta.ordering] and the default managers *)

Definition stamp_leb (a b : option Z) : bool :=
  match a, b with
  | None, _ => true
  | Some _, None => false
  | Some x, Some y => x <=? y
  end.

(** [ordering = ["-invoice_date", "-created_at"]]: [a] is listed before [b]. *)
Definition invoice_before (a b : XRechnungInvoice) : bool :=
  date_ltb (invoice_date b) (invoice_date a) ||
  (date_eqb (invoice_date a) (invoice_date b) &&
   stamp_leb (created_at b) (created_at a)).

(** [ordering = ["position"]] *)
Definition line_item_before (a b : XRechnungLineItem) : bool :=
  Nat.leb (position a) (position b).

(** [XRechnungInvoice.objects.all()] *)
Definition all_invoices (db : Store) : list XRechnungInvoice :=
  order_by invoice_before (invoices db).

(** [invoice.line_items.all()] *)
Definition line_items_of (invoice : XRechnungInvoice) (db : Store)
  : list XRechnungLineItem :=
  order_by line_item_before
    (List.filter (fun r => pk_eqb (Some (invoice_id r)) (id invoice))
       (line_items db)).

End Models.

Import Models.

(* ===================================================================== *)
(** ** views.py                                                           *)
(* ===================================================================== *)

Module Views.

(** What [JsonResponse] serialises. *)
#[local] Unset Elimination Schemes.
Inductive json : Type :=
| JNull
| JInt (n : Z)
| JStr (s : string)
| JList (l : list json)
| JDict (d : list (string * json)).
#[local] Set Elimination Schemes.

(** [d[key]] on a literal dict. *)
Fixpoint dict_get (key : string) (d : list (string * json)) : option json :=
  match d with
  | [] => None
  | (k, v) :: t => if String.eqb k key then Some v else dict_get key t
  end.

Definition json_get (key : string) (j : json) : option json :=
  match j with
  | JDict d => dict_get key d
  | _ => None
  end.

Inductive Body : Type :=
| Text (s : string)
| Json (j : json).

Record HttpResponse : Type := mkResponse {
  status_code : Z;
  content_type : string;
  headers : list (string * string);
  content : Body
}.

(** The part of a request the views read. *)
Record HttpRequest : Type := mkRequest {
  method : string;
  GET : gmap string string;
  user_is_authenticated : bool
}.

Definition JsonResponse (data : json) (status : Z) : HttpResponse :=
  {| status_code := status; content_type := "application/json";
     headers := []; content := Json data |}.

Definition HttpResponseNotAllowed (permitted : list string) : HttpResponse :=
  {| status_code := 405; content_type := "text/html; charset=utf-8";
     headers := [("Allow", String.concat ", " permitted)];
     content := Text "" |}.

(** The decorator [require_http_methods]. *)
Definition require_http_methods (permitted : list string)
  (view : HttpRequest -> Result HttpResponse) (request : HttpRequest)
  : Result HttpResponse :=
  if existsb (String.eqb (method request)) permitted
  then view request
  else ok (HttpResponseNotAllowed permitted).

Definition get_object_or_404 (pk : Z) (db : Store) : Result XRechnungInvoice :=
  match get_invoice pk db with
  | Some invoice => ok invoice
  | None => raise Http404
  end.

(** [str(x)] for a decimal attribute that may be [None]. *)
Definition str_decimal (x : option Decimal) : string :=
  match x with
  | Some d => dec_str d
  | None => "None"
  end.

(** *** [XRechnungInvoiceListView] *)

Definition paginate_by : nat := 20.

(** [XRechnungInvoiceListView.get_queryset].  [to_python] stands for the
    conversion the date lookups apply to their string argument
    ([DateField.to_python]); its failure is raised by [filter]. *)
Definition get_queryset (to_python : string -> Result date)
  (request : HttpRequest) (db : Store) : Result (list XRechnungInvoice) :=
  let queryset := all_invoices db in
  let supplier := GET request !! "supplier" in
  let queryset :=
    if str_truthy supplier
    then List.filter
           (fun r => icontains (default "" supplier) (supplier_name r))
           queryset
    else queryset in
  let start_date := GET request !! "start_date" in
  let end_date := GET request !! "end_date" in
  try queryset :=
    (if str_truthy start_date
     then try d := to_python (default "" start_date) in
          ok (List.filter (fun r => date_leb d (invoice_date r)) queryset)
     else ok queryset) in
  try queryset :=
    (if str_truthy end_date
     then try d := to_python (default "" end_date) in
          ok (List.filter (fun r => date_leb (invoice_date r) d) queryset)
     else ok queryset) in
  ok queryset.

(** [MultipleObjectMixin.paginate_queryset] with [page_size = paginate_by]:
    page [number] of the query set, counted from 1; a page past the last one
    is not found (an empty first page is allowed). *)
Definition paginate_queryset {A : Type} (queryset : list A) (page_size : nat)
  (number : nat) : Result (list A) :=
  let count := List.length queryset in
  let num_pages := Nat.max 1 ((count + page_size - 1) / page_size) in
  if (1 <=? number)%nat && (number <=? num_pages)%nat
  then ok (firstn page_size (skipn ((number - 1) * page_size) queryset))
  else raise Http404.

(** The objects the list page shows: [get_queryset], then the page of size
    [paginate_by]. *)
Definition invoice_list_page (to_python : string -> Result date)
  (request : HttpRequest) (number : nat) (db : Store)
  : Result (list XRechnungInvoice) :=
  try queryset := get_queryset to_python request db in
  paginate_queryset queryset paginate_by number.

(** *** [XRechnungInvoiceApiView] *)

Definition line_item_json (item : XRechnungLineItem) : json :=
  JDict [("position", JInt (Z.of_nat (position item)));
         ("description", JStr (description item));
         ("quantity", JStr (str_decimal (quantity item)));
         ("unit_price", JStr (str_decimal (unit_price item)));
         ("line_total", JStr (str_decimal (line_total item)));
         ("tax_rate", JStr (dec_str (tax_rate item)))].

Definition pk_json (pk : option Z) : json :=
  match pk with
  | Some n => JInt n
  | None => JNull
  end.

(** The dict [data] of [invoice_detail_api]. *)
Definition invoice_detail_data (invoice : XRechnungInvoice) (db : Store)
  : json :=
  JDict [("id", pk_json (id invoice));
         ("invoice_number", JStr (invoice_number invoice));
         ("invoice_date", JStr (isoformat (invoice_date invoice)));
         ("due_date",
          match due_date invoice with
          | Some d => JStr (isoformat d)
          | None => JNull
          end);
         ("supplier_name", JStr (supplier_name invoice));
         ("supplier_tax_id", JStr (supplier_tax_id invoice));
         ("buyer_name", JStr (buyer_name invoice));
         ("buyer_tax_id", JStr (buyer_tax_id invoice));
         ("total_amount", JStr (str_decimal (total_amount invoice)));
         ("tax_amount", JStr (str_decimal (tax_amount invoice)));
         ("net_amount", JStr (str_decimal (net_amount invoice)));
         ("currency", JStr (currency invoice));
         ("line_items",
          JList (List.map line_item_json (line_items_of invoice db)))].

(** [XRechnungInvoiceApiView.invoice_detail_api] *)
Definition invoice_detail_api (pk : Z) (db : Store)
  : HttpRequest -> Result HttpResponse :=
  require_http_methods ["GET"] (fun request =>
    if negb (user_is_authenticated request)
    then ok (JsonResponse (JDict [("error", JStr "Authentication required")])
               401)
    else
      try invoice := get_object_or_404 pk db in
      ok (JsonResponse (invoice_detail_data invoice db) 200)).

Definition invoice_list_entry (invoice : XRechnungInvoice) : json :=
  JDict [("id", pk_json (id invoice));
         ("invoice_number", JStr (invoice_number invoice));
         ("invoice_date", JStr (isoformat (invoice_date invoice)));
         ("supplier_name", JStr (supplier_name invoice));
         ("buyer_name", JStr (buyer_name invoice));
         ("total_amount", JStr (str_decimal (total_amount invoice)));
         ("currency", JStr (currency invoice))].

(** [XRechnungInvoiceApiView.invoice_list_api] *)
Definition invoice_list_api (db : Store)
  : HttpRequest -> Result HttpResponse :=
  require_http_methods ["GET"] (fun request =>
    if negb (user_is_authenticated request)
    then ok (JsonResponse (JDict [("error", JStr "Authentication required")])
               401)
    else
      let invoices := all_invoices db in
      let supplier := GET request !! "supplier" in
      let invoices :=
        if str_truthy supplier
        then List.filter
               (fun r => icontains (default "" supplier) (supplier_name r))
               invoices
        else invoices in
      ok (JsonResponse
            (JDict [("invoices", JList (List.map invoice_list_entry invoices))])
            200)).

(** The double quote and the line feed of the XML template. *)
Definition dq : string := String (ascii_of_nat 34) EmptyString.
Definition nl : string := String (ascii_of_nat 10) EmptyString.

(** The f-string of the [else] branch of [invoice_xml_export]: every field
    is formatted by [str] and pasted as it is. *)
Definition basic_xml (invoice : XRechnungInvoice) : string :=
  "<?xml version=" ++ dq ++ "1.0" ++ dq ++ " encoding=" ++ dq ++ "UTF-8" ++ dq
    ++ "?>" ++ nl ++
  "<Invoice>" ++ nl ++
  "    <InvoiceNumber>" ++ invoice_number invoice ++ "</InvoiceNumber>" ++ nl ++
  "    <InvoiceDate>" ++ isoformat (invoice_date invoice) ++ "</InvoiceDate>"
    ++ nl ++
  "    <Supplier>" ++ nl ++
  "        <Name>" ++ supplier_name invoice ++ "</Name>" ++ nl ++
  "        <TaxID>" ++ supplier_tax_id invoice ++ "</TaxID>" ++ nl ++
  "    </Supplier>" ++ nl ++
  "    <Buyer>" ++ nl ++
  "        <Name>" ++ buyer_name invoice ++ "</Name>" ++ nl ++
  "        <TaxID>" ++ buyer_tax_id invoice ++ "</TaxID>" ++ nl ++
  "    </Buyer>" ++ nl ++
  "    <TotalAmount currency=" ++ dq ++ currency invoice ++ dq ++ ">"
    ++ str_decimal (total_amount invoice) ++ "</TotalAmount>" ++ nl ++
  "</Invoice>".

Definition content_disposition (invoice : XRechnungInvoice)
  : string * string :=
  ("Content-Disposition",
   "attachment; filename=" ++ dq ++ "invoice_" ++ invoice_number invoice
   ++ ".xml" ++ dq).

(** [XRechnungInvoiceApiView.invoice_xml_export] *)
Definition invoice_xml_export (pk : Z) (db : Store)
  : HttpRequest -> Result HttpResponse :=
  require_http_methods ["GET"] (fun request =>
    try invoice := get_object_or_404 pk db in
    if negb (String.eqb (xml_content invoice) "")
    then ok {| status_code := 200; content_type := "application/xml";
               headers := [content_disposition invoice];
               content := Text (xml_content invoice) |}
    else ok {| status_code := 200; content_type := "application/xml";
               headers := [content_disposition invoice];
               content := Text (basic_xml invoice) |}).

End Views.

Import Views.

(* ===================================================================== *)
(** ** config.py                                                          *)
(* ===================================================================== *)

Module Config.

Inductive ConfigValue : Type :=
| CStr (s : string)
| CInt (n : Z)
| CFloat (q : Q)
| CBool (b : bool)
| CDict (d : gmap string string).

(** [XRechnungConfig.DEFAULT_CONFIG] *)
Definition DEFAULT_CONFIG : gmap string ConfigValue :=
  list_to_map
    [("CURRENCY", CStr "EUR");
     ("DEFAULT_TAX_RATE", CFloat (19 # 1));
     ("PAGINATION_SIZE", CInt 20);
     ("XML_VALIDATION", CBool true);
     ("REQUIRE_TAX_ID", CBool false);
     ("DATE_FORMAT", CStr "%Y-%m-%d");
     ("DECIMAL_PLACES", CInt 2);
     ("MAX_INVOICE_NUMBER_LENGTH", CInt 100);
     ("ALLOW_NEGATIVE_AMOUNTS", CBool false);
     ("XML_NAMESPACE",
      CDict (list_to_map
        [("ubl", "urn:oasis:names:specification:ubl:schema:xsd:Invoice-2");
         ("cac", "urn:oasis:names:specification:ubl:schema:xsd:CommonAggregateComponents-2");
         ("cbc", "urn:oasis:names:specification:ubl:schema:xsd:CommonBasicComponents-2")]))].

(** What the configuration is read from: the [DJANGO_XRECHNUNG] attribute
    of the Django settings, when it is defined, and the table
    [tool.django-xrechnung] of pyproject.toml, when the file can be read and
    has one. *)
Record Environment : Type := mkEnvironment {
  DJANGO_XRECHNUNG : option (gmap string ConfigValue);
  pyproject_table : option (gmap string ConfigValue)
}.

(** [dict.update]: the keys of [other] overwrite those of [config]. *)
Definition dict_update (config other : gmap string ConfigValue)
  : gmap string ConfigValue := other ∪ config.

(** [XRechnungConfig._load_from_pyproject]: the table, or the empty dict when
    the parser, the file or the table is missing or reading fails. *)
Definition _load_from_pyproject (env : Environment)
  : gmap string ConfigValue :=
  default ∅ (pyproject_table env).

(** [XRechnungConfig._load_config] *)
Definition _load_config (env : Environment) : gmap string ConfigValue :=
  let config := DEFAULT_CONFIG in
  let django_config := default ∅ (DJANGO_XRECHNUNG env) in
  let config := dict_update config django_config in
  let pyproject_config := _load_from_pyproject env in
  if negb (Nat.eqb (size pyproject_config) 0)
  then dict_update config pyproject_config
  else config.

(** [XRechnungConfig.get] *)
Definition get (_config : gmap string ConfigValue) (key : string)
  (default_ : ConfigValue) : ConfigValue :=
  default default_ (_config !! key).

(** The property [XRechnungConfig.pagination_size], documented as "Get the
    pagination size for list views". *)
Definition pagination_size (_config : gmap string ConfigValue) : ConfigValue :=
  get _config "PAGINATION_SIZE" (CInt 20).

(** The property [XRechnungConfig.currency]. *)
Definition config_currency (_config : gmap string ConfigValue) : ConfigValue :=
  get _config "CURRENCY" (CStr "EUR").

End Config.

(* ===================================================================== *)
(** ** admin.py                                                           *)
(* ===================================================================== *)

Module Admin.

(** [XRechnungInvoiceAdmin.readonly_fields] *)
Definition readonly_fields : list string :=
  ["created_at"; "updated_at"; "net_amount"].

(** [XRechnungInvoiceAdmin.get_readonly_fields(request, obj=None)]: a model
    instance is always truthy, so [if obj] asks whether one was given. *)
Definition get_readonly_fields (request : option HttpRequest)
  (obj : option XRechnungInvoice) : list string :=
  let readonly := readonly_fields in
  if negb (is_None obj) then readonly ++ ["invoice_number"] else readonly.

(** A value of the change form: a read-only field is displayed, not
    submitted, and keeps the instance's value; an editable field takes the
    posted value, a missing one being an error unless the field is
    [blank=True]. *)
Definition form_value (readonly : list string) (posted : gmap string string)
  (name : string) (blank : bool) (current : string) : Result string :=
  if existsb (String.eqb name) readonly then ok current
  else
    match posted !! name with
    | Some v => ok v
    | None => if blank then ok "" else raise ValidationError
    end.

(** The instance a valid change form produces from the posted text fields
    (dates and amounts are kept as the instance has them). *)
Definition apply_change_form (readonly : list string)
  (posted : gmap string string) (obj : XRechnungInvoice)
  : Result XRechnungInvoice :=
  try number :=
    form_value readonly posted "invoice_number" false (invoice_number obj) in
  try supplier :=
    form_value readonly posted "supplier_name" false (supplier_name obj) in
  try supplier_tax :=
    form_value readonly posted "supplier_tax_id" true (supplier_tax_id obj) in
  try buyer :=
    form_value readonly posted "buyer_name" false (buyer_name obj) in
  try buyer_tax :=
    form_value readonly posted "buyer_tax_id" true (buyer_tax_id obj) in
  try cur := form_value readonly posted "currency" false (currency obj) in
  try xml := form_value readonly posted "xml_content" true (xml_content obj) in
  ok {| id := id obj;
        invoice_number := number;
        invoice_date := invoice_date obj;
        due_date := due_date obj;
        supplier_name := supplier;
        supplier_tax_id := supplier_tax;
        buyer_name := buyer;
        buyer_tax_id := buyer_tax;
        total_amount := total_amount obj;
        tax_amount := tax_amount obj;
        net_amount := net_amount obj;
        currency := cur;
        xml_content := xml;
        created_at := created_at obj;
        updated_at := updated_at obj |}.

(** The admin's change view on the stored invoice [pk]: the form built with
    [get_readonly_fields(request, obj)], then [obj.save()]. *)
Definition change_view (request : option HttpRequest)
  (posted : gmap string string) (pk : Z) (now : Z) (db : Store)
  : Result Store :=
  try obj := get_object_or_404 pk db in
  try changed :=
    apply_change_form (get_readonly_fields request (Some obj)) posted obj in
  snd (XRechnungInvoice_save changed false now db).

End Admin.


(* ===================================================================== *)
(** ** The predicates the properties are stated with, and sample data     *)
(* ===================================================================== *)

Module Properties.

(** [part] occurs in [whole] as a contiguous piece. *)
Definition occurs_in (part whole : string) : Prop :=
  exists pre post, whole = pre ++ part ++ post.

(** The bound a date parameter of the list view stands for: none when the
    parameter is absent or empty, the date it converts to otherwise. *)
Definition date_bound (to_python : string -> Result date)
  (param : option string) : Result (option date) :=
  match param with
  | None => ok None
  | Some s =>
      if String.eqb s "" then ok None
      else try d := to_python s in ok (Some d)
  end.

(** An invoice passes the filters: its supplier name contains [supplier]
    whatever the case, and its date is within [lo, hi]; a filter that is
    [None] lets every invoice pass. *)
Definition matches_filters (supplier : option string) (lo hi : option date)
  (r : XRechnungInvoice) : bool :=
  match supplier with
  | Some s => icontains s (supplier_name r)
  | None => true
  end &&
  match lo with
  | Some d => date_leb d (invoice_date r)
  | None => true
  end &&
  match hi with
  | Some d => date_leb (invoice_date r) d
  | None => true
  end.

(** [d] has at most [places] fractional digits, trailing zeros apart: it
    can be written at the exponent [-places] without rounding. *)
Definition fits_places (places : Z) (d : Decimal) : Prop :=
  - places <= exp d \/ coef d mod 10 ^ (- places - exp d) = 0.

(** [a] is an earlier day than [b]. *)
Definition date_lt (a b : date) : Prop :=
  (year a < year b)%nat \/
  (year a = year b /\
   ((month a < month b)%nat \/ (month a = month b /\ (day a < day b)%nat))).

(** [a] may be listed before [b]: it has the later invoice date, or the
    same date and a creation time that is not earlier. *)
Definition listed_before (a b : XRechnungInvoice) : Prop :=
  date_ltb (invoice_date b) (invoice_date a) = true \/
  (invoice_date a = invoice_date b /\
   stamp_leb (created_at b) (created_at a) = true).

End Properties.

Import Properties.

Module Scenarios.

(** The invoice of the scenario "INV-2024-002": total 119.00, tax 19.00, no
    net amount given. *)
Definition INV_2024_002 : XRechnungInvoice :=
  new_invoice "INV-2024-002" (mkDate 2024 3 1) "Test Supplier" "Test Buyer"
    (Some (mkDecimal 11900 (-2))) (Some (Some (mkDecimal 1900 (-2)))) None.

(** The line item of the scenario: quantity 3.0, unit price 25.00, no line
    total given, on the invoice with key 1. *)
Definition LINE_3_x_25 : XRechnungLineItem :=
  new_line_item 1 1 "Test Product" (Some (Some (mkDecimal 30 (-1))))
    (Some (mkDecimal 2500 (-2))) None.

(** A line item whose product has five fractional digits: quantity 0.333,
    unit price 0.05, no line total given, on the invoice with key 1. *)
Definition LINE_FRACTION : XRechnungLineItem :=
  new_line_item 1 1 "Fraction" (Some (Some (mkDecimal 333 (-3))))
    (Some (mkDecimal 5 (-2))) None.

(** The store a successful write leaves (the empty store stands in for a
    refused write). *)
Definition store_of (r : Result Store) : Store :=
  match r with
  | inr db => db
  | inl _ => empty_store
  end.

(** The store with the one invoice INV-2024-002, and the same store with
    the one line item on it. *)
Definition db_one_invoice : Store :=
  store_of (snd (create_invoice INV_2024_002 0 empty_store)).

Definition db_one_item : Store :=
  store_of (snd (create_line_item LINE_3_x_25 db_one_invoice)).

(** A conversion of the date parameters for the examples: "YYYY-MM-DD" with
    decimal digits, anything else being refused. *)
Definition digit_of (c : ascii) : option nat :=
  let n := nat_of_ascii c in
  if (48 <=? n)%nat && (n <=? 57)%nat then Some (n - 48)%nat else None.

Fixpoint number_of (acc : nat) (s : string) : option nat :=
  match s with
  | EmptyString => Some acc
  | String c t =>
      match digit_of c with
      | Some d => number_of (10 * acc + d)%nat t
      | None => None
      end
  end.

Definition sample_to_python (s : string) : Result date :=
  match number_of 0 (String.substring 0 4 s),
        number_of 0 (String.substring 5 2 s),
        number_of 0 (String.substring 8 2 s) with
  | Some y, Some m, Some d =>
      if Nat.eqb (String.length s) 10
         && String.eqb (String.substring 4 1 s) "-"
         && String.eqb (String.substring 7 1 s) "-"
      then ok (mkDate y m d)
      else raise ValidationError
  | _, _, _ => raise ValidationError
  end.

(** Two invoices of different suppliers, as in the filtering test. *)
Definition INV_TEST_001 : XRechnungInvoice :=
  new_invoice "INV-TEST-001" (mkDate 2024 3 1) "Test Supplier Ltd."
    "Test Buyer Inc." (Some (mkDecimal 11900 (-2)))
    (Some (Some (mkDecimal 1900 (-2)))) (Some (mkDecimal 10000 (-2))).

Definition INV_TEST_002 : XRechnungInvoice :=
  new_invoice "INV-TEST-002" (mkDate 2024 3 1) "Another Supplier"
    "Test Buyer Inc." (Some (mkDecimal 20000 (-2))) None None.

Definition db_two_suppliers : Store :=
  store_of (snd (create_invoice INV_TEST_002 20
    (store_of (snd (create_invoice INV_TEST_001 10 empty_store))))).

Definition request_test_supplier : HttpRequest :=
  {| method := "GET";
     GET := {[ "supplier" := "test supplier"; "start_date" := "2024-01-01" ]};
     user_is_authenticated := false |}.

(** A store of 21 invoices, numbered. *)
Definition numbered_invoice (k : nat) : XRechnungInvoice :=
  new_invoice ("INV-" ++ nat_str k) (mkDate 2024 1 k) "Supplier" "Buyer"
    (Some (mkDecimal 100 0)) None None.

Definition db_21_invoices : Store :=
  fold_left
    (fun db k =>
       store_of (snd (create_invoice (numbered_invoice k) (Z.of_nat k) db)))
    (seq 1 21) empty_store.

(** Settings that override the page size: [DJANGO_XRECHNUNG =
    {"PAGINATION_SIZE": 50}], no pyproject table. *)
Definition env_page_size_50 : Config.Environment :=
  {| Config.DJANGO_XRECHNUNG := Some {[ "PAGINATION_SIZE" := Config.CInt 50 ]};
     Config.pyproject_table := None |}.

(** A store whose invoice has no net amount (the tax amount was left at its
    default) and whose line item has no line total (the unit price is
    0.00). *)
Definition LINE_FREE : XRechnungLineItem :=
  new_line_item 1 1 "Free sample" None (Some (mkDecimal 0 (-2))) None.

Definition db_null_amounts : Store :=
  store_of (snd (create_line_item LINE_FREE
    (store_of (snd (create_invoice INV_TEST_002 20 empty_store))))).

(** An invoice whose supplier name holds markup characters. *)
Definition INV_MARKUP : XRechnungInvoice :=
  new_invoice "INV-<1>" (mkDate 2024 3 1) "A<B>&C" "Test Buyer"
    (Some (mkDecimal 11900 (-2))) None None.

Definition db_markup : Store :=
  store_of (snd (create_invoice INV_MARKUP 0 empty_store)).

(** The stored invoice INV-2024-002 with its invoice number reassigned. *)
Definition INV_RENAMED : XRechnungInvoice :=
  set_invoice_number "INV-RENAMED"
    (fst (create_invoice INV_2024_002 0 empty_store)).

(** A change form that posts another invoice number and supplier name. *)
Definition posted_rename : gmap string string :=
  {[ "invoice_number" := "INV-RENAMED"; "supplier_name" := "New Supplier";
     "buyer_name" := "Test Buyer"; "currency" := "EUR" ]}.

(** An anonymous and a logged-in GET request without parameters. *)
Definition anonymous_get : HttpRequest :=
  {| method := "GET"; GET := ∅; user_is_authenticated := false |}.

Definition authenticated_get : HttpRequest :=
  {| method := "GET"; GET := ∅; user_is_authenticated := true |}.

End Scenarios.

Import Scenarios.

(* ===================================================================== *)
(** ** More of models.py, views.py and config.py                          *)
(* ===================================================================== *)

Module Validation.

(** One character of the class [A-Z]. *)
Definition is_AZ (c : ascii) : bool :=
  let n := nat_of_ascii c in
  (65 <=? n)%nat && (n <=? 90)%nat.

(** [re.search] of the pattern of the currency validator, [^[A-Z]{3}$]:
    three capitals at the start, then the end of the string, which [$] also
    sees in front of one final line feed. *)
Definition currency_regex_search (value : string) : bool :=
  match value with
  | String a (String b (String c rest)) =>
      is_AZ a && is_AZ b && is_AZ c &&
      (String.eqb rest "" || String.eqb rest nl)
  | _ => false
  end.

(** [MaxLengthValidator(3)], which [max_length=3] adds to the field. *)
Definition currency_max_length_ok (value : string) : bool :=
  (String.length value <=? 3)%nat.

(** What [full_clean] does to the [currency] field: an empty value is
    refused ([blank] is not set), then both validators run. *)
Definition clean_currency (value : string) : Result string :=
  if String.eqb value "" then raise ValidationError
  else if currency_regex_search value && currency_max_length_ok value
       then ok value
       else raise ValidationError.

End Validation.

Module Deletion.

(** [invoice.delete()] with [on_delete=models.CASCADE] on the line items'
    foreign key: the line items of the invoice go with it. *)
Definition delete_invoice (pk : Z) (db : Store) : Store :=
  {| invoices :=
       List.filter (fun r => negb (pk_eqb (id r) (Some pk))) (invoices db);
     line_items :=
       List.filter (fun r => negb (invoice_id r =? pk)) (line_items db);
     next_invoice_id := next_invoice_id db;
     next_item_id := next_item_id db |}.

End Deletion.

Module Invariants.

(** What the key sequences and the declared constraints keep true of a
    store: keys are assigned and below their sequence, no key, no invoice
    number and no (invoice, position) pair occurs twice, and every line item
    belongs to a stored invoice. *)
Record store_ok (db : Store) : Prop := mk_store_ok {
  invoice_keys_assigned :
    List.Forall (fun r => exists k, id r = Some k /\ k < next_invoice_id db)
      (invoices db);
  invoice_keys_unique : List.NoDup (List.map id (invoices db));
  invoice_numbers_unique : List.NoDup (List.map invoice_number (invoices db));
  item_keys_assigned :
    List.Forall (fun r => exists k, item_id r = Some k /\ k < next_item_id db)
      (line_items db);
  item_keys_unique : List.NoDup (List.map item_id (line_items db));
  positions_unique :
    List.NoDup (List.map (fun r => (invoice_id r, position r)) (line_items db));
  items_owned :
    List.Forall (fun r => is_None (get_invoice (invoice_id r) db) = false)
      (line_items db)
}.

(** [XRechnungLineItem.objects.get(pk=pk)] *)
Definition get_line_item (pk : Z) (db : Store) : option XRechnungLineItem :=
  List.find (fun r => pk_eqb (item_id r) (Some pk)) (line_items db).

End Invariants.

Module ConfigAccess.

Import Config.

(** ASCII upper-casing, for [name.upper()]. *)
Definition upper_ascii (c : ascii) : ascii :=
  let n := nat_of_ascii c in
  if (97 <=? n)%nat && (n <=? 122)%nat then ascii_of_nat (n - 32) else c.

Fixpoint upper (s : string) : string :=
  match s with
  | EmptyString => EmptyString
  | String c t => String (upper_ascii c) (upper t)
  end.

(** [XRechnungConfig.__getattr__]: the value under the upper-cased name;
    [None] stands for the [AttributeError] of a name that is no key. *)
Definition __getattr__ (_config : gmap string ConfigValue) (name : string)
  : option ConfigValue :=
  if bool_decide (is_Some (_config !! upper name))
  then _config !! upper name
  else None.

End ConfigAccess.

Module DetailView.

(** [XRechnungInvoiceDetailView.get_context_data]: the entry [line_items]
    it adds to the context, [self.object.line_items.all()]. *)
Definition get_context_data (object : XRechnungInvoice) (db : Store)
  : list XRechnungLineItem :=
  line_items_of object db.

End DetailView.

Import Validation Deletion Invariants.

(* ===================================================================== *)
(** ** Facts about the decimal arithmetic                                 *)
(* ===================================================================== *)

Section DecimalFacts.

Lemma pow10_pos (k : Z) : 0 <= k -> 0 < 10 ^ k.
Proof. intros Hk. apply Z.pow_pos_nonneg; lia. Qed.

(** A coefficient of at most [prec] digits is not rounded. *)
Lemma dec_fix_small (d : Decimal) :
  Z.abs (coef d) < 10 ^ prec -> dec_fix d = d.
Proof.
  intros Hsmall. unfold dec_fix.
  destruct (Z.ltb_spec (Z.abs (coef d)) (10 ^ prec)) as [_ | Hge]; [reflexivity | lia].
Qed.

(** Moving [k] digits from the coefficient into the exponent keeps the
    value. *)
Lemma dec_value_shift (c k e : Z) :
  0 <= k ->
  (inject_Z (c * 10 ^ k) * inject_Z 10 ^ e == inject_Z c * inject_Z 10 ^ (k + e))%Q.
Proof.
  intros Hk.
  rewrite inject_Z_mult, (Zpower_Qpower 10 k) by assumption.
  rewrite Qpower_plus by discriminate.
  ring.
Qed.

Lemma dec_value_rescale (d : Decimal) (e : Z) :
  e <= exp d ->
  (inject_Z (rescale e d) * inject_Z 10 ^ e == dec_value d)%Q.
Proof.
  intros He. unfold rescale, dec_value.
  rewrite dec_value_shift by lia.
  replace (exp d - e + e) with (exp d) by lia. reflexivity.
Qed.

(** The difference is exact as long as it fits the context's precision. *)
Lemma dec_sub_exact (a b : Decimal) :
  Z.abs (rescale (Z.min (exp a) (exp b)) a - rescale (Z.min (exp a) (exp b)) b)
    < 10 ^ prec ->
  (dec_value (dec_sub a b) == dec_value a - dec_value b)%Q.
Proof.
  intros Hfit. unfold dec_sub, dec_add.
  assert (Hneg : rescale (Z.min (exp a) (exp (dec_neg b))) (dec_neg b)
                 = - rescale (Z.min (exp a) (exp b)) b)
    by (unfold rescale, dec_neg; simpl; ring).
  change (exp (dec_neg b)) with (exp b) in *.
  rewrite Hneg, dec_fix_small.
  - unfold dec_value at 1. simpl coef. simpl exp.
    replace (rescale (Z.min (exp a) (exp b)) a + - rescale (Z.min (exp a) (exp b)) b)
      with (rescale (Z.min (exp a) (exp b)) a - rescale (Z.min (exp a) (exp b)) b)
      by ring.
    unfold Z.sub at 1. rewrite inject_Z_plus, inject_Z_opp.
    rewrite <- (dec_value_rescale a (Z.min (exp a) (exp b))) by lia.
    rewrite <- (dec_value_rescale b (Z.min (exp a) (exp b))) by lia.
    ring.
  - simpl coef.
    replace (rescale (Z.min (exp a) (exp b)) a + - rescale (Z.min (exp a) (exp b)) b)
      with (rescale (Z.min (exp a) (exp b)) a - rescale (Z.min (exp a) (exp b)) b)
      by ring.
    exact Hfit.
Qed.

(** The product is exact as long as it fits the context's precision. *)
Lemma dec_mul_exact (a b : Decimal) :
  Z.abs (coef a * coef b) < 10 ^ prec ->
  (dec_value (dec_mul a b) == dec_value a * dec_value b)%Q.
Proof.
  intros Hfit. unfold dec_mul. rewrite dec_fix_small by exact Hfit.
  unfold dec_value. simpl coef. simpl exp.
  rewrite inject_Z_mult, Qpower_plus by discriminate.
  ring.
Qed.

(** A value a decimal field accepts, written at any exponent not above its
    own and not below the field's scale, stays within the field's digits. *)
Lemma field_ok_rescale (m p e : Z) (d : Decimal) :
  0 <= p -> field_ok m p d -> - p <= e <= exp d ->
  Z.abs (rescale e d) < 10 ^ m.
Proof.
  intros Hp [Hexp Hdigits] He. unfold rescale.
  rewrite Z.abs_mul, (Z.abs_eq (10 ^ (exp d - e))) by (apply Z.pow_nonneg; lia).
  eapply Z.le_lt_trans; [| exact Hdigits].
  apply Z.mul_le_mono_nonneg_l; [lia |].
  apply Z.pow_le_mono_r; lia.
Qed.

Lemma field_ok_coef (m p : Z) (d : Decimal) :
  0 <= p -> field_ok m p d -> Z.abs (coef d) < 10 ^ m.
Proof.
  intros Hp [Hexp Hdigits].
  eapply Z.le_lt_trans; [| exact Hdigits].
  assert (0 < 10 ^ (exp d + p)) by (apply pow10_pos; lia).
  nia.
Qed.

(** Amounts of a [DecimalField(max_digits=12, decimal_places=2)] subtract
    exactly. *)
Lemma amount_sub_exact (total tax : Decimal) :
  field_ok 12 2 total -> field_ok 12 2 tax ->
  (dec_value (dec_sub total tax) == dec_value total - dec_value tax)%Q.
Proof.
  intros Ht Hx. apply dec_sub_exact.
  pose proof (proj1 Ht). pose proof (proj1 Hx).
  assert (Z.abs (rescale (Z.min (exp total) (exp tax)) total) < 10 ^ 12)
    by (apply (field_ok_rescale 12 2); [lia | assumption | lia]).
  assert (Z.abs (rescale (Z.min (exp total) (exp tax)) tax) < 10 ^ 12)
    by (apply (field_ok_rescale 12 2); [lia | assumption | lia]).
  assert (10 ^ 12 + 10 ^ 12 < 10 ^ prec) by (vm_compute; reflexivity).
  lia.
Qed.

(** A quantity ([max_digits=10, decimal_places=3]) and a unit price
    ([max_digits=10, decimal_places=2]) multiply exactly. *)
Lemma quantity_price_mul_exact (qty price : Decimal) :
  field_ok 10 3 qty -> field_ok 10 2 price ->
  (dec_value (dec_mul qty price) == dec_value qty * dec_value price)%Q.
Proof.
  intros Hq Hp. apply dec_mul_exact.
  pose proof (field_ok_coef 10 3 qty ltac:(lia) Hq) as Hcq.
  pose proof (field_ok_coef 10 2 price ltac:(lia) Hp) as Hcp.
  rewrite Z.abs_mul.
  assert (10 ^ 10 * 10 ^ 10 < 10 ^ prec) by (vm_compute; reflexivity).
  assert (0 <= Z.abs (coef qty)) by lia.
  assert (0 <= Z.abs (coef price)) by lia.
  nia.
Qed.

Lemma quantize_exp (places : Z) (d : Decimal) :
  exp (quantize places d) = - places.
Proof. unfold quantize. destruct (- places <=? exp d); reflexivity. Qed.

(** A decimal already at the scale is left as it is. *)
Lemma quantize_id (places : Z) (d : Decimal) :
  exp d = - places -> quantize places d = d.
Proof.
  intros He. unfold quantize. rewrite <- He.
  rewrite Z.leb_refl.
  replace (exp d + places) with 0 by lia.
  destruct d as [c e]. cbn [coef exp]. f_equal. lia.
Qed.

(** Rounding to the nearest multiple: the result is within half a unit. *)
Lemma round_half_even_near (c k : Z) :
  0 <= c -> 0 <= k ->
  0 <= round_half_even c k /\
  2 * Z.abs (round_half_even c k * 10 ^ k - c) <= 10 ^ k.
Proof.
  intros Hc Hk. unfold round_half_even.
  pose proof (pow10_pos k Hk) as Hp.
  pose proof (Z.div_mod c (10 ^ k) ltac:(lia)) as Hdiv.
  pose proof (Z.mod_pos_bound c (10 ^ k) Hp) as Hmod.
  assert (Hq : 0 <= c / 10 ^ k) by (apply Z.div_pos; lia).
  destruct (Z.ltb_spec (2 * (c mod 10 ^ k)) (10 ^ k));
    [split; [lia | nia] |].
  destruct (Z.ltb_spec (10 ^ k) (2 * (c mod 10 ^ k)));
    [split; [lia | nia] |].
  destruct (Z.even (c / 10 ^ k)); split; try lia; nia.
Qed.

(** Rounding a multiple gives the quotient. *)
Lemma round_half_even_multiple (c k : Z) :
  0 <= k -> c mod 10 ^ k = 0 -> round_half_even c k * 10 ^ k = c.
Proof.
  intros Hk Hmod. unfold round_half_even.
  pose proof (pow10_pos k Hk) as Hp.
  pose proof (Z.div_mod c (10 ^ k) ltac:(lia)) as Hdiv.
  rewrite Hmod. destruct (Z.ltb_spec (2 * 0) (10 ^ k)); lia.
Qed.

Lemma abs_mod_multiple (c p : Z) :
  0 < p -> c mod p = 0 -> Z.abs c mod p = 0.
Proof.
  intros Hp Hmod. destruct (Z.abs_spec c) as [[_ ->] | [_ ->]];
    [exact Hmod |].
  apply Z.mod_divide in Hmod; [| lia].
  apply Z.mod_divide; [lia |]. apply Z.divide_opp_r. exact Hmod.
Qed.

(** A decimal that fits the scale keeps its value when it is quantized. *)
Lemma quantize_exact (places : Z) (d : Decimal) :
  fits_places places d ->
  (dec_value (quantize places d) == dec_value d)%Q.
Proof.
  unfold fits_places, quantize, dec_value.
  destruct (Z.leb_spec (- places) (exp d)) as [Hle | Hlt];
    cbn [coef exp].
  - intros _. rewrite dec_value_shift by lia.
    replace (exp d + places + - places) with (exp d) by lia. reflexivity.
  - intros [Hle | Hmod]; [lia |].
    assert (Hk : 0 <= - places - exp d) by lia.
    pose proof (round_half_even_multiple (Z.abs (coef d))
                  (- places - exp d) Hk
                  (abs_mod_multiple _ _ (pow10_pos _ Hk) Hmod))
      as Hround.
    set (r := Z.sgn (coef d)
              * round_half_even (Z.abs (coef d)) (- places - exp d)).
    assert (Hcoef : coef d = r * 10 ^ (- places - exp d)).
    { unfold r. rewrite <- Z.mul_assoc, Hround. lia. }
    transitivity (inject_Z (r * 10 ^ (- places - exp d))
                  * inject_Z 10 ^ exp d)%Q.
    + rewrite dec_value_shift by lia.
      replace (- places - exp d + exp d) with (- places) by lia.
      reflexivity.
    + rewrite <- Hcoef. reflexivity.
Qed.

(** In general the quantized coefficient, read at the scale of [d], is
    within half a unit of the last kept digit of the coefficient of [d]. *)
Lemma quantize_near (places : Z) (d : Decimal) :
  exp d < - places ->
  2 * Z.abs (coef (quantize places d) * 10 ^ (- places - exp d) - coef d)
  <= 10 ^ (- places - exp d).
Proof.
  intros Hlt. unfold quantize.
  destruct (Z.leb_spec (- places) (exp d)); [lia |]. simpl.
  assert (Hk : 0 <= - places - exp d) by lia.
  destruct (round_half_even_near (Z.abs (coef d)) (- places - exp d)
              (Z.abs_nonneg _) Hk) as [Hpos Hnear].
  destruct (Z.abs_spec (coef d)) as [[Hc Habs] | [Hc Habs]];
    rewrite Habs in *.
  - destruct (Z.eq_dec (coef d) 0) as [Hz | Hnz].
    + pose proof (pow10_pos _ Hk). rewrite Hz.
      change (Z.sgn 0) with 0. lia.
    + rewrite Z.sgn_pos by lia. rewrite Z.mul_1_l. exact Hnear.
  - rewrite Z.sgn_neg by lia.
    replace (-1 * round_half_even (- coef d) (- places - exp d)
             * 10 ^ (- places - exp d) - coef d)
      with (- (round_half_even (- coef d) (- places - exp d)
               * 10 ^ (- places - exp d) - - coef d)) by ring.
    rewrite Z.abs_opp. exact Hnear.
Qed.

(** As numbers: quantizing moves a decimal by at most half a unit of the
    last place kept. *)
Lemma quantize_error (places : Z) (d : Decimal) :
  (Qabs (dec_value (quantize places d) - dec_value d)
   <= (1 # 2) * inject_Z 10 ^ (- places))%Q.
Proof.
  assert (Hten : (0 < inject_Z 10)%Q) by reflexivity.
  destruct (Z.le_gt_cases (- places) (exp d)) as [Hle | Hlt].
  - rewrite (quantize_exact places d (or_introl Hle)).
    assert (Hzero : (dec_value d - dec_value d == 0)%Q) by ring.
    rewrite Hzero.
    apply Qmult_le_0_compat; [discriminate |].
    apply Qlt_le_weak, Qpower_0_lt, Hten.
  - pose proof (quantize_near places d Hlt) as Hnear.
    assert (Hk : 0 <= - places - exp d) by lia.
    set (k := - places - exp d) in *.
    set (c' := coef (quantize places d)) in *.
    assert (Hq : (dec_value (quantize places d)
                  == inject_Z (c' * 10 ^ k) * inject_Z 10 ^ exp d)%Q).
    { unfold dec_value. rewrite quantize_exp. fold c'.
      rewrite dec_value_shift by exact Hk.
      replace (k + exp d) with (- places) by (unfold k; lia).
      reflexivity. }
    assert (Hdiff : (dec_value (quantize places d) - dec_value d
                     == inject_Z (c' * 10 ^ k - coef d)
                        * inject_Z 10 ^ exp d)%Q).
    { rewrite Hq. unfold dec_value, Z.sub.
      rewrite inject_Z_plus, inject_Z_opp. ring. }
    assert (Hunit : (inject_Z 10 ^ (- places)
                     == inject_Z (10 ^ k) * inject_Z 10 ^ exp d)%Q).
    { rewrite <- (Z.mul_1_l (10 ^ k)), dec_value_shift by exact Hk.
      replace (k + exp d) with (- places) by (unfold k; lia).
      change (inject_Z 1) with 1%Q. ring. }
    assert (Hpow : (0 < inject_Z 10 ^ exp d)%Q) by (apply Qpower_0_lt, Hten).
    rewrite Hdiff, Hunit, Qabs_Qmult.
    rewrite (Qabs_pos (inject_Z 10 ^ exp d)) by (apply Qlt_le_weak, Hpow).
    rewrite Qmult_assoc.
    apply Qmult_le_compat_r; [| apply Qlt_le_weak, Hpow].
    unfold Qle, Qmult, Qabs, inject_Z. cbn [Qnum Qden].
    lia.
Qed.

(** A difference of amounts the fields accept fits two places. *)
Lemma amount_sub_fits (total tax : Decimal) :
  field_ok 12 2 total -> field_ok 12 2 tax ->
  fits_places 2 (dec_sub total tax).
Proof.
  intros Ht Hx. left. unfold dec_sub, dec_add.
  change (exp (dec_neg tax)) with (exp tax).
  pose proof (proj1 Ht). pose proof (proj1 Hx).
  assert (Z.abs (rescale (Z.min (exp total) (exp tax)) total) < 10 ^ 12)
    by (apply (field_ok_rescale 12 2); [lia | assumption | lia]).
  assert (Z.abs (rescale (Z.min (exp total) (exp tax)) tax) < 10 ^ 12)
    by (apply (field_ok_rescale 12 2); [lia | assumption | lia]).
  assert (Hneg : rescale (Z.min (exp total) (exp tax)) (dec_neg tax)
                 = - rescale (Z.min (exp total) (exp tax)) tax)
    by (unfold rescale, dec_neg; cbn [coef exp]; ring).
  assert (10 ^ 12 + 10 ^ 12 < 10 ^ prec) by (vm_compute; reflexivity).
  rewrite dec_fix_small by (cbn [coef]; rewrite Hneg; lia).
  cbn [exp]. lia.
Qed.

End DecimalFacts.

(* ===================================================================== *)
(** ** The derivation on save                                             *)
(* ===================================================================== *)

Section Derivation.

Lemma derive_net_amount_computes (self : XRechnungInvoice)
  (total tax : Decimal) :
  net_amount self = None ->
  total_amount self = Some total ->
  tax_amount self = Some tax ->
  dec_bool total = true ->
  dec_bool tax = true ->
  derive_net_amount self = set_net_amount (Some (dec_sub total tax)) self.
Proof.
  intros Hnet Htotal Htax Ht Hx. unfold derive_net_amount.
  rewrite Hnet, Htotal, Htax. simpl. rewrite Ht, Hx. reflexivity.
Qed.

Lemma derive_net_amount_keeps (self : XRechnungInvoice) (net : Decimal) :
  net_amount self = Some net -> derive_net_amount self = self.
Proof. intros Hnet. unfold derive_net_amount. rewrite Hnet. reflexivity. Qed.

(** A zero tax amount is falsy: nothing is derived. *)
Lemma derive_net_amount_skips_zero_tax (self : XRechnungInvoice) (e : Z) :
  tax_amount self = Some (mkDecimal 0 e) -> derive_net_amount self = self.
Proof.
  intros Htax. unfold derive_net_amount. rewrite Htax. simpl.
  rewrite !andb_false_r. reflexivity.
Qed.

Lemma derive_line_total_computes (self : XRechnungLineItem)
  (qty price : Decimal) :
  line_total self = None ->
  quantity self = Some qty ->
  unit_price self = Some price ->
  dec_bool qty = true ->
  dec_bool price = true ->
  derive_line_total self = set_line_total (Some (dec_mul qty price)) self.
Proof.
  intros Hline Hqty Hprice Hq Hp. unfold derive_line_total.
  rewrite Hline, Hqty, Hprice. simpl. rewrite Hq, Hp. reflexivity.
Qed.

(** The store's write assigns the key and the stamps, nothing else. *)
Lemma Model_save_invoice_net_amount (self : XRechnungInvoice)
  (force_insert : bool) (now : Z) (db : Store) :
  net_amount (fst (Model_save_invoice self force_insert now db))
  = net_amount self.
Proof.
  unfold Model_save_invoice.
  repeat match goal with
         | |- context [if ?c then _ else _] => destruct c
         end; reflexivity.
Qed.

Lemma Model_save_line_item_line_total (self : XRechnungLineItem)
  (force_insert : bool) (db : Store) :
  line_total (fst (Model_save_line_item self force_insert db))
  = line_total self.
Proof.
  unfold Model_save_line_item.
  repeat match goal with
         | |- context [if ?c then _ else _] => destruct c
         end; reflexivity.
Qed.

Lemma replace_invoice_In (row : XRechnungInvoice)
  (rows : list XRechnungInvoice) :
  existsb (fun r => pk_eqb (id r) (id row)) rows = true ->
  In row (replace_invoice row rows).
Proof.
  induction rows as [| r rows IH]; simpl; [discriminate |].
  destruct (pk_eqb (id r) (id row)); simpl; intros H; [now left | right; auto].
Qed.

Lemma find_existsb {A : Type} (f : A -> bool) (l : list A) :
  is_None (List.find f l) = negb (existsb f l).
Proof.
  induction l as [| x l IH]; simpl; [reflexivity |].
  destruct (f x); simpl; [reflexivity | exact IH].
Qed.

(** After a successful write the instance, its amounts at column scale, is
    a row of the invoice table. *)
Lemma Model_save_invoice_stored (self : XRechnungInvoice)
  (force_insert : bool) (now : Z) (db db' : Store) :
  snd (Model_save_invoice self force_insert now db) = inr db' ->
  In (adapt_invoice (fst (Model_save_invoice self force_insert now db)))
     (invoices db').
Proof.
  unfold Model_save_invoice, raise, ok.
  destruct (id self) as [pk |] eqn:Hid.
  - destruct (negb (is_None (get_invoice pk db))) eqn:Hstored; simpl;
      [destruct force_insert; simpl |].
    + intros H; discriminate H.
    + destruct (_ && _); simpl; intros H; [| discriminate H].
      injection H as <-. simpl.
      apply (replace_invoice_In (adapt_invoice _)). simpl.
      unfold get_invoice in Hstored. rewrite find_existsb, negb_involutive in Hstored.
      exact Hstored.
    + destruct (negb (invoice_constraints_ok _ _)); simpl; intros H; [discriminate H |].
      injection H as <-. simpl. apply in_or_app. right. now left.
  - simpl. destruct (negb (invoice_constraints_ok _ _)); simpl; intros H; [discriminate H |].
    injection H as <-. simpl. apply in_or_app. right. now left.
Qed.

Lemma replace_line_item_In (row : XRechnungLineItem)
  (rows : list XRechnungLineItem) :
  existsb (fun r => pk_eqb (item_id r) (item_id row)) rows = true ->
  In row (replace_line_item row rows).
Proof.
  induction rows as [| r rows IH]; simpl; [discriminate |].
  destruct (pk_eqb (item_id r) (item_id row)); simpl; intros H;
    [now left | right; auto].
Qed.

(** After a successful write the instance, its decimals at column scale,
    is a row of the line item table. *)
Lemma Model_save_line_item_stored (self : XRechnungLineItem)
  (force_insert : bool) (db db' : Store) :
  snd (Model_save_line_item self force_insert db) = inr db' ->
  In (adapt_line_item (fst (Model_save_line_item self force_insert db)))
     (line_items db').
Proof.
  unfold Model_save_line_item, raise, ok.
  destruct (item_id self) as [pk |] eqn:Hid.
  - destruct (existsb _ (line_items db)) eqn:Hstored; simpl;
      [destruct force_insert; simpl |].
    + intros H; discriminate H.
    + destruct (line_item_constraints_ok _ _ _); simpl; intros H;
        [| discriminate H].
      injection H as <-. simpl.
      apply (replace_line_item_In (adapt_line_item _)). simpl.
      rewrite Hid. exact Hstored.
    + destruct (negb (line_item_constraints_ok _ _ _)); simpl; intros H; [discriminate H |].
      injection H as <-. simpl. apply in_or_app. right. now left.
  - simpl. destruct (negb (line_item_constraints_ok _ _ _)); simpl; intros H; [discriminate H |].
    injection H as <-. simpl. apply in_or_app. right. now left.
Qed.

End Derivation.

(** C1. Saving an invoice (insert or update) whose net amount is None while
    total and tax are present and nonzero sets the net amount to
    [total - tax]; after a successful write the store holds the instance as
    a row, its amounts at the two places of their columns, so with the net
    amount [total - tax] written at two places; and for amounts the decimal
    fields accept the difference is the exact one, on the instance and on
    the row. *)
Theorem invoice_save_derives_net_amount (self : XRechnungInvoice)
  (force_insert : bool) (now : Z) (db : Store) (total tax : Decimal) :
  net_amount self = None ->
  total_amount self = Some total ->
  tax_amount self = Some tax ->
  dec_bool total = true ->
  dec_bool tax = true ->
  net_amount (fst (XRechnungInvoice_save self force_insert now db))
    = Some (dec_sub total tax) /\
  (forall db',
      snd (XRechnungInvoice_save self force_insert now db) = inr db' ->
      In (adapt_invoice (fst (XRechnungInvoice_save self force_insert now db)))
         (invoices db') /\
      net_amount
        (adapt_invoice (fst (XRechnungInvoice_save self force_insert now db)))
      = Some (quantize 2 (dec_sub total tax))) /\
  (field_ok 12 2 total -> field_ok 12 2 tax ->
   (dec_value (dec_sub total tax) == dec_value total - dec_value tax)%Q /\
   (dec_value (quantize 2 (dec_sub total tax))
    == dec_value total - dec_value tax)%Q).
Proof.
  intros Hnet Htotal Htax Ht Hx.
  assert (Hinst : net_amount
                    (fst (XRechnungInvoice_save self force_insert now db))
                  = Some (dec_sub total tax)).
  { unfold XRechnungInvoice_save.
    rewrite Model_save_invoice_net_amount.
    rewrite (derive_net_amount_computes self total tax) by assumption.
    reflexivity. }
  split; [exact Hinst | split].
  - intros db' Hok. split.
    + apply Model_save_invoice_stored. exact Hok.
    + cbn [adapt_invoice net_amount]. rewrite Hinst. reflexivity.
  - intros Hft Hfx. split; [apply amount_sub_exact; assumption |].
    rewrite (quantize_exact 2 _ (amount_sub_fits total tax Hft Hfx)).
    apply amount_sub_exact; assumption.
Qed.

(** The scenario of C1: created in an empty store, INV-2024-002 gets the net
    amount 100.00 and is stored with it. *)
Lemma invoice_save_derives_net_amount_witness :
  net_amount (fst (create_invoice INV_2024_002 0 empty_store))
    = Some (mkDecimal 10000 (-2)) /\
  (exists db',
      snd (create_invoice INV_2024_002 0 empty_store) = inr db' /\
      In (adapt_invoice (fst (create_invoice INV_2024_002 0 empty_store)))
         (invoices db') /\
      option_map net_amount (get_invoice 1 db')
      = Some (Some (mkDecimal 10000 (-2)))) /\
  (dec_value (mkDecimal 10000 (-2))
   == dec_value (mkDecimal 11900 (-2)) - dec_value (mkDecimal 1900 (-2)))%Q.
Proof.
  destruct (invoice_save_derives_net_amount INV_2024_002 true 0 empty_store
              (mkDecimal 11900 (-2)) (mkDecimal 1900 (-2))
              eq_refl eq_refl eq_refl eq_refl eq_refl)
    as (Hnet & Hstored & Hexact).
  split; [exact Hnet | split].
  - eexists. split; [reflexivity |].
    split; [exact (proj1 (Hstored _ eq_refl)) | reflexivity].
  - apply Hexact; unfold field_ok; simpl; lia.
Defined.

(** C2 (the code at the failing input). An invoice created with the tax
    amount left at its default of zero and no net amount keeps a null net
    amount, whatever the total. *)
Theorem invoice_save_zero_tax_leaves_net_null (number : string)
  (issued : date) (supplier buyer : string) (total : Decimal) (now : Z)
  (db : Store) :
  net_amount
    (fst (create_invoice
            (new_invoice number issued supplier buyer (Some total) None None)
            now db))
  = None.
Proof.
  unfold create_invoice, XRechnungInvoice_save.
  rewrite Model_save_invoice_net_amount.
  rewrite (derive_net_amount_skips_zero_tax _ 0) by reflexivity.
  reflexivity.
Qed.

(** C3 fails on the code: the line item 0.333 x 0.05 gets the line total
    0.01665 on the instance, and the row read back after the create has the
    line total 0.02, which is another number. *)
Lemma line_total_stored_rounded :
  line_total (fst (create_line_item LINE_FRACTION db_one_invoice))
    = Some (mkDecimal 1665 (-5)) /\
  exists db' row,
    snd (create_line_item LINE_FRACTION db_one_invoice) = inr db' /\
    get_line_item 1 db' = Some row /\
    quantity row = Some (mkDecimal 333 (-3)) /\
    unit_price row = Some (mkDecimal 5 (-2)) /\
    line_total row = Some (mkDecimal 2 (-2)) /\
    dec_eqb (mkDecimal 2 (-2))
            (dec_mul (mkDecimal 333 (-3)) (mkDecimal 5 (-2))) = false.
Proof.
  split; [reflexivity |]. do 2 eexists. repeat split; reflexivity.
Qed.

(** C3 as amended. Saving a line item whose line total is None while
    quantity and unit price are present and nonzero sets the line total of
    the instance to [quantity * unit_price]; after a successful write the
    store holds the instance as a row, its decimals at the places of their
    columns, so with the line total [quantity * unit_price] rounded to two
    places.  For a quantity and a price their decimal fields accept, the
    line total of the instance is the exact product; that of the row is the
    exact product when the product has at most two fractional digits, and
    is within 0.005 of it in any case. *)
Theorem line_item_save_derives_line_total (self : XRechnungLineItem)
  (force_insert : bool) (db : Store) (qty price : Decimal) :
  line_total self = None ->
  quantity self = Some qty ->
  unit_price self = Some price ->
  dec_bool qty = true ->
  dec_bool price = true ->
  line_total (fst (XRechnungLineItem_save self force_insert db))
    = Some (dec_mul qty price) /\
  (forall db',
      snd (XRechnungLineItem_save self force_insert db) = inr db' ->
      In (adapt_line_item (fst (XRechnungLineItem_save self force_insert db)))
         (line_items db') /\
      line_total
        (adapt_line_item (fst (XRechnungLineItem_save self force_insert db)))
      = Some (quantize 2 (dec_mul qty price))) /\
  (field_ok 10 3 qty -> field_ok 10 2 price ->
   (dec_value (dec_mul qty price) == dec_value qty * dec_value price)%Q /\
   (fits_places 2 (dec_mul qty price) ->
    (dec_value (quantize 2 (dec_mul qty price))
     == dec_value qty * dec_value price)%Q) /\
   (Qabs (dec_value (quantize 2 (dec_mul qty price))
          - dec_value qty * dec_value price)
    <= 5 # 1000)%Q).
Proof.
  intros Hline Hqty Hprice Hq Hp.
  assert (Hinst : line_total
                    (fst (XRechnungLineItem_save self force_insert db))
                  = Some (dec_mul qty price)).
  { unfold XRechnungLineItem_save.
    rewrite Model_save_line_item_line_total.
    rewrite (derive_line_total_computes self qty price) by assumption.
    reflexivity. }
  split; [exact Hinst | split].
  - intros db' Hok. split.
    + apply Model_save_line_item_stored. exact Hok.
    + cbn [adapt_line_item line_total]. rewrite Hinst. reflexivity.
  - intros Hfq Hfp.
    pose proof (quantity_price_mul_exact qty price Hfq Hfp) as Hexact.
    split; [exact Hexact | split].
    + intros Hfits. rewrite (quantize_exact 2 _ Hfits). exact Hexact.
    + rewrite <- Hexact.
      eapply Qle_trans; [apply (quantize_error 2) |].
      vm_compute. discriminate.
Qed.

(** The scenario of C3: the line item 3.0 x 25.00, created under a stored
    invoice, gets a line total that equals 75.00 and is stored with the
    line total 75.00. *)
Lemma line_item_save_derives_line_total_witness :
  (exists total,
      line_total (fst (create_line_item LINE_3_x_25 db_one_invoice))
        = Some total /\
      dec_eqb total (mkDecimal 7500 (-2)) = true) /\
  (exists db',
      snd (create_line_item LINE_3_x_25 db_one_invoice) = inr db' /\
      In (adapt_line_item (fst (create_line_item LINE_3_x_25 db_one_invoice)))
         (line_items db') /\
      option_map line_total (get_line_item 1 db')
      = Some (Some (mkDecimal 7500 (-2)))) /\
  (dec_value (mkDecimal 7500 (-2))
   == dec_value (mkDecimal 30 (-1)) * dec_value (mkDecimal 2500 (-2)))%Q.
Proof.
  destruct (line_item_save_derives_line_total LINE_3_x_25 true db_one_invoice
              (mkDecimal 30 (-1)) (mkDecimal 2500 (-2))
              eq_refl eq_refl eq_refl eq_refl eq_refl)
    as (Hline & Hstored & Hexact).
  split; [| split].
  - eexists. split; [exact Hline | reflexivity].
  - eexists. split; [reflexivity |].
    split; [exact (proj1 (Hstored _ eq_refl)) | reflexivity].
  - refine (proj1 (proj2 (Hexact _ _)) _).
    + unfold field_ok; simpl; lia.
    + unfold field_ok; simpl; lia.
    + right. reflexivity.
Defined.

(** C4. A net amount that is not None when [save] is called is left as it
    is on the instance, whatever total and tax are, and the stored row gets
    it at the two places of the column: the very decimal when it has two
    places, the same number when it has at most two fractional digits; it
    is derived again only once it has been cleared to None. *)
Theorem invoice_save_keeps_net_amount (self : XRechnungInvoice)
  (force_insert : bool) (now : Z) (db : Store) (net : Decimal) :
  net_amount self = Some net ->
  derive_net_amount self = self /\
  net_amount (fst (XRechnungInvoice_save self force_insert now db))
    = Some net /\
  (forall db',
      snd (XRechnungInvoice_save self force_insert now db) = inr db' ->
      exists row, In row (invoices db') /\
                  net_amount row = Some (quantize 2 net) /\
                  row = adapt_invoice
                          (fst (XRechnungInvoice_save self force_insert now db))) /\
  (exp net = -2 -> quantize 2 net = net) /\
  (fits_places 2 net -> (dec_value (quantize 2 net) == dec_value net)%Q) /\
  (forall total tax,
      total_amount self = Some total -> tax_amount self = Some tax ->
      dec_bool total = true -> dec_bool tax = true ->
      net_amount (fst (XRechnungInvoice_save (set_net_amount None self)
                         force_insert now db))
      = Some (dec_sub total tax)).
Proof.
  intros Hnet.
  assert (Hkeep : net_amount
                    (fst (XRechnungInvoice_save self force_insert now db))
                  = Some net).
  { unfold XRechnungInvoice_save.
    rewrite Model_save_invoice_net_amount, (derive_net_amount_keeps self net Hnet).
    exact Hnet. }
  split; [exact (derive_net_amount_keeps self net Hnet) |].
  split; [exact Hkeep |].
  split; [| split; [apply (quantize_id 2) | split; [apply quantize_exact |]]].
  - intros db' Hok. eexists. split; [| split; [| reflexivity]].
    + unfold XRechnungInvoice_save in *. apply Model_save_invoice_stored, Hok.
    + cbn [adapt_invoice net_amount]. rewrite Hkeep. reflexivity.
  - intros total tax Htotal Htax Ht Hx. unfold XRechnungInvoice_save.
    rewrite Model_save_invoice_net_amount.
    rewrite (derive_net_amount_computes (set_net_amount None self) total tax
               eq_refl Htotal Htax Ht Hx).
    reflexivity.
Qed.

(** C4 at an invoice whose given net amount (1.00) contradicts total and tax
    (119.00 and 19.00): it is stored as given. *)
Lemma invoice_save_keeps_net_amount_witness :
  let self := set_net_amount (Some (mkDecimal 100 (-2))) INV_2024_002 in
  net_amount (fst (XRechnungInvoice_save self false 0 empty_store))
  = Some (mkDecimal 100 (-2)).
Proof.
  intros self.
  exact (proj1 (proj2 (invoice_save_keeps_net_amount self false 0 empty_store
                         (mkDecimal 100 (-2)) eq_refl))).
Defined.

(* ===================================================================== *)
(** ** Uniqueness                                                         *)
(* ===================================================================== *)

Section Uniqueness.

Lemma derive_net_amount_invoice_number (self : XRechnungInvoice) :
  invoice_number (derive_net_amount self) = invoice_number self.
Proof.
  unfold derive_net_amount.
  destruct (_ && _); [| reflexivity].
  destruct (total_amount self), (tax_amount self); reflexivity.
Qed.

Lemma derive_line_total_key (self : XRechnungLineItem) :
  invoice_id (derive_line_total self) = invoice_id self /\
  position (derive_line_total self) = position self.
Proof.
  unfold derive_line_total.
  destruct (_ && _); [| split; reflexivity].
  destruct (quantity self), (unit_price self); split; reflexivity.
Qed.

Lemma Model_save_invoice_number (self : XRechnungInvoice)
  (force_insert : bool) (now : Z) (db : Store) :
  invoice_number (fst (Model_save_invoice self force_insert now db))
  = invoice_number self.
Proof.
  unfold Model_save_invoice.
  repeat match goal with
         | |- context [if ?c then _ else _] => destruct c
         end; reflexivity.
Qed.

Lemma Model_save_line_item_key (self : XRechnungLineItem)
  (force_insert : bool) (db : Store) :
  invoice_id (fst (Model_save_line_item self force_insert db))
    = invoice_id self /\
  position (fst (Model_save_line_item self force_insert db)) = position self.
Proof.
  unfold Model_save_line_item.
  repeat match goal with
         | |- context [if ?c then _ else _] => destruct c
         end; split; reflexivity.
Qed.

(** An insert of an invoice number some row already has is refused. *)
Lemma insert_duplicate_invoice_number (self row : XRechnungInvoice) (now : Z)
  (db : Store) :
  In row (invoices db) ->
  invoice_number row = invoice_number self ->
  snd (Model_save_invoice self true now db) = inl IntegrityError.
Proof.
  intros Hin Hsame. unfold Model_save_invoice.
  rewrite andb_false_r.
  assert (Hdup : invoice_constraints_ok
                   (set_stamps (id self) (Some now) (Some now) self)
                   (invoices db) = false).
  { unfold invoice_constraints_ok.
    replace (existsb _ (invoices db)) with true;
      [rewrite andb_false_r; reflexivity |].
    symmetry. apply existsb_exists. exists row. split; [exact Hin |].
    simpl. apply String.eqb_eq. exact Hsame. }
  rewrite Hdup. rewrite orb_true_r. reflexivity.
Qed.

(** An insert of a (invoice, position) pair some row already has is
    refused. *)
Lemma insert_duplicate_position (self row : XRechnungLineItem) (db : Store) :
  In row (line_items db) ->
  invoice_id row = invoice_id self ->
  position row = position self ->
  snd (Model_save_line_item self true db) = inl IntegrityError.
Proof.
  intros Hin Hinv Hpos. unfold Model_save_line_item.
  rewrite andb_false_r.
  assert (Hdup : line_item_constraints_ok self (line_items db) db = false).
  { unfold line_item_constraints_ok.
    replace (existsb _ (line_items db)) with true;
      [rewrite andb_false_r; reflexivity |].
    symmetry. apply existsb_exists. exists row. split; [exact Hin |].
    rewrite Hinv, Hpos, Z.eqb_refl, Nat.eqb_refl. reflexivity. }
  rewrite Hdup. rewrite orb_true_r. reflexivity.
Qed.

(** A created invoice is a row of the store, under its invoice number. *)
Lemma create_invoice_row (first obj1 : XRechnungInvoice) (now : Z)
  (db db1 : Store) :
  create_invoice first now db = (obj1, inr db1) ->
  In (adapt_invoice obj1) (invoices db1) /\
  invoice_number (adapt_invoice obj1) = invoice_number first.
Proof.
  intros Hfirst. unfold create_invoice, XRechnungInvoice_save in Hfirst.
  assert (Hobj : obj1
                 = fst (Model_save_invoice (derive_net_amount first) true
                          now db))
    by (rewrite Hfirst; reflexivity).
  split.
  - rewrite Hobj. apply Model_save_invoice_stored.
    rewrite Hfirst. reflexivity.
  - cbn [adapt_invoice invoice_number]. rewrite Hobj.
    rewrite Model_save_invoice_number.
    apply derive_net_amount_invoice_number.
Qed.

(** A created line item is a row of the store, under its invoice and
    position. *)
Lemma create_line_item_row (first obj1 : XRechnungLineItem)
  (db db1 : Store) :
  create_line_item first db = (obj1, inr db1) ->
  In (adapt_line_item obj1) (line_items db1) /\
  invoice_id (adapt_line_item obj1) = invoice_id first /\
  position (adapt_line_item obj1) = position first.
Proof.
  intros Hfirst. unfold create_line_item, XRechnungLineItem_save in Hfirst.
  assert (Hobj : obj1
                 = fst (Model_save_line_item (derive_line_total first) true
                          db))
    by (rewrite Hfirst; reflexivity).
  destruct (Model_save_line_item_key (derive_line_total first) true db)
    as [Hk1 Hk2].
  destruct (derive_line_total_key first) as [Hf1 Hf2].
  split; [| split].
  - rewrite Hobj. apply Model_save_line_item_stored.
    rewrite Hfirst. reflexivity.
  - cbn [adapt_line_item invoice_id]. rewrite Hobj. congruence.
  - cbn [adapt_line_item position]. rewrite Hobj. congruence.
Qed.

(** A create of an invoice number some row has is refused. *)
Lemma create_duplicate_invoice_number (existing second : XRechnungInvoice)
  (now : Z) (db : Store) :
  In existing (invoices db) ->
  invoice_number second = invoice_number existing ->
  snd (create_invoice second now db) = raise IntegrityError.
Proof.
  intros Hin Hsame. unfold create_invoice, XRechnungInvoice_save.
  apply (insert_duplicate_invoice_number _ existing); [exact Hin |].
  rewrite derive_net_amount_invoice_number. symmetry. exact Hsame.
Qed.

(** A create of an (invoice, position) pair some row has is refused. *)
Lemma create_duplicate_position (existing second : XRechnungLineItem)
  (db : Store) :
  In existing (line_items db) ->
  invoice_id second = invoice_id existing ->
  position second = position existing ->
  snd (create_line_item second db) = raise IntegrityError.
Proof.
  intros Hin Hinv Hpos. unfold create_line_item, XRechnungLineItem_save.
  destruct (derive_line_total_key second) as [Hs1 Hs2].
  apply (insert_duplicate_position _ existing); [exact Hin | |]; congruence.
Qed.

End Uniqueness.

(** C6. Creating an invoice with the invoice number of an invoice the store
    holds, whichever it is and however it got there, fails with an integrity
    error, and creating a line item on the invoice and at the position of a
    line item the store holds fails with an integrity error; a created
    invoice or line item is held by the store under its number, or its
    invoice and position; so of two creates with the same invoice number, or
    the same invoice and position, the second fails.  The error is the
    store's: [create] is the derivation followed by the store's insert, with
    no check of its own, and the refused instance has gone through the
    derivation all the same. *)
Theorem duplicate_create_raises_IntegrityError :
  (forall (existing second : XRechnungInvoice) (now : Z) (db : Store),
      In existing (invoices db) ->
      invoice_number second = invoice_number existing ->
      snd (create_invoice second now db) = raise IntegrityError /\
      net_amount (fst (create_invoice second now db))
        = net_amount (derive_net_amount second)) /\
  (forall (first obj1 : XRechnungInvoice) (now1 : Z) (db db1 : Store),
      create_invoice first now1 db = (obj1, inr db1) ->
      exists row, In row (invoices db1) /\
                  invoice_number row = invoice_number first) /\
  (forall (first second obj1 : XRechnungInvoice) (now1 now2 : Z)
          (db db1 : Store),
      create_invoice first now1 db = (obj1, inr db1) ->
      invoice_number second = invoice_number first ->
      snd (create_invoice second now2 db1) = raise IntegrityError /\
      net_amount (fst (create_invoice second now2 db1))
        = net_amount (derive_net_amount second)) /\
  (forall (existing second : XRechnungLineItem) (db : Store),
      In existing (line_items db) ->
      invoice_id second = invoice_id existing ->
      position second = position existing ->
      snd (create_line_item second db) = raise IntegrityError /\
      line_total (fst (create_line_item second db))
        = line_total (derive_line_total second)) /\
  (forall (first obj1 : XRechnungLineItem) (db db1 : Store),
      create_line_item first db = (obj1, inr db1) ->
      exists row, In row (line_items db1) /\
                  invoice_id row = invoice_id first /\
                  position row = position first) /\
  (forall (first second obj1 : XRechnungLineItem) (db db1 : Store),
      create_line_item first db = (obj1, inr db1) ->
      invoice_id second = invoice_id first ->
      position second = position first ->
      snd (create_line_item second db1) = raise IntegrityError /\
      line_total (fst (create_line_item second db1))
        = line_total (derive_line_total second)) /\
  (forall (obj : XRechnungInvoice) (now : Z) (db : Store),
      create_invoice obj now db
      = Model_save_invoice (derive_net_amount obj) true now db) /\
  (forall (obj : XRechnungLineItem) (db : Store),
      create_line_item obj db
      = Model_save_line_item (derive_line_total obj) true db).
Proof.
  repeat match goal with |- _ /\ _ => split end; try reflexivity.
  - intros existing second now db Hin Hsame.
    split; [exact (create_duplicate_invoice_number _ _ _ _ Hin Hsame) |].
    apply Model_save_invoice_net_amount.
  - intros first obj1 now1 db db1 Hfirst.
    exists (adapt_invoice obj1). exact (create_invoice_row _ _ _ _ _ Hfirst).
  - intros first second obj1 now1 now2 db db1 Hfirst Hsame.
    destruct (create_invoice_row _ _ _ _ _ Hfirst) as [Hin Hnumber].
    split; [| apply Model_save_invoice_net_amount].
    apply (create_duplicate_invoice_number (adapt_invoice obj1));
      [exact Hin | congruence].
  - intros existing second db Hin Hinv Hpos.
    split; [exact (create_duplicate_position _ _ _ Hin Hinv Hpos) |].
    apply Model_save_line_item_line_total.
  - intros first obj1 db db1 Hfirst.
    exists (adapt_line_item obj1). exact (create_line_item_row _ _ _ _ Hfirst).
  - intros first second obj1 db db1 Hfirst Hinv Hpos.
    destruct (create_line_item_row _ _ _ _ Hfirst) as (Hin & Hi & Hp).
    split; [| apply Model_save_line_item_line_total].
    apply (create_duplicate_position (adapt_line_item obj1));
      [exact Hin | congruence | congruence].
Qed.

(** C6 at the invoice INV-2024-002 and the line item at position 1 of the
    scenarios, each created twice. *)
Lemma duplicate_create_raises_IntegrityError_witness :
  snd (create_invoice INV_2024_002 0 empty_store) = inr db_one_invoice /\
  snd (create_invoice INV_2024_002 1 db_one_invoice) = raise IntegrityError /\
  snd (create_line_item LINE_3_x_25 db_one_invoice) = inr db_one_item /\
  snd (create_line_item LINE_3_x_25 db_one_item) = raise IntegrityError.
Proof.
  destruct duplicate_create_raises_IntegrityError
    as (_ & _ & Hinvoice & _ & _ & Hitem & _).
  split; [reflexivity | split; [| split; [reflexivity |]]].
  - exact (proj1 (Hinvoice INV_2024_002 INV_2024_002
                    (fst (create_invoice INV_2024_002 0 empty_store))
                    0 1 empty_store db_one_invoice eq_refl eq_refl)).
  - exact (proj1 (Hitem LINE_3_x_25 LINE_3_x_25
                    (fst (create_line_item LINE_3_x_25 db_one_invoice))
                    db_one_invoice db_one_item eq_refl eq_refl eq_refl)).
Defined.

(* ===================================================================== *)
(** ** Ordering and filtering                                             *)
(* ===================================================================== *)

Section Sorting.

Context {A : Type}.
Variable leb : A -> A -> bool.

Lemma insert_sorted_perm (x : A) (l : list A) :
  Permutation (insert_sorted leb x l) (x :: l).
Proof.
  induction l as [| y l IH]; simpl; [reflexivity |].
  destruct (leb x y); [reflexivity |].
  rewrite IH. apply perm_swap.
Qed.

Lemma order_by_perm (l : list A) : Permutation (order_by leb l) l.
Proof.
  induction l as [| x l IH]; simpl; [reflexivity |].
  rewrite insert_sorted_perm. apply perm_skip, IH.
Qed.

Hypothesis leb_total : forall x y, leb x y = false -> leb y x = true.
Hypothesis leb_trans :
  forall x y z, leb x y = true -> leb y z = true -> leb x z = true.

Lemma insert_sorted_sorted (x : A) (l : list A) :
  StronglySorted (fun a b => leb a b = true) l ->
  StronglySorted (fun a b => leb a b = true) (insert_sorted leb x l).
Proof.
  induction 1 as [| y l Hsorted IH Hall]; simpl.
  - constructor; constructor.
  - destruct (leb x y) eqn:Hxy.
    + constructor; [constructor; assumption |].
      constructor; [exact Hxy |].
      rewrite List.Forall_forall in Hall. apply List.Forall_forall.
      intros z Hz. exact (leb_trans x y z Hxy (Hall z Hz)).
    + constructor; [exact IH |].
      rewrite (insert_sorted_perm x l).
      constructor; [exact (leb_total x y Hxy) | exact Hall].
Qed.

Lemma order_by_sorted (l : list A) :
  StronglySorted (fun a b => leb a b = true) (order_by leb l).
Proof.
  induction l as [| x l IH]; simpl; [constructor |].
  apply insert_sorted_sorted, IH.
Qed.

End Sorting.

Section Filtering.

Context {A : Type}.

Lemma filter_all (l : list A) : List.filter (fun _ => true) l = l.
Proof. induction l as [| x l IH]; simpl; congruence. Qed.

Lemma filter_twice (f g : A -> bool) (l : list A) :
  List.filter g (List.filter f l) = List.filter (fun x => f x && g x) l.
Proof.
  induction l as [| x l IH]; simpl; [reflexivity |].
  destruct (f x); simpl; [destruct (g x) |]; congruence.
Qed.

Lemma filter_perm (f : A -> bool) (l l' : list A) :
  Permutation l l' -> Permutation (List.filter f l) (List.filter f l').
Proof.
  induction 1 as [| x l l' _ IH | x y l | l l' l'' _ IH1 _ IH2]; simpl.
  - reflexivity.
  - destruct (f x); [apply perm_skip |]; exact IH.
  - destruct (f x), (f y); try reflexivity. apply perm_swap.
  - etransitivity; eassumption.
Qed.

Lemma filter_sorted (R : A -> A -> Prop) (f : A -> bool) (l : list A) :
  StronglySorted R l -> StronglySorted R (List.filter f l).
Proof.
  induction 1 as [| x l Hsorted IH Hall]; simpl; [constructor |].
  destruct (f x); [| exact IH].
  constructor; [exact IH |].
  apply List.Forall_forall. intros y Hy. apply List.filter_In in Hy.
  rewrite List.Forall_forall in Hall. apply Hall, Hy.
Qed.

End Filtering.

Section Dates.

Lemma date_compare_Lt (a b : date) : date_compare a b = Lt <-> date_lt a b.
Proof.
  unfold date_compare, date_lt.
  destruct (Nat.compare_spec (year a) (year b));
    destruct (Nat.compare_spec (month a) (month b));
    destruct (Nat.compare_spec (day a) (day b));
    split; intros; try discriminate; try reflexivity; lia.
Qed.

Lemma date_compare_Eq (a b : date) : date_compare a b = Eq <-> a = b.
Proof.
  unfold date_compare. destruct a as [ya ma da], b as [yb mb db]. simpl.
  destruct (Nat.compare_spec ya yb);
    destruct (Nat.compare_spec ma mb);
    destruct (Nat.compare_spec da db);
    split; intros Heq; try discriminate; try (injection Heq; intros; lia);
    subst; reflexivity.
Qed.

Lemma date_compare_Gt (a b : date) : date_compare a b = Gt <-> date_lt b a.
Proof.
  unfold date_compare, date_lt.
  destruct (Nat.compare_spec (year a) (year b));
    destruct (Nat.compare_spec (month a) (month b));
    destruct (Nat.compare_spec (day a) (day b));
    split; intros; try discriminate; try reflexivity; lia.
Qed.

Lemma date_ltb_true (a b : date) : date_ltb a b = true <-> date_lt a b.
Proof.
  unfold date_ltb. rewrite <- date_compare_Lt.
  destruct (date_compare a b); split; intros; congruence.
Qed.

Lemma date_eqb_true (a b : date) : date_eqb a b = true <-> a = b.
Proof.
  unfold date_eqb. rewrite <- date_compare_Eq.
  destruct (date_compare a b); split; intros; congruence.
Qed.

(** [date_leb] is "not later than". *)
Lemma date_leb_true (a b : date) :
  date_leb a b = true <-> date_lt a b \/ a = b.
Proof.
  unfold date_leb. rewrite <- date_compare_Lt, <- date_compare_Eq.
  destruct (date_compare a b); split; intros; try congruence; auto.
  destruct H; discriminate.
Qed.

Lemma date_trichotomy (a b : date) : date_lt a b \/ a = b \/ date_lt b a.
Proof.
  rewrite <- date_compare_Lt, <- date_compare_Eq, <- date_compare_Gt.
  destruct (date_compare a b); auto.
Qed.

Lemma date_lt_trans (a b c : date) : date_lt a b -> date_lt b c -> date_lt a c.
Proof. unfold date_lt. lia. Qed.

Lemma date_lt_irrefl (a : date) : ~ date_lt a a.
Proof. unfold date_lt. lia. Qed.

Lemma stamp_leb_total (a b : option Z) :
  stamp_leb a b = false -> stamp_leb b a = true.
Proof.
  destruct a as [x |], b as [y |]; simpl; try congruence.
  intros H. apply Z.leb_gt in H. apply Z.leb_le. lia.
Qed.

Lemma stamp_leb_trans (a b c : option Z) :
  stamp_leb a b = true -> stamp_leb b c = true -> stamp_leb a c = true.
Proof.
  destruct a as [x |], b as [y |], c as [z |]; simpl; try congruence.
  rewrite !Z.leb_le. lia.
Qed.

(** The comparison of [Meta.ordering] decides [listed_before]. *)
Lemma invoice_before_true (a b : XRechnungInvoice) :
  invoice_before a b = true <-> listed_before a b.
Proof.
  unfold invoice_before, listed_before.
  rewrite orb_true_iff, andb_true_iff, date_eqb_true. reflexivity.
Qed.

Lemma invoice_before_total (a b : XRechnungInvoice) :
  invoice_before a b = false -> invoice_before b a = true.
Proof.
  intros Hab. apply invoice_before_true.
  assert (Hnot : ~ listed_before a b)
    by (rewrite <- invoice_before_true; congruence).
  unfold listed_before in *. rewrite date_ltb_true in *.
  destruct (date_trichotomy (invoice_date a) (invoice_date b))
    as [Hlt | [Heq | Hgt]].
  - left. exact Hlt.
  - right. split; [congruence |].
    apply stamp_leb_total.
    destruct (stamp_leb (created_at b) (created_at a)) eqn:Hs;
      [exfalso; apply Hnot; right; split; [exact Heq | reflexivity]
      | reflexivity].
  - exfalso. apply Hnot. left. exact Hgt.
Qed.

Lemma invoice_before_trans (a b c : XRechnungInvoice) :
  invoice_before a b = true -> invoice_before b c = true ->
  invoice_before a c = true.
Proof.
  rewrite !invoice_before_true. unfold listed_before.
  rewrite !date_ltb_true.
  intros [Hab | [Hab Hsab]] [Hbc | [Hbc Hsbc]].
  - left. exact (date_lt_trans _ _ _ Hbc Hab).
  - left. rewrite <- Hbc. exact Hab.
  - left. rewrite Hab. exact Hbc.
  - right. split; [congruence |]. exact (stamp_leb_trans _ _ _ Hsbc Hsab).
Qed.

End Dates.

(* ===================================================================== *)
(** ** The list view                                                      *)
(* ===================================================================== *)

Section Containment.

Lemma append_nil (s : string) : "" ++ s = s.
Proof. reflexivity. Qed.

Lemma append_cons (c : ascii) (a b : string) :
  String c a ++ b = String c (a ++ b).
Proof. reflexivity. Qed.

Lemma append_assoc (a b c : string) : (a ++ b) ++ c = a ++ b ++ c.
Proof.
  induction a as [| x a IH]; [reflexivity |].
  rewrite !append_cons, IH. reflexivity.
Qed.

Lemma startswith_spec (p s : string) :
  startswith p s = true <-> exists post, s = p ++ post.
Proof.
  revert s. induction p as [| a p IH]; intros s; simpl.
  - split; [intros _; exists s; reflexivity | reflexivity].
  - destruct s as [| b s]; [split; [discriminate | intros [post H]; discriminate] |].
    rewrite andb_true_iff, Ascii.eqb_eq, IH.
    split.
    + intros [-> [post ->]]. exists post. reflexivity.
    + intros [post H]. injection H as -> ->. split; [reflexivity | eauto].
Qed.

(** [contains] decides containment. *)
Lemma contains_spec (needle hay : string) :
  contains needle hay = true <-> occurs_in needle hay.
Proof.
  unfold occurs_in. induction hay as [| c hay IH].
  - simpl. rewrite orb_false_r, startswith_spec. split.
    + intros [post H]. exists "", post. exact H.
    + intros [pre [post H]]. destruct pre; [exists post; exact H | discriminate].
  - change (contains needle (String c hay))
      with (startswith needle (String c hay) || contains needle hay).
    rewrite orb_true_iff, startswith_spec, IH. split.
    + intros [[post H] | [pre [post H]]].
      * exists "", post. exact H.
      * exists (String c pre), post. rewrite append_cons, H. reflexivity.
    + intros [pre [post H]]. destruct pre as [| c' pre].
      * left. exists post. exact H.
      * right. injection H as -> H. exists pre, post. exact H.
Qed.

(** The empty string is contained in every string. *)
Lemma icontains_empty (hay : string) : icontains "" hay = true.
Proof. unfold icontains. destruct (lower hay); reflexivity. Qed.

(** [icontains] is containment of the lower-cased strings. *)
Lemma icontains_spec (needle hay : string) :
  icontains needle hay = true <-> occurs_in (lower needle) (lower hay).
Proof. apply contains_spec. Qed.

End Containment.

Section ListView.

Variable to_python : string -> Result date.

Lemma sorted_weaken {A : Type} (R R' : A -> A -> Prop) (l : list A) :
  (forall a b, R a b -> R' a b) -> StronglySorted R l -> StronglySorted R' l.
Proof.
  intros Himpl. induction 1 as [| x l Hsorted IH Hall]; constructor.
  - exact IH.
  - rewrite List.Forall_forall in *. intros y Hy. apply Himpl, Hall, Hy.
Qed.

Lemma supplier_stage (supplier : option string)
  (queryset : list XRechnungInvoice) :
  (if str_truthy supplier
   then List.filter
          (fun r => icontains (default "" supplier) (supplier_name r))
          queryset
   else queryset)
  = List.filter
      (fun r => match supplier with
                | Some s => icontains s (supplier_name r)
                | None => true
                end) queryset.
Proof.
  destruct supplier as [s |]; simpl.
  - destruct (String.eqb_spec s "") as [-> | Hne]; simpl; [| reflexivity].
    rewrite <- (filter_all queryset) at 1.
    apply List.filter_ext. intros r. symmetry. apply icontains_empty.
  - symmetry. apply filter_all.
Qed.

Lemma start_date_stage (param : option string) (lo : option date)
  (queryset : list XRechnungInvoice) :
  date_bound to_python param = ok lo ->
  (if str_truthy param
   then try d := to_python (default "" param) in
        ok (List.filter (fun r => date_leb d (invoice_date r)) queryset)
   else ok queryset)
  = ok (List.filter
          (fun r => match lo with
                    | Some d => date_leb d (invoice_date r)
                    | None => true
                    end) queryset).
Proof.
  unfold date_bound, ok. destruct param as [s |]; simpl.
  - destruct (String.eqb s ""); simpl.
    + intros H. injection H as <-. rewrite filter_all. reflexivity.
    + destruct (to_python s) as [e | d]; simpl; intros H; [discriminate H |].
      injection H as <-. reflexivity.
  - intros H. injection H as <-. rewrite filter_all. reflexivity.
Qed.

Lemma end_date_stage (param : option string) (hi : option date)
  (queryset : list XRechnungInvoice) :
  date_bound to_python param = ok hi ->
  (if str_truthy param
   then try d := to_python (default "" param) in
        ok (List.filter (fun r => date_leb (invoice_date r) d) queryset)
   else ok queryset)
  = ok (List.filter
          (fun r => match hi with
                    | Some d => date_leb (invoice_date r) d
                    | None => true
                    end) queryset).
Proof.
  unfold date_bound, ok. destruct param as [s |]; simpl.
  - destruct (String.eqb s ""); simpl.
    + intros H. injection H as <-. rewrite filter_all. reflexivity.
    + destruct (to_python s) as [e | d]; simpl; intros H; [discriminate H |].
      injection H as <-. reflexivity.
  - intros H. injection H as <-. rewrite filter_all. reflexivity.
Qed.

(** What [get_queryset] returns when the date parameters convert. *)
Lemma get_queryset_eq (request : HttpRequest) (db : Store)
  (lo hi : option date) :
  date_bound to_python (GET request !! "start_date") = ok lo ->
  date_bound to_python (GET request !! "end_date") = ok hi ->
  get_queryset to_python request db
  = ok (List.filter (matches_filters (GET request !! "supplier") lo hi)
          (all_invoices db)).
Proof.
  intros Hlo Hhi. unfold get_queryset.
  rewrite supplier_stage.
  rewrite (start_date_stage _ lo _ Hlo). simpl.
  rewrite (end_date_stage _ hi _ Hhi). simpl.
  rewrite !filter_twice. unfold ok. f_equal.
  apply List.filter_ext. intros r. unfold matches_filters.
  rewrite <- ?andb_assoc. reflexivity.
Qed.

(** A date parameter that does not convert makes [get_queryset] raise. *)
Lemma get_queryset_bad_start_date (request : HttpRequest) (db : Store)
  (s : string) (e : Exception) :
  GET request !! "start_date" = Some s -> s <> "" ->
  to_python s = raise e ->
  get_queryset to_python request db = raise e.
Proof.
  intros Hs Hne He. unfold get_queryset. rewrite Hs. simpl.
  destruct (String.eqb_spec s ""); [contradiction |]. simpl.
  rewrite He. reflexivity.
Qed.

End ListView.

(** C7. For every combination of the parameters [supplier], [start_date] and
    [end_date] (each absent, empty, or given; the dates converting to [lo]
    and [hi]), the list view returns exactly the stored invoices whose
    supplier name contains [supplier] case-insensitively and whose invoice
    date lies in [lo, hi], an absent parameter filtering nothing; and the
    result is ordered by invoice date descending, then creation time
    descending. *)
Theorem get_queryset_filters_and_orders
  (to_python : string -> Result date) (request : HttpRequest) (db : Store)
  (lo hi : option date) :
  date_bound to_python (GET request !! "start_date") = ok lo ->
  date_bound to_python (GET request !! "end_date") = ok hi ->
  exists result,
    get_queryset to_python request db = ok result /\
    Permutation result
      (List.filter (matches_filters (GET request !! "supplier") lo hi)
         (invoices db)) /\
    (forall r, In r result <->
               In r (invoices db) /\
               matches_filters (GET request !! "supplier") lo hi r = true) /\
    StronglySorted listed_before result.
Proof.
  intros Hlo Hhi. eexists. split; [apply (get_queryset_eq _ _ _ lo hi Hlo Hhi) |].
  assert (Hperm : Permutation
                    (List.filter
                       (matches_filters (GET request !! "supplier") lo hi)
                       (all_invoices db))
                    (List.filter
                       (matches_filters (GET request !! "supplier") lo hi)
                       (invoices db)))
    by apply filter_perm, order_by_perm.
  split; [exact Hperm | split].
  - intros r. rewrite <- List.filter_In. split; intros Hin.
    + exact (Permutation_in r Hperm Hin).
    + exact (Permutation_in r (Permutation_sym Hperm) Hin).
  - apply filter_sorted.
    apply (sorted_weaken (fun a b => invoice_before a b = true)).
    + intros a b. apply invoice_before_true.
    + apply order_by_sorted.
      * exact invoice_before_total.
      * exact invoice_before_trans.
Qed.

(** C7 at the two invoices of the filtering test, asked for the supplier
    "test supplier" from 2024-01-01 on: the list is the invoice of "Test
    Supplier Ltd." alone. *)
Lemma get_queryset_filters_and_orders_witness :
  exists result,
    get_queryset sample_to_python request_test_supplier db_two_suppliers
      = ok result /\
    List.map invoice_number result = ["INV-TEST-001"] /\
    StronglySorted listed_before result.
Proof.
  destruct (get_queryset_filters_and_orders sample_to_python
              request_test_supplier db_two_suppliers
              (Some (mkDate 2024 1 1)) None eq_refl eq_refl)
    as (result & Heq & _ & _ & Hsorted).
  exists result. split; [exact Heq | split; [| exact Hsorted]].
  vm_compute in Heq. injection Heq as <-. reflexivity.
Defined.

(* ===================================================================== *)
(** ** The XML export and the JSON detail                                 *)
(* ===================================================================== *)

Section XmlExport.

Lemma occurs_in_prefix (part whole post : string) :
  whole = part ++ post -> occurs_in part whole.
Proof. intros ->. exists "", post. reflexivity. Qed.

Lemma occurs_in_cons (c : ascii) (part whole : string) :
  occurs_in part whole -> occurs_in part (String c whole).
Proof. intros [pre [post ->]]. exists (String c pre), post. reflexivity. Qed.

Lemma occurs_in_app_r (a part whole : string) :
  occurs_in part whole -> occurs_in part (a ++ whole).
Proof.
  intros [pre [post ->]]. exists (a ++ pre), post.
  rewrite append_assoc. reflexivity.
Qed.

End XmlExport.

(** Finds [part] in a string built with [++]: at the front of the string,
    or behind its first block. *)
Ltac find_occurrence :=
  match goal with
  | |- occurs_in (?a ++ _) (?a ++ _) =>
      solve [eapply occurs_in_prefix; rewrite ?append_assoc; reflexivity]
  | |- occurs_in _ (_ ++ _) => apply occurs_in_app_r; find_occurrence
  end.

(** C5. A GET for the XML export of a stored invoice answers with content
    type application/xml and the attachment name invoice_NUMBER.xml; the
    body is the stored [xml_content], unchanged, when that is not empty;
    otherwise it is the synthesized document, in which the lines of the
    invoice number, of the invoice date, of name and tax id of supplier and
    buyer, and of the total amount with its currency attribute occur with
    the field values pasted as they are, whatever characters they hold. *)
Theorem invoice_xml_export_spec (pk : Z) (db : Store) (request : HttpRequest)
  (invoice : XRechnungInvoice) :
  method request = "GET" ->
  get_invoice pk db = Some invoice ->
  exists body,
    invoice_xml_export pk db request
    = ok {| status_code := 200;
            content_type := "application/xml";
            headers :=
              [("Content-Disposition",
                "attachment; filename=" ++ dq ++ "invoice_"
                ++ invoice_number invoice ++ ".xml" ++ dq)];
            content := Text body |} /\
    (xml_content invoice <> "" -> body = xml_content invoice) /\
    (xml_content invoice = "" ->
     body = basic_xml invoice /\
     occurs_in ("    <InvoiceNumber>" ++ invoice_number invoice
                ++ "</InvoiceNumber>" ++ nl) body /\
     occurs_in ("    <InvoiceDate>" ++ isoformat (invoice_date invoice)
                ++ "</InvoiceDate>" ++ nl) body /\
     occurs_in ("    <Supplier>" ++ nl
                ++ "        <Name>" ++ supplier_name invoice ++ "</Name>" ++ nl
                ++ "        <TaxID>" ++ supplier_tax_id invoice ++ "</TaxID>"
                ++ nl ++ "    </Supplier>" ++ nl) body /\
     occurs_in ("    <Buyer>" ++ nl
                ++ "        <Name>" ++ buyer_name invoice ++ "</Name>" ++ nl
                ++ "        <TaxID>" ++ buyer_tax_id invoice ++ "</TaxID>"
                ++ nl ++ "    </Buyer>" ++ nl) body /\
     occurs_in ("    <TotalAmount currency=" ++ dq ++ currency invoice ++ dq
                ++ ">" ++ str_decimal (total_amount invoice)
                ++ "</TotalAmount>" ++ nl) body).
Proof.
  intros Hmethod Hget.
  unfold invoice_xml_export, require_http_methods, get_object_or_404.
  rewrite Hmethod, Hget. simpl.
  destruct (String.eqb_spec (xml_content invoice) "") as [Hempty | Hfull]; simpl.
  - exists (basic_xml invoice). split; [reflexivity | split; [contradiction |]].
    intros _. split; [reflexivity |].
    unfold basic_xml.
    repeat split; find_occurrence.
  - exists (xml_content invoice).
    split; [reflexivity | split; [reflexivity | contradiction]].
Qed.

(** C5 at the stored invoice INV-2024-002, which has no [xml_content]: the
    synthesized document holds the invoice number and the total amount 119.00
    with the currency attribute EUR. *)
Lemma invoice_xml_export_spec_witness :
  exists body,
    invoice_xml_export 1 db_one_invoice anonymous_get
    = ok {| status_code := 200;
            content_type := "application/xml";
            headers :=
              [("Content-Disposition",
                "attachment; filename=" ++ dq ++ "invoice_INV-2024-002.xml"
                ++ dq)];
            content := Text body |} /\
    occurs_in ("    <InvoiceNumber>INV-2024-002</InvoiceNumber>" ++ nl) body /\
    occurs_in ("    <TotalAmount currency=" ++ dq ++ "EUR" ++ dq
               ++ ">119.00</TotalAmount>" ++ nl) body.
Proof.
  destruct (invoice_xml_export_spec 1 db_one_invoice anonymous_get
              (fst (create_invoice INV_2024_002 0 empty_store))
              eq_refl eq_refl)
    as (body & Heq & _ & Hsynth).
  destruct (Hsynth eq_refl) as (_ & Hnumber & _ & _ & _ & Htotal).
  exists body. split; [exact Heq | split; [exact Hnumber | exact Htotal]].
Defined.

(** Markup characters of a field reach the synthesized document as they
    are. *)
Example invoice_xml_export_pastes_markup :
  exists body,
    option_map content
      (match invoice_xml_export 1 db_markup anonymous_get with
       | inr response => Some response
       | inl _ => None
       end) = Some (Text body) /\
    occurs_in "<Name>A<B>&C</Name>" body /\
    occurs_in "<InvoiceNumber>INV-<1></InvoiceNumber>" body.
Proof.
  eexists. split; [reflexivity |].
  split; apply contains_spec; vm_compute; reflexivity.
Qed.

Section Detail.

Lemma dict_get_line_total (item : XRechnungLineItem) :
  json_get "line_total" (line_item_json item)
  = Some (JStr (str_decimal (line_total item))).
Proof. reflexivity. Qed.

Lemma detail_data_net_amount (invoice : XRechnungInvoice) (db : Store) :
  json_get "net_amount" (invoice_detail_data invoice db)
  = Some (JStr (str_decimal (net_amount invoice))).
Proof. reflexivity. Qed.

Lemma detail_data_due_date (invoice : XRechnungInvoice) (db : Store) :
  json_get "due_date" (invoice_detail_data invoice db)
  = Some (match due_date invoice with
          | Some d => JStr (isoformat d)
          | None => JNull
          end).
Proof. reflexivity. Qed.

Lemma detail_data_line_items (invoice : XRechnungInvoice) (db : Store) :
  json_get "line_items" (invoice_detail_data invoice db)
  = Some (JList (List.map line_item_json (line_items_of invoice db))).
Proof. reflexivity. Qed.

End Detail.

(** C10. For an authenticated GET of a stored invoice the JSON detail maps a
    null net amount to the string "None", a null line total of any of its
    line items to the string "None", and a missing due date to JSON null; a
    null net amount is reachable, since saving an invoice whose tax amount
    is zero derives nothing. *)
Theorem invoice_detail_api_null_amounts (pk : Z) (db : Store)
  (request : HttpRequest) (invoice : XRechnungInvoice) :
  method request = "GET" ->
  user_is_authenticated request = true ->
  get_invoice pk db = Some invoice ->
  exists data,
    invoice_detail_api pk db request = ok (JsonResponse data 200) /\
    (net_amount invoice = None ->
     json_get "net_amount" data = Some (JStr "None")) /\
    (due_date invoice = None -> json_get "due_date" data = Some JNull) /\
    (exists items,
        json_get "line_items" data = Some (JList items) /\
        items = List.map line_item_json (line_items_of invoice db) /\
        forall item,
          In item (line_items_of invoice db) ->
          line_total item = None ->
          In (line_item_json item) items /\
          json_get "line_total" (line_item_json item) = Some (JStr "None")) /\
    (forall (self : XRechnungInvoice) (e : Z) (force_insert : bool) (now : Z)
            (db0 : Store),
        net_amount self = None ->
        tax_amount self = Some (mkDecimal 0 e) ->
        net_amount (fst (XRechnungInvoice_save self force_insert now db0))
        = None).
Proof.
  intros Hmethod Hauth Hget.
  exists (invoice_detail_data invoice db).
  split; [| split; [| split; [| split]]].
  - unfold invoice_detail_api, require_http_methods, get_object_or_404.
    rewrite Hmethod, Hauth, Hget. reflexivity.
  - intros Hnet. rewrite detail_data_net_amount, Hnet. reflexivity.
  - intros Hdue. rewrite detail_data_due_date, Hdue. reflexivity.
  - eexists. split; [apply detail_data_line_items | split; [reflexivity |]].
    intros item Hin Hline. split.
    + apply List.in_map. exact Hin.
    + rewrite dict_get_line_total, Hline. reflexivity.
  - intros self e force_insert now db0 Hnet Htax.
    unfold XRechnungInvoice_save.
    rewrite Model_save_invoice_net_amount.
    rewrite (derive_net_amount_skips_zero_tax self e Htax). exact Hnet.
Qed.

(** C10 at a stored invoice created without tax and net amount, with a line
    item whose unit price is 0.00. *)
Lemma invoice_detail_api_null_amounts_witness :
  exists data,
    invoice_detail_api 1 db_null_amounts authenticated_get
      = ok (JsonResponse data 200) /\
    json_get "net_amount" data = Some (JStr "None") /\
    json_get "due_date" data = Some JNull /\
    (exists item,
        json_get "line_items" data = Some (JList [item]) /\
        json_get "line_total" item = Some (JStr "None")).
Proof.
  destruct (invoice_detail_api_null_amounts 1 db_null_amounts
              authenticated_get
              (adapt_invoice (fst (create_invoice INV_TEST_002 20 empty_store)))
              eq_refl eq_refl eq_refl)
    as (data & Heq & Hnet & Hdue & (items & Hitems & Hmap & _) & _).
  exists data.
  split; [exact Heq | split; [exact (Hnet eq_refl) | split; [exact (Hdue eq_refl) |]]].
  eexists. split; [rewrite Hitems, Hmap; reflexivity | reflexivity].
Defined.

(* ===================================================================== *)
(** ** The invoice number under updates                                   *)
(* ===================================================================== *)

Section InvoiceNumber.

Lemma get_invoice_pk (pk : Z) (db : Store) (obj : XRechnungInvoice) :
  get_invoice pk db = Some obj -> id obj = Some pk.
Proof.
  unfold get_invoice. intros Hfind. apply List.find_some in Hfind.
  destruct Hfind as [_ Hpk]. destruct (id obj) as [k |]; simpl in Hpk;
    [| discriminate].
  apply Z.eqb_eq in Hpk. congruence.
Qed.

(** After a row has been replaced, a lookup by its key finds the new row. *)
Lemma find_replace_invoice (row : XRechnungInvoice) (pk : Z)
  (rows : list XRechnungInvoice) :
  id row = Some pk ->
  is_None (List.find (fun r => pk_eqb (id r) (Some pk)) rows) = false ->
  List.find (fun r => pk_eqb (id r) (Some pk)) (replace_invoice row rows)
  = Some row.
Proof.
  intros Hid. induction rows as [| r rows IH]; simpl; [discriminate |].
  rewrite Hid. destruct (pk_eqb (id r) (Some pk)) eqn:Hr; simpl.
  - intros _. rewrite Hid. simpl. rewrite Z.eqb_refl. reflexivity.
  - rewrite Hr. exact IH.
Qed.

Lemma derive_net_amount_id (self : XRechnungInvoice) :
  id (derive_net_amount self) = id self.
Proof.
  unfold derive_net_amount.
  destruct (_ && _); [| reflexivity].
  destruct (total_amount self), (tax_amount self); reflexivity.
Qed.

(** An update of a stored invoice leaves, under its key, the row with the
    invoice number of the saved instance. *)
Lemma save_update_stores_number (self : XRechnungInvoice) (pk now : Z)
  (db db' : Store) :
  id self = Some pk ->
  is_None (get_invoice pk db) = false ->
  snd (XRechnungInvoice_save self false now db) = inr db' ->
  exists row, get_invoice pk db' = Some row /\
              invoice_number row = invoice_number self.
Proof.
  intros Hid Hstored. unfold XRechnungInvoice_save, Model_save_invoice.
  rewrite derive_net_amount_id, Hid, Hstored. simpl.
  destruct (_ && _); simpl; intros Hok; [| discriminate Hok].
  injection Hok as <-. eexists. split.
  - unfold get_invoice. simpl. apply find_replace_invoice; [reflexivity |].
    exact Hstored.
  - simpl. apply derive_net_amount_invoice_number.
Qed.

Lemma form_value_readonly (readonly : list string)
  (posted : gmap string string) (name : string) (blank : bool)
  (current : string) :
  existsb (String.eqb name) readonly = true ->
  Admin.form_value readonly posted name blank current = ok current.
Proof. intros Hro. unfold Admin.form_value. rewrite Hro. reflexivity. Qed.

Ltac split_binds H :=
  repeat match type of H with
         | context [bind ?m _] =>
             destruct m as [? | ?]; simpl in H; [discriminate H |]
         end.

(** The change form keeps the key, and keeps the invoice number when that
    field is read-only. *)
Lemma apply_change_form_readonly (readonly : list string)
  (posted : gmap string string) (obj changed : XRechnungInvoice) :
  Admin.apply_change_form readonly posted obj = ok changed ->
  id changed = id obj /\
  (existsb (String.eqb "invoice_number") readonly = true ->
   invoice_number changed = invoice_number obj).
Proof.
  intros Hform. split.
  - unfold Admin.apply_change_form in Hform. split_binds Hform.
    injection Hform as <-. reflexivity.
  - intros Hro. unfold Admin.apply_change_form in Hform.
    rewrite (form_value_readonly _ _ _ _ _ Hro) in Hform.
    simpl in Hform. split_binds Hform.
    injection Hform as <-. reflexivity.
Qed.

End InvoiceNumber.

(** C9 fails on the code: the stored invoice INV-2024-002, saved again with
    another invoice number, is stored under its key with the new number. *)
Lemma save_changes_invoice_number :
  option_map invoice_number (get_invoice 1 db_one_invoice)
    = Some "INV-2024-002" /\
  exists db',
    snd (XRechnungInvoice_save INV_RENAMED false 5 db_one_invoice) = inr db' /\
    option_map invoice_number (get_invoice 1 db') = Some "INV-RENAMED".
Proof.
  split; [reflexivity |]. eexists. split; reflexivity.
Qed.

(** C9 as amended. The admin lists [invoice_number] among the read-only
    fields when an existing invoice is edited, and not when one is added;
    so a change made through the admin's change form leaves the stored
    invoice number as it was. *)
Theorem admin_change_keeps_invoice_number (request : option HttpRequest)
  (posted : gmap string string) (pk now : Z) (db db' : Store)
  (obj : XRechnungInvoice) :
  get_invoice pk db = Some obj ->
  Admin.change_view request posted pk now db = ok db' ->
  In "invoice_number" (Admin.get_readonly_fields request (Some obj)) /\
  ~ In "invoice_number" (Admin.get_readonly_fields request None) /\
  exists row, get_invoice pk db' = Some row /\
              invoice_number row = invoice_number obj.
Proof.
  intros Hget Hchange. split; [| split].
  - simpl. tauto.
  - simpl. intros [H | [H | [H | []]]]; discriminate H.
  - unfold Admin.change_view, get_object_or_404 in Hchange.
    rewrite Hget in Hchange. simpl in Hchange.
    destruct (Admin.apply_change_form _ posted obj) as [e | changed] eqn:Hform;
      simpl in Hchange; [discriminate Hchange |].
    destruct (apply_change_form_readonly _ _ _ _ Hform) as [Hid Hnumber].
    destruct (save_update_stores_number changed pk now db db') as (row & Hrow & Hsame).
    + rewrite Hid. exact (get_invoice_pk pk db obj Hget).
    + rewrite Hget. reflexivity.
    + exact Hchange.
    + exists row. split; [exact Hrow |].
      rewrite Hsame. apply Hnumber. reflexivity.
Qed.

(** C9 as amended, at the stored invoice INV-2024-002 and a form that posts
    another invoice number along with a new supplier name: the number stays,
    the supplier name changes. *)
Lemma admin_change_keeps_invoice_number_witness :
  exists db' row,
    Admin.change_view None posted_rename 1 5 db_one_invoice = ok db' /\
    get_invoice 1 db' = Some row /\
    invoice_number row = "INV-2024-002" /\
    supplier_name row = "New Supplier".
Proof.
  destruct (admin_change_keeps_invoice_number None posted_rename 1 5
              db_one_invoice
              (store_of (Admin.change_view None posted_rename 1 5
                           db_one_invoice))
              (fst (create_invoice INV_2024_002 0 empty_store))
              eq_refl eq_refl)
    as (_ & _ & row & Hrow & Hnumber).
  exists (store_of (Admin.change_view None posted_rename 1 5 db_one_invoice)),
         row.
  split; [reflexivity | split; [exact Hrow | split; [exact Hnumber |]]].
  vm_compute in Hrow. injection Hrow as <-. reflexivity.
Defined.

(* ===================================================================== *)
(** ** The configuration and the page size                                *)
(* ===================================================================== *)

Section Configuration.

Import Config.

(** The configuration is the union of the three sources, later ones
    first. *)
Lemma _load_config_union (env : Environment) :
  _load_config env
  = default ∅ (pyproject_table env)
    ∪ (default ∅ (DJANGO_XRECHNUNG env) ∪ DEFAULT_CONFIG).
Proof.
  unfold _load_config, _load_from_pyproject, dict_update.
  destruct (Nat.eqb_spec (size (default ∅ (pyproject_table env))) 0)
    as [Hempty | Hfull]; simpl; [| reflexivity].
  apply map_size_empty_iff in Hempty. rewrite Hempty.
  rewrite (left_id_L ∅ (∪)). reflexivity.
Qed.

(** A key of the pyproject table wins over every other source. *)
Lemma pyproject_wins (env : Environment) (table : gmap string ConfigValue)
  (key : string) (v : ConfigValue) :
  pyproject_table env = Some table -> table !! key = Some v ->
  _load_config env !! key = Some v.
Proof.
  intros Htable Hkey. rewrite _load_config_union, Htable. simpl.
  apply lookup_union_Some_l. exact Hkey.
Qed.

(** A key of the Django settings wins over the default when the pyproject
    table does not have it. *)
Lemma settings_win (env : Environment) (django : gmap string ConfigValue)
  (key : string) (v : ConfigValue) :
  default ∅ (pyproject_table env) !! key = None ->
  DJANGO_XRECHNUNG env = Some django -> django !! key = Some v ->
  _load_config env !! key = Some v.
Proof.
  intros Hpy Hdjango Hkey. rewrite _load_config_union, Hdjango. simpl.
  rewrite lookup_union_r by exact Hpy.
  apply lookup_union_Some_l. exact Hkey.
Qed.

(** A key no source overrides keeps its default. *)
Lemma defaults_remain (env : Environment) (key : string) :
  default ∅ (pyproject_table env) !! key = None ->
  default ∅ (DJANGO_XRECHNUNG env) !! key = None ->
  _load_config env !! key = DEFAULT_CONFIG !! key.
Proof.
  intros Hpy Hdjango. rewrite _load_config_union.
  rewrite lookup_union_r by exact Hpy.
  rewrite lookup_union_r by exact Hdjango. reflexivity.
Qed.

(** A page of the list view never has more than [paginate_by] rows. *)
Lemma paginate_queryset_length {A : Type} (queryset page : list A)
  (page_size number : nat) :
  paginate_queryset queryset page_size number = ok page ->
  (List.length page <= page_size)%nat.
Proof.
  unfold paginate_queryset. destruct (_ && _); [| discriminate].
  intros H. injection H as <-. apply List.firstn_le_length.
Qed.

End Configuration.

(** C8 (the code at the failing input). With [PAGINATION_SIZE] overridden to
    50 in the settings, the configuration reports the page size 50, while
    the list view keeps [paginate_by = 20]: of 21 stored invoices its first
    page shows 20 and its second page the remaining one. *)
Theorem list_page_ignores_pagination_size :
  Config.pagination_size (Config._load_config env_page_size_50)
    = Config.CInt 50 /\
  paginate_by = 20%nat /\
  List.length (invoices db_21_invoices) = 21%nat /\
  option_map (@List.length XRechnungInvoice)
    (match invoice_list_page sample_to_python anonymous_get 1 db_21_invoices
     with inr page => Some page | inl _ => None end) = Some 20%nat /\
  option_map (@List.length XRechnungInvoice)
    (match invoice_list_page sample_to_python anonymous_get 2 db_21_invoices
     with inr page => Some page | inl _ => None end) = Some 1%nat.
Proof.
  split; [| split; [reflexivity | split; [| split]]].
  - unfold Config.pagination_size, Config.get.
    rewrite (settings_win env_page_size_50
               {[ "PAGINATION_SIZE" := Config.CInt 50 ]}
               "PAGINATION_SIZE" (Config.CInt 50));
      reflexivity.
  - vm_compute. reflexivity.
  - vm_compute. reflexivity.
  - vm_compute. reflexivity.
Qed.

(* ===================================================================== *)
(** ** Further properties of the derivation                               *)
(* ===================================================================== *)

(** X1. After a save the net amount of an invoice is None exactly when it
    was None before and the total or the tax amount is None or zero: these
    are the only invoices the derivation passes over. *)
Theorem invoice_save_net_amount_null_iff (self : XRechnungInvoice)
  (force_insert : bool) (now : Z) (db : Store) :
  net_amount (fst (XRechnungInvoice_save self force_insert now db)) = None <->
  net_amount self = None /\
  (truthy (total_amount self) = false \/ truthy (tax_amount self) = false).
Proof.
  unfold XRechnungInvoice_save. rewrite Model_save_invoice_net_amount.
  unfold derive_net_amount.
  destruct (net_amount self) as [net |] eqn:Hnet; simpl.
  - rewrite Hnet. split; [discriminate | intros [H _]; discriminate H].
  - destruct (total_amount self) as [total |] eqn:Htotal; simpl.
    + destruct (tax_amount self) as [tax |] eqn:Htax; simpl.
      * destruct (dec_bool total), (dec_bool tax); simpl; rewrite ?Hnet;
          split; try discriminate; try tauto.
        intros [_ [H | H]]; discriminate H.
      * rewrite andb_false_r, Hnet. tauto.
    + rewrite Hnet. tauto.
Qed.

(** X2. A line total that is not None when [save] is called is kept as it
    is on the instance, whether or not it equals quantity times unit price,
    and the stored row gets it at the two places of the column: the very
    decimal when it has two places, the same number when it has at most two
    fractional digits. *)
Theorem line_item_save_keeps_line_total (self : XRechnungLineItem)
  (force_insert : bool) (db : Store) (total : Decimal) :
  line_total self = Some total ->
  derive_line_total self = self /\
  line_total (fst (XRechnungLineItem_save self force_insert db)) = Some total /\
  (forall db',
      snd (XRechnungLineItem_save self force_insert db) = inr db' ->
      In (adapt_line_item (fst (XRechnungLineItem_save self force_insert db)))
         (line_items db') /\
      line_total
        (adapt_line_item (fst (XRechnungLineItem_save self force_insert db)))
      = Some (quantize 2 total)) /\
  (exp total = -2 -> quantize 2 total = total) /\
  (fits_places 2 total ->
   (dec_value (quantize 2 total) == dec_value total)%Q).
Proof.
  intros Hline.
  assert (Hkeep : derive_line_total self = self)
    by (unfold derive_line_total; rewrite Hline; reflexivity).
  assert (Hinst : line_total
                    (fst (XRechnungLineItem_save self force_insert db))
                  = Some total).
  { unfold XRechnungLineItem_save.
    rewrite Model_save_line_item_line_total, Hkeep. exact Hline. }
  split; [exact Hkeep | split; [exact Hinst |]].
  split; [| split; [apply (quantize_id 2) | apply quantize_exact]].
  intros db' Hok. split.
  - unfold XRechnungLineItem_save in *.
    apply Model_save_line_item_stored. exact Hok.
  - cbn [adapt_line_item line_total]. rewrite Hinst. reflexivity.
Qed.

(** X2 at a line item given the total 1.00 for 3.0 times 25.00. *)
Lemma line_item_save_keeps_line_total_witness :
  line_total
    (fst (XRechnungLineItem_save
            (set_line_total (Some (mkDecimal 100 (-2))) LINE_3_x_25)
            true db_one_invoice))
  = Some (mkDecimal 100 (-2)).
Proof.
  exact (proj1 (proj2 (line_item_save_keeps_line_total
                         (set_line_total (Some (mkDecimal 100 (-2)))
                            LINE_3_x_25)
                         true db_one_invoice (mkDecimal 100 (-2)) eq_refl))).
Defined.

(** X3. After a save the line total of a line item is None exactly when it
    was None before and the quantity or the unit price is None or zero; so a
    free item (unit price 0.00) is stored without a line total. *)
Theorem line_item_save_line_total_null_iff (self : XRechnungLineItem)
  (force_insert : bool) (db : Store) :
  line_total (fst (XRechnungLineItem_save self force_insert db)) = None <->
  line_total self = None /\
  (truthy (quantity self) = false \/ truthy (unit_price self) = false).
Proof.
  unfold XRechnungLineItem_save. rewrite Model_save_line_item_line_total.
  unfold derive_line_total.
  destruct (line_total self) as [total |] eqn:Hline; simpl.
  - rewrite Hline. split; [discriminate | intros [H _]; discriminate H].
  - destruct (quantity self) as [qty |] eqn:Hqty; simpl.
    + destruct (unit_price self) as [price |] eqn:Hprice; simpl.
      * destruct (dec_bool qty), (dec_bool price); simpl; rewrite ?Hline;
          split; try discriminate; try tauto.
        intros [_ [H | H]]; discriminate H.
      * rewrite andb_false_r, Hline. tauto.
    + rewrite Hline. tauto.
Qed.

Section RequiredFields.

Lemma derive_net_amount_amounts (self : XRechnungInvoice) :
  total_amount (derive_net_amount self) = total_amount self /\
  tax_amount (derive_net_amount self) = tax_amount self.
Proof.
  unfold derive_net_amount.
  destruct (_ && _); [| split; reflexivity].
  destruct (total_amount self) eqn:Htotal, (tax_amount self) eqn:Htax;
    split; simpl; congruence.
Qed.

Lemma derive_line_total_operands (self : XRechnungLineItem) :
  quantity (derive_line_total self) = quantity self /\
  unit_price (derive_line_total self) = unit_price self.
Proof.
  unfold derive_line_total.
  destruct (_ && _); [| split; reflexivity].
  destruct (quantity self) eqn:Hqty, (unit_price self) eqn:Hprice;
    split; simpl; congruence.
Qed.

(** A write of a row that breaks a constraint of the invoice table is
    refused, insert or update. *)
Lemma Model_save_invoice_refused (self : XRechnungInvoice)
  (force_insert : bool) (now : Z) (db : Store) :
  (forall created updated others,
      invoice_constraints_ok (set_stamps (id self) created updated self)
        others = false) ->
  snd (Model_save_invoice self force_insert now db) = inl IntegrityError.
Proof.
  intros Hbad. unfold Model_save_invoice.
  destruct (_ && negb force_insert).
  - rewrite Hbad. reflexivity.
  - rewrite Hbad, orb_true_r. reflexivity.
Qed.

End RequiredFields.

(** X4. An invoice without a total amount or without a tax amount is
    refused by the store with an integrity error on every save, and so is a
    line item without quantity or unit price or with an invoice key that no
    stored invoice has. *)
Theorem save_without_required_field_raises :
  (forall (self : XRechnungInvoice) (force_insert : bool) (now : Z)
          (db : Store),
      total_amount self = None \/ tax_amount self = None ->
      snd (XRechnungInvoice_save self force_insert now db)
      = raise IntegrityError) /\
  (forall (self : XRechnungLineItem) (force_insert : bool) (db : Store),
      quantity self = None \/ unit_price self = None \/
      get_invoice (invoice_id self) db = None ->
      snd (XRechnungLineItem_save self force_insert db)
      = raise IntegrityError).
Proof.
  split.
  - intros self force_insert now db Hmissing.
    unfold XRechnungInvoice_save. apply Model_save_invoice_refused.
    intros created updated others. unfold invoice_constraints_ok. simpl.
    destruct (derive_net_amount_amounts self) as [-> ->].
    destruct Hmissing as [-> | ->]; simpl; rewrite ?andb_false_r; reflexivity.
  - intros self force_insert db Hmissing.
    unfold XRechnungLineItem_save, Model_save_line_item.
    assert (Hbad : forall others,
               line_item_constraints_ok (derive_line_total self) others db
               = false).
    { intros others. unfold line_item_constraints_ok.
      destruct (derive_line_total_operands self) as [-> ->].
      destruct (derive_line_total_key self) as [-> _].
      destruct Hmissing as [-> | [-> | ->]]; simpl;
        rewrite ?andb_false_r; reflexivity. }
    destruct (_ && negb force_insert).
    + rewrite Hbad. reflexivity.
    + rewrite Hbad, orb_true_r. reflexivity.
Qed.

(** X4 at an invoice constructed without a total amount, and at a line item
    for the invoice key 7 in a store that has the key 1 only. *)
Lemma save_without_required_field_raises_witness :
  snd (create_invoice
         (new_invoice "INV-0" (mkDate 2024 1 1) "S" "B" None None None)
         0 empty_store) = raise IntegrityError /\
  snd (create_line_item
         (new_line_item 7 1 "Orphan" None (Some (mkDecimal 100 (-2))) None)
         db_one_invoice) = raise IntegrityError.
Proof.
  destruct save_without_required_field_raises as [Hinvoice Hitem].
  split.
  - apply (Hinvoice _ true 0 empty_store). left. reflexivity.
  - apply (Hitem _ true db_one_invoice). right. right. reflexivity.
Defined.

(* ===================================================================== *)
(** ** Further properties of the views                                    *)
(* ===================================================================== *)

(** X5. A GET of an anonymous user to the JSON list or the JSON detail is
    answered with status 401 and the error body, whatever the key and the
    store: nothing of the store, not even whether the invoice exists, gets
    into the answer. *)
Theorem api_requires_authentication (pk : Z) (db : Store)
  (request : HttpRequest) :
  method request = "GET" ->
  user_is_authenticated request = false ->
  invoice_list_api db request
  = ok (JsonResponse (JDict [("error", JStr "Authentication required")]) 401) /\
  invoice_detail_api pk db request
  = ok (JsonResponse (JDict [("error", JStr "Authentication required")]) 401).
Proof.
  intros Hmethod Hanon.
  unfold invoice_list_api, invoice_detail_api, require_http_methods.
  rewrite Hmethod, Hanon. split; reflexivity.
Qed.

(** X5 at the anonymous request, for a key that is stored and one that is
    not. *)
Lemma api_requires_authentication_witness :
  option_map status_code
    (match invoice_detail_api 1 db_one_invoice anonymous_get with
     | inr response => Some response
     | inl _ => None
     end) = Some 401 /\
  invoice_detail_api 99 db_one_invoice anonymous_get
  = invoice_detail_api 1 db_one_invoice anonymous_get.
Proof.
  destruct (api_requires_authentication 1 db_one_invoice anonymous_get
              eq_refl eq_refl) as [_ H1].
  destruct (api_requires_authentication 99 db_one_invoice anonymous_get
              eq_refl eq_refl) as [_ H99].
  split; [rewrite H1; reflexivity | rewrite H1, H99; reflexivity].
Defined.

(** X6. The XML export checks no authentication and reads no query
    parameter: two requests with the same method get the same answer, so an
    anonymous GET gets the document a logged-in GET gets. *)
Theorem xml_export_ignores_user (pk : Z) (db : Store)
  (request request' : HttpRequest) :
  method request = method request' ->
  invoice_xml_export pk db request = invoice_xml_export pk db request'.
Proof.
  intros Hmethod. unfold invoice_xml_export, require_http_methods.
  rewrite Hmethod. reflexivity.
Qed.

(** X6 at the anonymous and the logged-in GET of the scenarios. *)
Lemma xml_export_ignores_user_witness :
  invoice_xml_export 1 db_one_invoice anonymous_get
  = invoice_xml_export 1 db_one_invoice authenticated_get.
Proof.
  exact (xml_export_ignores_user 1 db_one_invoice anonymous_get
           authenticated_get eq_refl).
Defined.

(** X7. A GET for a key no stored invoice has raises the not-found error, in
    the XML export for every user and in the JSON detail for a logged-in
    one. *)
Theorem missing_invoice_raises_Http404 (pk : Z) (db : Store)
  (request : HttpRequest) :
  method request = "GET" ->
  get_invoice pk db = None ->
  invoice_xml_export pk db request = raise Http404 /\
  (user_is_authenticated request = true ->
   invoice_detail_api pk db request = raise Http404).
Proof.
  intros Hmethod Hmissing.
  unfold invoice_xml_export, invoice_detail_api, require_http_methods,
    get_object_or_404.
  rewrite Hmethod, Hmissing. split; [reflexivity |].
  intros ->. reflexivity.
Qed.

(** X7 at the key 99 of a store that has the key 1 only. *)
Lemma missing_invoice_raises_Http404_witness :
  invoice_xml_export 99 db_one_invoice anonymous_get = raise Http404 /\
  invoice_detail_api 99 db_one_invoice authenticated_get = raise Http404.
Proof.
  destruct (missing_invoice_raises_Http404 99 db_one_invoice anonymous_get
              eq_refl eq_refl) as [Hxml _].
  destruct (missing_invoice_raises_Http404 99 db_one_invoice
              authenticated_get eq_refl eq_refl) as [_ Hdetail].
  split; [exact Hxml | exact (Hdetail eq_refl)].
Defined.

(** X8. Each of the three API views answers a request whose method is not
    GET with status 405 and the header Allow: GET, before it looks at the
    user or at the store. *)
Theorem api_allows_only_GET (pk : Z) (db : Store) (request : HttpRequest) :
  method request <> "GET" ->
  invoice_list_api db request = ok (HttpResponseNotAllowed ["GET"]) /\
  invoice_detail_api pk db request = ok (HttpResponseNotAllowed ["GET"]) /\
  invoice_xml_export pk db request = ok (HttpResponseNotAllowed ["GET"]) /\
  status_code (HttpResponseNotAllowed ["GET"]) = 405 /\
  headers (HttpResponseNotAllowed ["GET"]) = [("Allow", "GET")].
Proof.
  intros Hmethod.
  unfold invoice_list_api, invoice_detail_api, invoice_xml_export,
    require_http_methods.
  simpl. destruct (String.eqb_spec (method request) "GET") as [Heq | _];
    [contradiction |].
  repeat split; reflexivity.
Qed.

(** X8 at a POST of a logged-in user for a stored invoice. *)
Lemma api_allows_only_GET_witness :
  invoice_xml_export 1 db_one_invoice
    {| method := "POST"; GET := ∅; user_is_authenticated := true |}
  = ok (HttpResponseNotAllowed ["GET"]).
Proof.
  exact (proj1 (proj2 (proj2
    (api_allows_only_GET 1 db_one_invoice
       {| method := "POST"; GET := ∅; user_is_authenticated := true |}
       ltac:(discriminate))))).
Defined.

(** X9. For a logged-in GET without date parameters the JSON list is built
    from the very query set of the list page: status 200 and, under the key
    "invoices", one entry per invoice of [get_queryset], in its order; each
    entry gives the invoice number of its invoice. *)
Theorem invoice_list_api_lists_queryset
  (to_python : string -> Result date) (db : Store) (request : HttpRequest) :
  method request = "GET" ->
  user_is_authenticated request = true ->
  GET request !! "start_date" = None ->
  GET request !! "end_date" = None ->
  exists queryset,
    get_queryset to_python request db = ok queryset /\
    invoice_list_api db request
    = ok (JsonResponse
            (JDict [("invoices",
                     JList (List.map invoice_list_entry queryset))]) 200) /\
    List.map (json_get "invoice_number")
      (List.map invoice_list_entry queryset)
    = List.map (fun r => Some (JStr (invoice_number r))) queryset.
Proof.
  intros Hmethod Hauth Hstart Hend.
  unfold get_queryset, invoice_list_api, require_http_methods.
  rewrite Hmethod, Hauth, Hstart, Hend. simpl.
  eexists. split; [reflexivity | split; [reflexivity |]].
  rewrite List.map_map. reflexivity.
Qed.

(** X9 at the store of the two suppliers: the logged-in list names both
    invoices. *)
Lemma invoice_list_api_lists_queryset_witness :
  exists queryset,
    get_queryset sample_to_python authenticated_get db_two_suppliers
      = ok queryset /\
    invoice_list_api db_two_suppliers authenticated_get
    = ok (JsonResponse
            (JDict [("invoices",
                     JList (List.map invoice_list_entry queryset))]) 200) /\
    List.length queryset = 2%nat.
Proof.
  destruct (invoice_list_api_lists_queryset sample_to_python
              db_two_suppliers authenticated_get eq_refl eq_refl eq_refl
              eq_refl) as (queryset & Hqs & Hapi & _).
  exists queryset. split; [exact Hqs | split; [exact Hapi |]].
  vm_compute in Hqs. injection Hqs as <-. reflexivity.
Defined.

(** X10. A date parameter that is given and does not convert makes
    [get_queryset] raise the conversion's error, whatever is stored and
    whatever the supplier parameter is: a refused [start_date] whatever
    [end_date] is, since it is converted first, and a refused [end_date]
    whenever [start_date] is absent, empty or converts. *)
Theorem get_queryset_bad_date_raises (to_python : string -> Result date)
  (request : HttpRequest) (db : Store) (s : string) (e : Exception) :
  s <> "" ->
  to_python s = raise e ->
  (GET request !! "start_date" = Some s ->
   get_queryset to_python request db = raise e) /\
  (GET request !! "end_date" = Some s ->
   (GET request !! "start_date" = None \/
    GET request !! "start_date" = Some "" \/
    exists s0 d, GET request !! "start_date" = Some s0 /\
                 to_python s0 = ok d) ->
   get_queryset to_python request db = raise e).
Proof.
  intros Hne He. split.
  - intros Hs. exact (get_queryset_bad_start_date to_python request db s e
                        Hs Hne He).
  - intros Hs Hstart. unfold get_queryset. rewrite Hs.
    assert (Hend : str_truthy (Some s) = true)
      by (simpl; destruct (String.eqb_spec s ""); [contradiction |];
          reflexivity).
    rewrite Hend.
    destruct Hstart as [H0 | [H0 | (s0 & d & H0 & Hd)]]; rewrite H0.
    + simpl. rewrite He. reflexivity.
    + simpl. rewrite He. reflexivity.
    + destruct (str_truthy (Some s0)); simpl; rewrite ?Hd; simpl;
        rewrite He; reflexivity.
Qed.

(** X10 at the start date "yesterday", and at the end date "tomorrow" next
    to the start date 2024-01-01, in the empty store. *)
Lemma get_queryset_bad_date_raises_witness :
  get_queryset sample_to_python
    {| method := "GET"; GET := {[ "start_date" := "yesterday" ]};
       user_is_authenticated := false |} empty_store
  = raise ValidationError /\
  get_queryset sample_to_python
    {| method := "GET";
       GET := {[ "start_date" := "2024-01-01"; "end_date" := "tomorrow" ]};
       user_is_authenticated := false |} empty_store
  = raise ValidationError.
Proof.
  split.
  - exact (proj1 (get_queryset_bad_date_raises sample_to_python
                    {| method := "GET";
                       GET := {[ "start_date" := "yesterday" ]};
                       user_is_authenticated := false |}
                    empty_store "yesterday" ValidationError
                    ltac:(discriminate) eq_refl) eq_refl).
  - refine (proj2 (get_queryset_bad_date_raises sample_to_python
                     {| method := "GET";
                        GET := {[ "start_date" := "2024-01-01";
                                  "end_date" := "tomorrow" ]};
                        user_is_authenticated := false |}
                     empty_store "tomorrow" ValidationError
                     ltac:(discriminate) eq_refl) eq_refl _).
    right. right. exists "2024-01-01", (mkDate 2024 1 1).
    split; reflexivity.
Defined.

Section Pagination.

Lemma page_number_in_range (count i : nat) :
  (i < count)%nat ->
  (i / 20 + 1 <= Nat.max 1 ((count + 20 - 1) / 20))%nat.
Proof.
  intros Hi.
  replace (count + 20 - 1)%nat with ((count - 1) + 1 * 20)%nat by lia.
  rewrite Nat.div_add by discriminate.
  assert (i / 20 <= (count - 1) / 20)%nat
    by (apply Nat.Div0.div_le_mono; lia).
  lia.
Qed.

End Pagination.

(** X11. The pages of the list view cut the query set into blocks of 20 in
    its order: the row of rank [i] (from 0) is on page [i / 20 + 1], at rank
    [i mod 20] of that page; page 0 and every page past the last one are
    not found. *)
Theorem list_pages_cut_queryset {A : Type} (queryset : list A) :
  (forall i,
      (i < List.length queryset)%nat ->
      exists page,
        paginate_queryset queryset paginate_by (i / 20 + 1) = ok page /\
        nth_error page (i mod 20) = nth_error queryset i) /\
  paginate_queryset queryset paginate_by 0 = raise Http404 /\
  (forall number,
      (Nat.max 1 ((List.length queryset + 20 - 1) / 20) < number)%nat ->
      paginate_queryset queryset paginate_by number = raise Http404).
Proof.
  split; [| split].
  - intros i Hi. unfold paginate_queryset, paginate_by.
    pose proof (page_number_in_range (List.length queryset) i Hi) as Hrange.
    destruct (Nat.leb_spec 1 (i / 20 + 1)); [| lia].
    destruct (Nat.leb_spec (i / 20 + 1)
                (Nat.max 1 ((List.length queryset + 20 - 1) / 20)));
      [| lia].
    simpl andb. cbv iota. eexists. split; [reflexivity |].
    rewrite nth_error_firstn.
    assert (Hmod : (i mod 20 < 20)%nat) by (apply Nat.mod_upper_bound; lia).
    destruct (Nat.ltb_spec (i mod 20) 20); [| lia].
    rewrite nth_error_skipn. f_equal.
    pose proof (Nat.div_mod_eq i 20). lia.
  - reflexivity.
  - intros number Hnumber. unfold paginate_queryset, paginate_by.
    destruct (Nat.leb_spec number
                (Nat.max 1 ((List.length queryset + 20 - 1) / 20)));
      [lia |].
    rewrite andb_false_r. reflexivity.
Qed.

(** X11 at the 21 invoices: the invoice of rank 20 is the one row of
    page 2. *)
Lemma list_pages_cut_queryset_witness :
  exists page,
    paginate_queryset (all_invoices db_21_invoices) paginate_by 2 = ok page /\
    nth_error page 0 = nth_error (all_invoices db_21_invoices) 20.
Proof.
  exact (proj1 (list_pages_cut_queryset (all_invoices db_21_invoices)) 20%nat
           ltac:(vm_compute; lia)).
Defined.

(* ===================================================================== *)
(** ** The record store under saves and deletes                           *)
(* ===================================================================== *)

Section StoreFacts.

Lemma pk_eqb_true (a b : option Z) :
  pk_eqb a b = true <-> exists k, a = Some k /\ b = Some k.
Proof.
  destruct a as [x |], b as [y |]; simpl;
    try (split; [discriminate | intros [k [H1 H2]]; discriminate]).
  rewrite Z.eqb_eq. split.
  - intros ->. exists y. split; reflexivity.
  - intros [k [H1 H2]]. congruence.
Qed.

Lemma pk_eqb_refl (k : Z) : pk_eqb (Some k) (Some k) = true.
Proof. simpl. apply Z.eqb_refl. Qed.

Lemma find_app {A : Type} (f : A -> bool) (l1 l2 : list A) :
  List.find f (l1 ++ l2)
  = match List.find f l1 with
    | Some x => Some x
    | None => List.find f l2
    end.
Proof.
  induction l1 as [| x l1 IH]; simpl; [reflexivity |].
  destruct (f x); [reflexivity | exact IH].
Qed.

Lemma find_ext_In {A : Type} (f g : A -> bool) (l : list A) :
  (forall x, In x l -> f x = g x) -> List.find f l = List.find g l.
Proof.
  induction l as [| x l IH]; simpl; intros Hext; [reflexivity |].
  rewrite (Hext x) by (left; reflexivity).
  destruct (g x); [reflexivity |]. apply IH. intros y Hy. apply Hext. now right.
Qed.

(** Looking up a key among filtered rows, when the filter keeps every row
    of that key. *)
Lemma find_filter {A : Type} (f p : A -> bool) (l : list A) :
  (forall x, f x = true -> p x = true) ->
  List.find f (List.filter p l) = List.find f l.
Proof.
  intros Hkeep. induction l as [| x l IH]; simpl; [reflexivity |].
  destruct (p x) eqn:Hp; simpl.
  - destruct (f x); [reflexivity | exact IH].
  - destruct (f x) eqn:Hf; [| exact IH].
    rewrite (Hkeep x Hf) in Hp. discriminate.
Qed.

Lemma NoDup_map_filter {A B : Type} (g : A -> B) (p : A -> bool)
  (l : list A) :
  List.NoDup (List.map g l) -> List.NoDup (List.map g (List.filter p l)).
Proof.
  induction l as [| x l IH]; simpl; intros Hnd; [constructor |].
  apply List.NoDup_cons_iff in Hnd. destruct Hnd as [Hx Hl].
  destruct (p x); simpl; [| exact (IH Hl)].
  constructor; [| exact (IH Hl)].
  intros Hin. apply Hx. apply List.in_map_iff in Hin.
  destruct Hin as (y & Hy & Hyin). apply List.filter_In in Hyin.
  apply List.in_map_iff. exists y. tauto.
Qed.

Lemma NoDup_snoc {B : Type} (l : list B) (x : B) :
  List.NoDup l -> ~ In x l -> List.NoDup (l ++ [x]).
Proof.
  intros Hl Hx. induction l as [| y l IH]; simpl.
  - constructor; [intros [] | constructor].
  - apply List.NoDup_cons_iff in Hl. destruct Hl as [Hy Hl].
    constructor.
    + intros Hin. apply List.in_app_or in Hin.
      destruct Hin as [Hin | [Heq | []]]; [exact (Hy Hin) |].
      apply Hx. left. symmetry. exact Heq.
    + apply IH; [exact Hl |]. intros Hin. apply Hx. now right.
Qed.

(** A generic form of [replace_invoice] and [replace_line_item]. *)
Section Replace.

Context {A : Type}.
Variable key : A -> option Z.
Variable row : A.

Local Abbreviation replace rows :=
  (List.map (fun r => if pk_eqb (key r) (key row) then row else r) rows).

Lemma replace_keys (rows : list A) :
  List.map key (replace rows) = List.map key rows.
Proof.
  induction rows as [| r rows IH]; simpl; [reflexivity |].
  rewrite IH. f_equal.
  destruct (pk_eqb (key r) (key row)) eqn:Hr; [| reflexivity].
  apply pk_eqb_true in Hr. destruct Hr as (k & -> & ->). reflexivity.
Qed.

Lemma replace_fresh (rows : list A) :
  ~ In (key row) (List.map key rows) -> replace rows = rows.
Proof.
  induction rows as [| r rows IH]; simpl; intros Hfresh; [reflexivity |].
  destruct (pk_eqb (key r) (key row)) eqn:Hr.
  - apply pk_eqb_true in Hr. destruct Hr as (k & Hrk & Hrow).
    exfalso. apply Hfresh. left. congruence.
  - f_equal. apply IH. intros Hin. apply Hfresh. now right.
Qed.

Lemma replace_In (rows : list A) (x : A) :
  In x (replace rows) -> x = row \/ In x rows.
Proof.
  induction rows as [| r rows IH]; simpl; [tauto |].
  intros [Hx | Hx].
  - destruct (pk_eqb (key r) (key row)); [left | right; left]; congruence.
  - destruct (IH Hx); [left | right; right]; assumption.
Qed.

(** A lookup by the key of the new row finds the new row. *)
Lemma find_replace_same (pk : Z) (rows : list A) :
  key row = Some pk ->
  In (Some pk) (List.map key rows) ->
  List.find (fun r => pk_eqb (key r) (Some pk)) (replace rows) = Some row.
Proof.
  intros Hrow. induction rows as [| r rows IH]; simpl; [tauto |].
  destruct (pk_eqb (key r) (key row)) eqn:Hr.
  - intros _. rewrite Hrow, pk_eqb_refl. reflexivity.
  - rewrite Hrow in Hr. rewrite Hr. intros [Hhead | Htail];
      [| exact (IH Htail)].
    rewrite Hhead, pk_eqb_refl in Hr. discriminate.
Qed.

(** A lookup by another key finds what it found before. *)
Lemma find_replace_other (pk' : Z) (rows : list A) :
  key row <> Some pk' ->
  List.find (fun r => pk_eqb (key r) (Some pk')) (replace rows)
  = List.find (fun r => pk_eqb (key r) (Some pk')) rows.
Proof.
  intros Hother. induction rows as [| r rows IH]; simpl; [reflexivity |].
  destruct (pk_eqb (key r) (key row)) eqn:Hr.
  - apply pk_eqb_true in Hr. destruct Hr as (k & Hrk & Hrow).
    assert (Hk : k <> pk') by congruence.
    assert (Hrow' : pk_eqb (key row) (Some pk') = false)
      by (rewrite Hrow; simpl; apply Z.eqb_neq; exact Hk).
    assert (Hr' : pk_eqb (key r) (Some pk') = false)
      by (rewrite Hrk; simpl; apply Z.eqb_neq; exact Hk).
    rewrite Hrow', Hr'. exact IH.
  - destruct (pk_eqb (key r) (Some pk')); [reflexivity | exact IH].
Qed.

(** Replacing a row keeps the labels distinct when the new label differs
    from the label of every row of another key. *)
Lemma replace_labels_NoDup {B : Type} (label : A -> B) (rows : list A) :
  List.NoDup (List.map key rows) ->
  List.NoDup (List.map label rows) ->
  (forall r, In r rows -> pk_eqb (key r) (key row) = false ->
             label r <> label row) ->
  List.NoDup (List.map label (replace rows)).
Proof.
  induction rows as [| r rows IH]; simpl; intros Hkeys Hlabels Hother;
    [constructor |].
  apply List.NoDup_cons_iff in Hkeys. destruct Hkeys as [Hk Hkeys].
  apply List.NoDup_cons_iff in Hlabels. destruct Hlabels as [Hl Hlabels].
  destruct (pk_eqb (key r) (key row)) eqn:Hr.
  - apply pk_eqb_true in Hr. destruct Hr as (k & Hrk & Hrow).
    rewrite replace_fresh by congruence.
    constructor; [| exact Hlabels].
    intros Hin. apply List.in_map_iff in Hin. destruct Hin as (y & Hy & Hyin).
    apply (Hother y); [now right | | exact Hy].
    destruct (pk_eqb (key y) (key row)) eqn:Hyk; [| reflexivity].
    apply pk_eqb_true in Hyk. destruct Hyk as (k' & Hyk & Hrow').
    exfalso. apply Hk. apply List.in_map_iff. exists y.
    split; [congruence | exact Hyin].
  - constructor.
    + intros Hin. apply List.in_map_iff in Hin.
      destruct Hin as (y & Hy & Hyin). apply replace_In in Hyin.
      destruct Hyin as [-> | Hyin].
      * apply (Hother r); [now left | exact Hr | congruence].
      * apply Hl. apply List.in_map_iff. exists y. tauto.
    + apply IH; [exact Hkeys | exact Hlabels |].
      intros y Hy. apply Hother. now right.
Qed.

End Replace.

Lemma is_None_get_invoice_keys (pk : Z) (rows : list XRechnungInvoice) :
  is_None (List.find (fun r => pk_eqb (id r) (Some pk)) rows)
  = negb (existsb (fun i => pk_eqb i (Some pk)) (List.map id rows)).
Proof.
  rewrite find_existsb. f_equal.
  induction rows as [| r rows IH]; simpl; congruence.
Qed.

Lemma get_invoice_missing_key (pk : Z) (db : Store) :
  is_None (get_invoice pk db) = true <->
  ~ In (Some pk) (List.map id (invoices db)).
Proof.
  unfold get_invoice. rewrite is_None_get_invoice_keys, negb_true_iff.
  split.
  - intros Hnone Hin.
    assert (Hex : existsb (fun i => pk_eqb i (Some pk))
                    (List.map id (invoices db)) = true).
    { apply existsb_exists. exists (Some pk). split; [exact Hin |].
      apply pk_eqb_refl. }
    congruence.
  - intros Hfresh. destruct (existsb _ _) eqn:Hex; [| reflexivity].
    apply existsb_exists in Hex. destruct Hex as (i & Hin & Hi).
    apply pk_eqb_true in Hi. destruct Hi as (k & -> & Hk).
    exfalso. apply Hfresh. congruence.
Qed.

(** The two ways a write of an invoice succeeds: the update of the stored
    row of its key, or the insert of a row under a key not yet stored. *)
Lemma Model_save_invoice_cases (self : XRechnungInvoice)
  (force_insert : bool) (now : Z) (db db' : Store) :
  snd (Model_save_invoice self force_insert now db) = inr db' ->
  (exists pk,
      id self = Some pk /\
      is_None (get_invoice pk db) = false /\
      invoice_constraints_ok
        (set_stamps (id self) (created_at self) (Some now) self)
        (List.filter (fun r => negb (pk_eqb (id r) (id self))) (invoices db))
      = true /\
      fst (Model_save_invoice self force_insert now db)
      = set_stamps (id self) (created_at self) (Some now) self /\
      db' = with_invoices
              (replace_invoice
                 (adapt_invoice
                    (set_stamps (id self) (created_at self) (Some now) self))
                 (invoices db))
              (next_invoice_id db) db) \/
  ((forall k, id self = Some k -> is_None (get_invoice k db) = true) /\
   invoice_constraints_ok (set_stamps (id self) (Some now) (Some now) self)
     (invoices db) = true /\
   fst (Model_save_invoice self force_insert now db)
   = set_stamps (Some (default (next_invoice_id db) (id self))) (Some now)
       (Some now) self /\
   db' = with_invoices
           (invoices db
            ++ [adapt_invoice
                  (set_stamps (Some (default (next_invoice_id db) (id self)))
                     (Some now) (Some now) self)])
           (Z.max (next_invoice_id db)
              (default (next_invoice_id db) (id self) + 1)) db).
Proof.
  unfold Model_save_invoice, raise, ok.
  destruct (id self) as [pk |] eqn:Hid.
  - destruct (is_None (get_invoice pk db)) eqn:Hstored; simpl.
    + destruct (invoice_constraints_ok _ (invoices db)) eqn:Hok; simpl;
        intros H; [| discriminate H].
      injection H as <-. right.
      split; [intros k Hk; congruence |].
      repeat split; first [reflexivity | assumption].
    + destruct force_insert; simpl; [intros H; discriminate H |].
      destruct (invoice_constraints_ok _ _) eqn:Hok; simpl;
        [| intros H; discriminate H].
      destruct (is_None (created_at self)); simpl; intros H;
        [discriminate H |].
      injection H as <-. left. exists pk.
      repeat split; first [reflexivity | assumption].
  - simpl. destruct (invoice_constraints_ok _ (invoices db)) eqn:Hok; simpl;
      intros H; [| discriminate H].
    injection H as <-. right.
    split; [intros k Hk; discriminate Hk |].
    repeat split; first [reflexivity | assumption].
Qed.

(** The same for a line item. *)
Lemma Model_save_line_item_cases (self : XRechnungLineItem)
  (force_insert : bool) (db db' : Store) :
  snd (Model_save_line_item self force_insert db) = inr db' ->
  (exists pk,
      item_id self = Some pk /\
      In (Some pk) (List.map item_id (line_items db)) /\
      line_item_constraints_ok self
        (List.filter (fun r => negb (pk_eqb (item_id r) (item_id self)))
           (line_items db)) db = true /\
      fst (Model_save_line_item self force_insert db) = self /\
      db' = with_line_items
              (replace_line_item (adapt_line_item self) (line_items db))
              (next_item_id db) db) \/
  ((forall k, item_id self = Some k ->
              ~ In (Some k) (List.map item_id (line_items db))) /\
   line_item_constraints_ok self (line_items db) db = true /\
   fst (Model_save_line_item self force_insert db)
   = set_item_id (Some (default (next_item_id db) (item_id self))) self /\
   db' = with_line_items
           (line_items db
            ++ [adapt_line_item
                  (set_item_id
                     (Some (default (next_item_id db) (item_id self))) self)])
           (Z.max (next_item_id db)
              (default (next_item_id db) (item_id self) + 1)) db).
Proof.
  unfold Model_save_line_item, raise, ok.
  destruct (item_id self) as [pk |] eqn:Hid.
  - destruct (existsb _ (line_items db)) eqn:Hstored; simpl.
    + destruct force_insert; simpl; [intros H; discriminate H |].
      destruct (line_item_constraints_ok _ _ _) eqn:Hok; simpl; intros H;
        [| discriminate H].
      injection H as <-. left. exists pk.
      assert (Hin : In (Some pk) (List.map item_id (line_items db))).
      { apply existsb_exists in Hstored. destruct Hstored as (r & Hr & Hrk).
        apply pk_eqb_true in Hrk. destruct Hrk as (k & Hrk & Hk).
        apply List.in_map_iff. exists r. split; [congruence | exact Hr]. }
      repeat split; first [reflexivity | assumption].
    + destruct (line_item_constraints_ok _ _ _) eqn:Hok; simpl; intros H;
        [| discriminate H].
      injection H as <-. right.
      split; [| repeat split; first [reflexivity | assumption]].
      intros k Hk Hin. injection Hk as <-.
      apply List.in_map_iff in Hin. destruct Hin as (r & Hr & Hrin).
      assert (Hex : existsb (fun r => pk_eqb (item_id r) (Some pk))
                      (line_items db) = true).
      { apply existsb_exists. exists r. split; [exact Hrin |].
        rewrite Hr. apply pk_eqb_refl. }
      congruence.
  - simpl. destruct (line_item_constraints_ok _ _ _) eqn:Hok; simpl;
      intros H; [| discriminate H].
    injection H as <-. right.
    split; [intros k Hk; discriminate Hk |].
    repeat split; first [reflexivity | assumption].
Qed.

Lemma get_invoice_stored_key (pk : Z) (db : Store) :
  is_None (get_invoice pk db) = false <->
  In (Some pk) (List.map id (invoices db)).
Proof.
  unfold get_invoice. rewrite is_None_get_invoice_keys, negb_false_iff.
  rewrite existsb_exists. split.
  - intros (i & Hin & Hi). apply pk_eqb_true in Hi.
    destruct Hi as (k & -> & Hk). congruence.
  - intros Hin. exists (Some pk). split; [exact Hin | apply pk_eqb_refl].
Qed.

(** A row that passes the constraints has an invoice number none of the
    rows it was checked against has. *)
Lemma invoice_constraints_number_fresh (row r : XRechnungInvoice)
  (others : list XRechnungInvoice) :
  invoice_constraints_ok row others = true ->
  In r others -> invoice_number r <> invoice_number row.
Proof.
  unfold invoice_constraints_ok. rewrite !andb_true_iff, !negb_true_iff.
  intros [_ Hfresh] Hin Hsame.
  assert (Hex : existsb
                  (fun r => String.eqb (invoice_number r) (invoice_number row))
                  others = true).
  { apply existsb_exists. exists r. split; [exact Hin |].
    apply String.eqb_eq. exact Hsame. }
  congruence.
Qed.

(** A row that passes the constraints has an (invoice, position) pair none
    of the rows it was checked against has, and its invoice is stored. *)
Lemma line_item_constraints_fresh (row : XRechnungLineItem)
  (others : list XRechnungLineItem) (db : Store) :
  line_item_constraints_ok row others db = true ->
  is_None (get_invoice (invoice_id row) db) = false /\
  forall r, In r others ->
            (invoice_id r, position r) <> (invoice_id row, position row).
Proof.
  unfold line_item_constraints_ok. rewrite !andb_true_iff, !negb_true_iff.
  intros [[[_ _] Howned] Hfresh]. split; [exact Howned |].
  intros r Hin Hsame. injection Hsame as Hinv Hpos.
  assert (Hex : existsb
                  (fun r => (invoice_id r =? invoice_id row) &&
                            Nat.eqb (position r) (position row))
                  others = true).
  { apply existsb_exists. exists r. split; [exact Hin |].
    rewrite Hinv, Hpos, Z.eqb_refl, Nat.eqb_refl. reflexivity. }
  congruence.
Qed.

Lemma keys_below_fresh {A : Type} (key : A -> option Z) (next : Z)
  (rows : list A) :
  List.Forall (fun r => exists k, key r = Some k /\ k < next) rows ->
  ~ In (Some next) (List.map key rows).
Proof.
  intros Hall Hin. apply List.in_map_iff in Hin.
  destruct Hin as (r & Hr & Hrin).
  rewrite List.Forall_forall in Hall.
  destruct (Hall r Hrin) as (k & Hk & Hlt). rewrite Hk in Hr.
  injection Hr as ->. lia.
Qed.

Lemma keys_below_weaken {A : Type} (key : A -> option Z) (next next' : Z)
  (rows : list A) :
  next <= next' ->
  List.Forall (fun r => exists k, key r = Some k /\ k < next) rows ->
  List.Forall (fun r => exists k, key r = Some k /\ k < next') rows.
Proof.
  intros Hle Hall. eapply List.Forall_impl; [| exact Hall].
  intros r (k & Hk & Hlt). exists k. split; [exact Hk | lia].
Qed.

Lemma items_owned_kept (db db' : Store) :
  line_items db' = line_items db ->
  (forall i, In i (List.map id (invoices db)) ->
             In i (List.map id (invoices db'))) ->
  List.Forall (fun r => is_None (get_invoice (invoice_id r) db) = false)
    (line_items db) ->
  List.Forall (fun r => is_None (get_invoice (invoice_id r) db') = false)
    (line_items db').
Proof.
  intros -> Hkeys Hall. eapply List.Forall_impl; [| exact Hall].
  intros r Hr. apply get_invoice_stored_key. apply Hkeys.
  apply get_invoice_stored_key. exact Hr.
Qed.

(** The key under which an insert stores its row is not in the table. *)
Lemma insert_key_fresh {A : Type} (key : A -> option Z) (next : Z)
  (given : option Z) (rows : list A) :
  List.Forall (fun r => exists k, key r = Some k /\ k < next) rows ->
  (forall k, given = Some k -> ~ In (Some k) (List.map key rows)) ->
  ~ In (Some (default next given)) (List.map key rows).
Proof.
  intros Hall Hgiven. destruct given as [k |]; simpl.
  - apply Hgiven. reflexivity.
  - apply keys_below_fresh. exact Hall.
Qed.

(** A successful write of an invoice keeps the store well-formed. *)
Lemma write_invoice_store_ok (self : XRechnungInvoice) (force_insert : bool)
  (now : Z) (db db' : Store) :
  store_ok db ->
  snd (Model_save_invoice self force_insert now db) = inr db' ->
  store_ok db'.
Proof.
  intros [Hkeys Hunique Hnumbers Hikeys Hiunique Hpositions Howned] Hwrite.
  apply Model_save_invoice_cases in Hwrite.
  destruct Hwrite as [(pk & Hid & Hstored & Hok & _ & ->)
                     | (Hfresh & Hok & _ & ->)].
  - assert (Hsame : List.map id
                      (replace_invoice
                         (adapt_invoice
                            (set_stamps (id self) (created_at self)
                               (Some now) self)) (invoices db))
                    = List.map id (invoices db))
      by apply (replace_keys id).
    constructor; try (simpl; assumption).
    + simpl. apply List.Forall_forall. intros r Hr.
      apply (replace_In id) in Hr. destruct Hr as [-> | Hr].
      * simpl. rewrite Hid.
        apply get_invoice_stored_key, List.in_map_iff in Hstored.
        destruct Hstored as (r & Hrk & Hrin).
        rewrite List.Forall_forall in Hkeys.
        destruct (Hkeys r Hrin) as (k & Hk & Hlt). exists k.
        split; [congruence | exact Hlt].
      * rewrite List.Forall_forall in Hkeys. exact (Hkeys r Hr).
    + simpl. rewrite Hsame. exact Hunique.
    + simpl. apply (replace_labels_NoDup id _ invoice_number);
        try assumption.
      intros r Hr Hother.
      apply (invoice_constraints_number_fresh _ r _ Hok).
      apply List.filter_In. split; [exact Hr |].
      simpl in Hother. rewrite Hother. reflexivity.
    + apply items_owned_kept with (db := db); [reflexivity | | exact Howned].
      simpl. rewrite Hsame. tauto.
  - pose proof (insert_key_fresh id (next_invoice_id db) (id self)
                  (invoices db) Hkeys) as Hnew.
    assert (Hpk : ~ In (Some (default (next_invoice_id db) (id self)))
                    (List.map id (invoices db))).
    { apply Hnew. intros k Hk. apply get_invoice_missing_key.
      exact (Hfresh k Hk). }
    constructor; try (simpl; assumption).
    + simpl. apply List.Forall_app. split.
      * apply (keys_below_weaken id (next_invoice_id db)); [lia | exact Hkeys].
      * constructor; [| constructor].
        eexists. split; [reflexivity | lia].
    + simpl. rewrite List.map_app. simpl. apply NoDup_snoc; assumption.
    + simpl. rewrite List.map_app. simpl.
      apply NoDup_snoc; [exact Hnumbers |].
      intros Hin. apply List.in_map_iff in Hin.
      destruct Hin as (r & Hr & Hrin).
      exact (invoice_constraints_number_fresh _ r _ Hok Hrin Hr).
    + apply items_owned_kept with (db := db); [reflexivity | | exact Howned].
      simpl. intros i Hi. rewrite List.map_app. apply List.in_or_app.
      left. exact Hi.
Qed.

(** A successful write of a line item keeps the store well-formed. *)
Lemma write_line_item_store_ok (self : XRechnungLineItem)
  (force_insert : bool) (db db' : Store) :
  store_ok db ->
  snd (Model_save_line_item self force_insert db) = inr db' ->
  store_ok db'.
Proof.
  intros [Hkeys Hunique Hnumbers Hikeys Hiunique Hpositions Howned] Hwrite.
  apply Model_save_line_item_cases in Hwrite.
  destruct Hwrite as [(pk & Hid & Hstored & Hok & _ & ->)
                     | (Hfresh & Hok & _ & ->)].
  - destruct (line_item_constraints_fresh _ _ _ Hok) as [Hinvoice Hpair].
    assert (Hsame : List.map item_id
                      (replace_line_item (adapt_line_item self)
                         (line_items db))
                    = List.map item_id (line_items db))
      by apply (replace_keys item_id).
    constructor; try (simpl; assumption); simpl.
    + apply List.Forall_forall. intros r Hr.
      apply (replace_In item_id) in Hr. destruct Hr as [-> | Hr].
      * apply List.in_map_iff in Hstored.
        destruct Hstored as (r & Hrk & Hrin).
        rewrite List.Forall_forall in Hikeys.
        destruct (Hikeys r Hrin) as (k & Hk & Hlt). exists k.
        split; [cbn [adapt_line_item item_id]; congruence | exact Hlt].
      * rewrite List.Forall_forall in Hikeys. exact (Hikeys r Hr).
    + rewrite Hsame. exact Hiunique.
    + apply (replace_labels_NoDup item_id _
               (fun r => (invoice_id r, position r))); try assumption.
      intros r Hr Hother. apply Hpair.
      apply List.filter_In. split; [exact Hr |].
      cbn [adapt_line_item item_id] in Hother.
      rewrite Hother. reflexivity.
    + apply List.Forall_forall. intros r Hr.
      apply (replace_In item_id) in Hr. destruct Hr as [-> | Hr].
      * exact Hinvoice.
      * rewrite List.Forall_forall in Howned. exact (Howned r Hr).
  - destruct (line_item_constraints_fresh _ _ _ Hok) as [Hinvoice Hpair].
    pose proof (insert_key_fresh item_id (next_item_id db) (item_id self)
                  (line_items db) Hikeys Hfresh) as Hpk.
    constructor; try (simpl; assumption); simpl.
    + apply List.Forall_app. split.
      * apply (keys_below_weaken item_id (next_item_id db));
          [lia | exact Hikeys].
      * constructor; [| constructor].
        eexists. split; [reflexivity | lia].
    + rewrite List.map_app. simpl. apply NoDup_snoc; assumption.
    + rewrite List.map_app. simpl. apply NoDup_snoc; [exact Hpositions |].
      intros Hin. apply List.in_map_iff in Hin.
      destruct Hin as (r & Hr & Hrin). exact (Hpair r Hrin Hr).
    + apply List.Forall_app. split; [exact Howned |].
      constructor; [exact Hinvoice | constructor].
Qed.

(** After a successful write the row, which is the instance with its
    amounts at column scale, is found under its key. *)
Lemma write_invoice_get (self : XRechnungInvoice) (force_insert : bool)
  (now : Z) (db db' : Store) :
  store_ok db ->
  snd (Model_save_invoice self force_insert now db) = inr db' ->
  exists pk,
    id (fst (Model_save_invoice self force_insert now db)) = Some pk /\
    get_invoice pk db'
    = Some (adapt_invoice
              (fst (Model_save_invoice self force_insert now db))).
Proof.
  intros Hok Hwrite. pose proof (invoice_keys_assigned db Hok) as Hkeys.
  apply Model_save_invoice_cases in Hwrite.
  destruct Hwrite as [(pk & Hid & Hstored & _ & -> & ->)
                     | (Hfresh & _ & -> & ->)].
  - exists pk. split; [exact Hid |]. unfold get_invoice. simpl.
    apply (find_replace_same id); [exact Hid |].
    apply get_invoice_stored_key. exact Hstored.
  - eexists. split; [reflexivity |]. unfold get_invoice. simpl.
    rewrite find_app.
    assert (Hpk : ~ In (Some (default (next_invoice_id db) (id self)))
                    (List.map id (invoices db))).
    { apply (insert_key_fresh id); [exact Hkeys |].
      intros k Hk. apply get_invoice_missing_key. exact (Hfresh k Hk). }
    apply get_invoice_missing_key in Hpk. unfold get_invoice in Hpk.
    destruct (List.find _ (invoices db)); [discriminate Hpk |].
    simpl. rewrite Z.eqb_refl. reflexivity.
Qed.

(** A successful write leaves the rows of all other keys, and the line
    items, as they were. *)
Lemma write_invoice_frame (self : XRechnungInvoice) (force_insert : bool)
  (now : Z) (db db' : Store) (pk' : Z) :
  snd (Model_save_invoice self force_insert now db) = inr db' ->
  id (fst (Model_save_invoice self force_insert now db)) <> Some pk' ->
  get_invoice pk' db' = get_invoice pk' db /\
  line_items db' = line_items db.
Proof.
  intros Hwrite. apply Model_save_invoice_cases in Hwrite.
  destruct Hwrite as [(pk & Hid & Hstored & _ & -> & ->)
                     | (Hfresh & _ & -> & ->)]; simpl; intros Hother.
  - split; [| reflexivity]. unfold get_invoice. simpl.
    apply (find_replace_other id). exact Hother.
  - split; [| reflexivity]. unfold get_invoice. simpl.
    rewrite find_app. destruct (List.find _ (invoices db)); [reflexivity |].
    simpl. destruct (Z.eqb_spec (default (next_invoice_id db) (id self)) pk');
      [congruence | reflexivity].
Qed.

(** The same two facts for a line item. *)
Lemma write_line_item_get (self : XRechnungLineItem) (force_insert : bool)
  (db db' : Store) :
  store_ok db ->
  snd (Model_save_line_item self force_insert db) = inr db' ->
  invoices db' = invoices db /\
  exists pk,
    item_id (fst (Model_save_line_item self force_insert db)) = Some pk /\
    get_line_item pk db'
    = Some (adapt_line_item
              (fst (Model_save_line_item self force_insert db))) /\
    forall pk', pk' <> pk -> get_line_item pk' db' = get_line_item pk' db.
Proof.
  intros Hok Hwrite. pose proof (item_keys_assigned db Hok) as Hkeys.
  apply Model_save_line_item_cases in Hwrite.
  destruct Hwrite as [(pk & Hid & Hstored & _ & -> & ->)
                     | (Hfresh & _ & -> & ->)].
  - split; [reflexivity |]. exists pk. split; [exact Hid |].
    unfold get_line_item. simpl. split.
    + apply (find_replace_same item_id); assumption.
    + intros pk' Hne. apply (find_replace_other item_id).
      cbn [adapt_line_item item_id]. congruence.
  - split; [reflexivity |]. eexists. split; [reflexivity |].
    unfold get_line_item. simpl.
    pose proof (insert_key_fresh item_id (next_item_id db) (item_id self)
                  (line_items db) Hkeys Hfresh) as Hpk.
    assert (Hnone : List.find
                      (fun r => pk_eqb (item_id r)
                                  (Some (default (next_item_id db)
                                           (item_id self))))
                      (line_items db) = None).
    { destruct (List.find _ (line_items db)) as [r |] eqn:Hfind;
        [| reflexivity].
      apply List.find_some in Hfind. destruct Hfind as [Hrin Hrk].
      apply pk_eqb_true in Hrk. destruct Hrk as (k & Hrk & Hk).
      exfalso. apply Hpk. apply List.in_map_iff. exists r.
      split; [congruence | exact Hrin]. }
    split.
    + rewrite find_app, Hnone. simpl. rewrite Z.eqb_refl. reflexivity.
    + intros pk' Hne. rewrite find_app.
      destruct (List.find (fun r => pk_eqb (item_id r) (Some pk'))
                  (line_items db)); [reflexivity |].
      simpl.
      destruct (Z.eqb_spec (default (next_item_id db) (item_id self)) pk');
        [congruence | reflexivity].
Qed.

End StoreFacts.

Section StoreScenarios.

Lemma store_ok_empty : store_ok empty_store.
Proof. constructor; simpl; constructor. Qed.

Lemma store_ok_db_one_invoice : store_ok db_one_invoice.
Proof.
  apply (write_invoice_store_ok (derive_net_amount INV_2024_002) true 0
           empty_store); [exact store_ok_empty | reflexivity].
Qed.

Lemma store_ok_db_one_item : store_ok db_one_item.
Proof.
  apply (write_line_item_store_ok (derive_line_total LINE_3_x_25) true
           db_one_invoice); [exact store_ok_db_one_invoice | reflexivity].
Qed.

Lemma NoDup_map_injective {A B : Type} (g : A -> B) (l : list A) (a b : A) :
  List.NoDup (List.map g l) -> In a l -> In b l -> g a = g b -> a = b.
Proof.
  induction l as [| x l IH]; simpl; intros Hnd Ha Hb Hg; [contradiction |].
  apply List.NoDup_cons_iff in Hnd. destruct Hnd as [Hx Hl].
  destruct Ha as [-> | Ha], Hb as [-> | Hb].
  - reflexivity.
  - exfalso. apply Hx. rewrite Hg. apply List.in_map. exact Hb.
  - exfalso. apply Hx. rewrite <- Hg. apply List.in_map. exact Ha.
  - exact (IH Hl Ha Hb Hg).
Qed.

End StoreScenarios.

(** X12. In a well-formed store every successful save of an invoice, insert
    or update, leaves a well-formed store; in particular no two stored
    invoices have the same invoice number afterwards. *)
Theorem invoice_save_keeps_store_ok (self : XRechnungInvoice)
  (force_insert : bool) (now : Z) (db db' : Store) :
  store_ok db ->
  snd (XRechnungInvoice_save self force_insert now db) = inr db' ->
  store_ok db' /\
  (forall a b,
      In a (invoices db') -> In b (invoices db') ->
      invoice_number a = invoice_number b -> a = b).
Proof.
  intros Hok Hsave. unfold XRechnungInvoice_save in Hsave.
  pose proof (write_invoice_store_ok _ _ _ _ _ Hok Hsave) as Hok'.
  split; [exact Hok' |].
  intros a b. apply NoDup_map_injective.
  exact (invoice_numbers_unique db' Hok').
Qed.

(** X12 at the first invoice of an empty store. *)
Lemma invoice_save_keeps_store_ok_witness : store_ok db_one_invoice.
Proof.
  exact (proj1 (invoice_save_keeps_store_ok INV_2024_002 true 0 empty_store
                  db_one_invoice store_ok_empty eq_refl)).
Defined.

(** X13. In a well-formed store every successful save of a line item leaves
    a well-formed store; in particular no two stored line items of one
    invoice have the same position, and the invoice of every stored line
    item is stored. *)
Theorem line_item_save_keeps_store_ok (self : XRechnungLineItem)
  (force_insert : bool) (db db' : Store) :
  store_ok db ->
  snd (XRechnungLineItem_save self force_insert db) = inr db' ->
  store_ok db' /\
  (forall a b,
      In a (line_items db') -> In b (line_items db') ->
      invoice_id a = invoice_id b -> position a = position b -> a = b) /\
  (forall a, In a (line_items db') ->
             exists invoice, get_invoice (invoice_id a) db' = Some invoice).
Proof.
  intros Hok Hsave. unfold XRechnungLineItem_save in Hsave.
  pose proof (write_line_item_store_ok _ _ _ _ Hok Hsave) as Hok'.
  split; [exact Hok' | split].
  - intros a b Ha Hb Hinv Hpos.
    apply (NoDup_map_injective (fun r => (invoice_id r, position r))
             (line_items db')); try assumption.
    + exact (positions_unique db' Hok').
    + congruence.
  - intros a Ha. pose proof (items_owned db' Hok') as Howned.
    rewrite List.Forall_forall in Howned. specialize (Howned a Ha).
    destruct (get_invoice (invoice_id a) db') as [invoice |];
      [exists invoice; reflexivity | discriminate Howned].
Qed.

(** X13 at the first line item of the store of one invoice. *)
Lemma line_item_save_keeps_store_ok_witness : store_ok db_one_item.
Proof.
  exact (proj1 (line_item_save_keeps_store_ok LINE_3_x_25 true
                  db_one_invoice db_one_item store_ok_db_one_invoice
                  eq_refl)).
Defined.

(** X14. In a well-formed store a successful save of an invoice can be read
    back: the instance has a key, a lookup by that key gives the row of the
    instance, which has its fields with the three amounts at the two places
    of their columns (an amount given at two places comes back as it is,
    the default tax amount 0 comes back as 0.00), a lookup by any other key
    gives what it gave before, and the line items are untouched. *)
Theorem invoice_save_then_get (self : XRechnungInvoice) (force_insert : bool)
  (now : Z) (db db' : Store) :
  store_ok db ->
  snd (XRechnungInvoice_save self force_insert now db) = inr db' ->
  exists pk,
    id (fst (XRechnungInvoice_save self force_insert now db)) = Some pk /\
    get_invoice pk db'
    = Some (adapt_invoice
              (fst (XRechnungInvoice_save self force_insert now db))) /\
    (forall pk', pk' <> pk -> get_invoice pk' db' = get_invoice pk' db) /\
    line_items db' = line_items db.
Proof.
  intros Hok Hsave. unfold XRechnungInvoice_save in *.
  destruct (write_invoice_get _ _ _ _ _ Hok Hsave) as (pk & Hid & Hget).
  exists pk. split; [exact Hid | split; [exact Hget | split]].
  - intros pk' Hne.
    apply (write_invoice_frame _ _ _ _ _ pk' Hsave). congruence.
  - apply (write_invoice_frame _ _ _ _ _ (pk + 1) Hsave).
    rewrite Hid. intros H. injection H as H. lia.
Qed.

(** X14 at a second invoice created next to INV-TEST-001: it is read back
    under the key 2, its total 200.00 as given and its tax amount, left at
    the default 0, as 0.00; and the key 1 still gives INV-TEST-001. *)
Lemma invoice_save_then_get_witness :
  option_map invoice_number (get_invoice 2 db_two_suppliers)
    = Some "INV-TEST-002" /\
  option_map total_amount (get_invoice 2 db_two_suppliers)
    = Some (Some (mkDecimal 20000 (-2))) /\
  option_map tax_amount (get_invoice 2 db_two_suppliers)
    = Some (Some (mkDecimal 0 (-2))) /\
  option_map invoice_number (get_invoice 1 db_two_suppliers)
    = Some "INV-TEST-001".
Proof.
  pose (db := store_of (snd (create_invoice INV_TEST_001 10 empty_store))).
  assert (Hok : store_ok db).
  { apply (write_invoice_store_ok (derive_net_amount INV_TEST_001) true 10
             empty_store); [exact store_ok_empty | reflexivity]. }
  destruct (invoice_save_then_get INV_TEST_002 true 20 db db_two_suppliers
              Hok eq_refl) as (pk & Hid & Hget & Hframe & _).
  vm_compute in Hid. injection Hid as <-.
  split; [| split; [| split]].
  - rewrite Hget. reflexivity.
  - rewrite Hget. reflexivity.
  - rewrite Hget. reflexivity.
  - rewrite (Hframe 1 ltac:(lia)). reflexivity.
Defined.

(** X15. In a well-formed store a successful save of a line item can be read
    back under its key: the lookup gives the row of the instance, which has
    its fields with the quantity at three places and the unit price, the
    line total and the tax rate at two; the save leaves the line items of
    all other keys as they were, and does not touch the invoices. *)
Theorem line_item_save_then_get (self : XRechnungLineItem)
  (force_insert : bool) (db db' : Store) :
  store_ok db ->
  snd (XRechnungLineItem_save self force_insert db) = inr db' ->
  invoices db' = invoices db /\
  exists pk,
    item_id (fst (XRechnungLineItem_save self force_insert db)) = Some pk /\
    get_line_item pk db'
    = Some (adapt_line_item
              (fst (XRechnungLineItem_save self force_insert db))) /\
    forall pk', pk' <> pk -> get_line_item pk' db' = get_line_item pk' db.
Proof.
  intros Hok Hsave. unfold XRechnungLineItem_save in *.
  exact (write_line_item_get _ _ _ _ Hok Hsave).
Qed.

(** X15 at the line item 3.0 x 25.00: it is read back under the key 1 with
    the quantity 3.000 and the line total 75.00. *)
Lemma line_item_save_then_get_witness :
  option_map quantity (get_line_item 1 db_one_item)
  = Some (Some (mkDecimal 3000 (-3))) /\
  option_map line_total (get_line_item 1 db_one_item)
  = Some (Some (mkDecimal 7500 (-2))).
Proof.
  destruct (line_item_save_then_get LINE_3_x_25 true db_one_invoice
              db_one_item store_ok_db_one_invoice eq_refl)
    as (_ & pk & Hid & Hget & _).
  vm_compute in Hid. injection Hid as <-. rewrite Hget.
  split; reflexivity.
Defined.

Section Stamps.

Lemma derive_net_amount_stamps (self : XRechnungInvoice) :
  id (derive_net_amount self) = id self /\
  created_at (derive_net_amount self) = created_at self.
Proof.
  unfold derive_net_amount.
  destruct (_ && _); [| split; reflexivity].
  destruct (total_amount self), (tax_amount self); split; reflexivity.
Qed.

End Stamps.

(** X16. The two timestamps of a successfully saved invoice: [updated_at]
    is the time of the save; [created_at] is the time of the save whenever
    the row was inserted, that is on every create, on the save of an
    instance that has no key yet, and on the save of an instance whose key
    is not stored; it is the value the instance had when a stored row was
    updated. *)
Theorem invoice_save_stamps (self : XRechnungInvoice) (force_insert : bool)
  (now : Z) (db db' : Store) :
  snd (XRechnungInvoice_save self force_insert now db) = inr db' ->
  updated_at (fst (XRechnungInvoice_save self force_insert now db))
    = Some now /\
  (force_insert = true ->
   created_at (fst (XRechnungInvoice_save self force_insert now db))
   = Some now) /\
  (id self = None ->
   created_at (fst (XRechnungInvoice_save self force_insert now db))
   = Some now) /\
  (forall pk,
      id self = Some pk -> get_invoice pk db = None ->
      created_at (fst (XRechnungInvoice_save self force_insert now db))
      = Some now) /\
  (forall pk stored,
      force_insert = false ->
      id self = Some pk -> get_invoice pk db = Some stored ->
      created_at (fst (XRechnungInvoice_save self force_insert now db))
      = created_at self /\ created_at self <> None).
Proof.
  intros Hsave. unfold XRechnungInvoice_save in *.
  destruct (derive_net_amount_stamps self) as [Hid Hcreated].
  pose proof Hsave as Hcases. apply Model_save_invoice_cases in Hcases.
  destruct Hcases as [(pk & Hpk & Hstored & Hok & Hfst & _)
                     | (Hfresh & _ & Hfst & _)]; rewrite Hfst; simpl.
  - split; [reflexivity |].
    assert (force_insert = false /\ created_at self <> None) as [Hf Hc].
    { unfold Model_save_invoice in Hsave. rewrite Hpk, Hstored in Hsave.
      simpl in Hsave. destruct force_insert; [discriminate Hsave |].
      split; [reflexivity |]. simpl in Hsave.
      destruct (invoice_constraints_ok _ _); simpl in Hsave;
        [| discriminate Hsave].
      rewrite Hcreated in Hsave.
      destruct (created_at self); [discriminate | discriminate Hsave]. }
    split; [intros ->; discriminate Hf | split; [| split]].
    + intros Hnew. rewrite Hid, Hnew in Hpk. discriminate Hpk.
    + intros k Hk Hnone. rewrite Hid, Hk in Hpk. injection Hpk as <-.
      rewrite Hnone in Hstored. discriminate Hstored.
    + intros k stored _ _ _. split; [exact Hcreated | exact Hc].
  - split; [reflexivity |].
    split; [reflexivity | split; [reflexivity | split; [reflexivity |]]].
    intros k stored Hf Hk Hget. rewrite Hid in Hfresh.
    specialize (Hfresh k Hk). rewrite Hget in Hfresh. discriminate Hfresh.
Qed.

(** X16 at the invoice INV-2024-002 saved at time 0 without a key, by a
    create or by a plain save, and saved again at time 5. *)
Lemma invoice_save_stamps_witness :
  let created := fst (create_invoice INV_2024_002 0 empty_store) in
  created_at created = Some 0 /\ updated_at created = Some 0 /\
  created_at (fst (XRechnungInvoice_save INV_2024_002 false 0 empty_store))
    = Some 0 /\
  created_at (fst (XRechnungInvoice_save created false 5 db_one_invoice))
    = Some 0 /\
  updated_at (fst (XRechnungInvoice_save created false 5 db_one_invoice))
    = Some 5.
Proof.
  intros created.
  destruct (invoice_save_stamps INV_2024_002 true 0 empty_store
              db_one_invoice eq_refl) as (Hu0 & Hc0 & _ & _).
  destruct (invoice_save_stamps INV_2024_002 false 0 empty_store
              db_one_invoice eq_refl) as (_ & _ & Hnew & _).
  destruct (invoice_save_stamps created false 5 db_one_invoice
              (store_of
                 (snd (XRechnungInvoice_save created false 5 db_one_invoice)))
              eq_refl) as (Hu5 & _ & _ & _ & Hc5).
  split; [exact (Hc0 eq_refl) | split; [exact Hu0 |]].
  split; [exact (Hnew eq_refl) | split; [| exact Hu5]].
  exact (proj1 (Hc5 1 (adapt_invoice created) eq_refl eq_refl eq_refl)).
Defined.

Section Cascade.

Lemma find_filter_none {A : Type} (f p : A -> bool) (l : list A) :
  (forall x, f x = true -> p x = false) ->
  List.find f (List.filter p l) = None.
Proof.
  intros Hdrop. induction l as [| x l IH]; simpl; [reflexivity |].
  destruct (p x) eqn:Hp; simpl; [| exact IH].
  destruct (f x) eqn:Hf; [| exact IH].
  rewrite (Hdrop x Hf) in Hp. discriminate.
Qed.

Lemma Forall_filter {A : Type} (P : A -> Prop) (p : A -> bool) (l : list A) :
  List.Forall P l -> List.Forall P (List.filter p l).
Proof.
  intros Hall. apply List.Forall_forall. intros x Hx.
  apply List.filter_In in Hx. rewrite List.Forall_forall in Hall.
  apply Hall. tauto.
Qed.

Lemma filter_implied {A : Type} (f g : A -> bool) (l : list A) :
  (forall x, f x = true -> g x = true) ->
  List.filter f (List.filter g l) = List.filter f l.
Proof.
  intros Himpl. induction l as [| x l IH]; simpl; [reflexivity |].
  destruct (g x) eqn:Hg; simpl.
  - destruct (f x); [f_equal |]; exact IH.
  - destruct (f x) eqn:Hf; [| exact IH].
    rewrite (Himpl x Hf) in Hg. discriminate.
Qed.

Lemma get_invoice_after_delete (pk pk' : Z) (db : Store) :
  pk' <> pk ->
  get_invoice pk' (delete_invoice pk db) = get_invoice pk' db.
Proof.
  intros Hne. unfold get_invoice, delete_invoice. simpl.
  apply find_filter. intros r Hr.
  apply pk_eqb_true in Hr. destruct Hr as (k & -> & Hk).
  injection Hk as ->. simpl. apply negb_true_iff, Z.eqb_neq. exact Hne.
Qed.

End Cascade.

(** X17. Deleting an invoice removes it and, by the cascade of the foreign
    key, its line items: the key is not found afterwards, no line item of
    that invoice is left, every other invoice keeps its row and its line
    items in their order, and a well-formed store stays well-formed. *)
Theorem delete_invoice_cascades (pk : Z) (db : Store) :
  store_ok db ->
  store_ok (delete_invoice pk db) /\
  get_invoice pk (delete_invoice pk db) = None /\
  (forall item, In item (line_items (delete_invoice pk db)) ->
                invoice_id item <> pk /\ In item (line_items db)) /\
  (forall pk' invoice,
      pk' <> pk -> id invoice = Some pk' ->
      get_invoice pk' (delete_invoice pk db) = get_invoice pk' db /\
      line_items_of invoice (delete_invoice pk db)
      = line_items_of invoice db).
Proof.
  intros [Hkeys Hunique Hnumbers Hikeys Hiunique Hpositions Howned].
  split; [| split; [| split]].
  - constructor; simpl.
    + apply Forall_filter. exact Hkeys.
    + apply NoDup_map_filter. exact Hunique.
    + apply NoDup_map_filter. exact Hnumbers.
    + apply Forall_filter. exact Hikeys.
    + apply NoDup_map_filter. exact Hiunique.
    + apply NoDup_map_filter. exact Hpositions.
    + apply List.Forall_forall. intros r Hr. apply List.filter_In in Hr.
      destruct Hr as [Hrin Hrk]. apply negb_true_iff, Z.eqb_neq in Hrk.
      rewrite List.Forall_forall in Howned.
      change (is_None (get_invoice (invoice_id r) (delete_invoice pk db))
              = false).
      rewrite (get_invoice_after_delete pk (invoice_id r) db Hrk).
      exact (Howned r Hrin).
  - unfold get_invoice, delete_invoice. simpl.
    apply find_filter_none. intros r Hr. rewrite Hr. reflexivity.
  - intros item Hitem. simpl in Hitem. apply List.filter_In in Hitem.
    destruct Hitem as [Hin Hk]. apply negb_true_iff, Z.eqb_neq in Hk.
    split; assumption.
  - intros pk' invoice Hne Hid.
    split; [exact (get_invoice_after_delete pk pk' db Hne) |].
    unfold line_items_of. f_equal. simpl. rewrite Hid.
    apply filter_implied. intros r Hr. simpl in Hr.
    apply Z.eqb_eq in Hr. apply negb_true_iff, Z.eqb_neq. congruence.
Qed.

(** X17 at the store of one invoice with one line item: after the invoice
    is deleted both tables are empty. *)
Lemma delete_invoice_cascades_witness :
  get_invoice 1 (delete_invoice 1 db_one_item) = None /\
  line_items (delete_invoice 1 db_one_item) = [] /\
  List.length (line_items db_one_item) = 1%nat.
Proof.
  destruct (delete_invoice_cascades 1 db_one_item store_ok_db_one_item)
    as (_ & Hgone & _ & _).
  split; [exact Hgone | split; reflexivity].
Defined.

Section LineItemOrder.

Lemma line_item_before_total (a b : XRechnungLineItem) :
  line_item_before a b = false -> line_item_before b a = true.
Proof.
  unfold line_item_before. intros H. apply Nat.leb_gt in H.
  apply Nat.leb_le. lia.
Qed.

Lemma line_item_before_trans (a b c : XRechnungLineItem) :
  line_item_before a b = true -> line_item_before b c = true ->
  line_item_before a c = true.
Proof. unfold line_item_before. rewrite !Nat.leb_le. lia. Qed.

(** Rows of one invoice with distinct (invoice, position) pairs have
    distinct positions. *)
Lemma positions_NoDup_of_pairs (k : Z) (l : list XRechnungLineItem) :
  List.Forall (fun r => invoice_id r = k) l ->
  List.NoDup (List.map (fun r => (invoice_id r, position r)) l) ->
  List.NoDup (List.map position l).
Proof.
  induction l as [| x l IH]; simpl; intros Hall Hnd; [constructor |].
  apply List.Forall_cons_iff in Hall. destruct Hall as [Hx Hall].
  apply List.NoDup_cons_iff in Hnd. destruct Hnd as [Hfresh Hnd].
  constructor; [| exact (IH Hall Hnd)].
  intros Hin. apply Hfresh. apply List.in_map_iff in Hin.
  destruct Hin as (y & Hy & Hyin). apply List.in_map_iff. exists y.
  split; [| exact Hyin]. rewrite List.Forall_forall in Hall.
  rewrite (Hall y Hyin), Hx, Hy. reflexivity.
Qed.

Lemma sorted_strict (l : list XRechnungLineItem) :
  StronglySorted (fun a b => (position a <= position b)%nat) l ->
  List.NoDup (List.map position l) ->
  StronglySorted (fun a b => (position a < position b)%nat) l.
Proof.
  induction 1 as [| x l Hsorted IH Hall]; simpl; intros Hnd; constructor.
  - apply IH. apply List.NoDup_cons_iff in Hnd. tauto.
  - apply List.NoDup_cons_iff in Hnd. destruct Hnd as [Hfresh _].
    rewrite List.Forall_forall in *. intros y Hy.
    specialize (Hall y Hy).
    assert (position x <> position y).
    { intros Heq. apply Hfresh. rewrite Heq. apply List.in_map. exact Hy. }
    lia.
Qed.

End LineItemOrder.

(** X18. The line items the detail page puts into its context are exactly
    the stored line items of the invoice, in ascending position; the JSON
    detail lists the same line items in the same order; and in a well-formed
    store the positions are strictly ascending. *)
Theorem detail_line_items_ordered (invoice : XRechnungInvoice) (db : Store) :
  Permutation (DetailView.get_context_data invoice db)
    (List.filter (fun r => pk_eqb (Some (invoice_id r)) (id invoice))
       (line_items db)) /\
  StronglySorted (fun a b => (position a <= position b)%nat)
    (DetailView.get_context_data invoice db) /\
  json_get "line_items" (invoice_detail_data invoice db)
  = Some (JList (List.map line_item_json
                   (DetailView.get_context_data invoice db))) /\
  (store_ok db ->
   StronglySorted (fun a b => (position a < position b)%nat)
     (DetailView.get_context_data invoice db)).
Proof.
  unfold DetailView.get_context_data, line_items_of.
  assert (Hsorted : StronglySorted
                      (fun a b => (position a <= position b)%nat)
                      (order_by line_item_before
                         (List.filter
                            (fun r => pk_eqb (Some (invoice_id r))
                                        (id invoice))
                            (line_items db)))).
  { apply (sorted_weaken (fun a b => line_item_before a b = true)).
    - intros a b. unfold line_item_before. apply Nat.leb_le.
    - apply order_by_sorted.
      + exact line_item_before_total.
      + exact line_item_before_trans. }
  split; [apply order_by_perm | split; [exact Hsorted | split]].
  - reflexivity.
  - intros Hok. apply sorted_strict; [exact Hsorted |].
    eapply Permutation_NoDup.
    + apply Permutation_map. symmetry. apply order_by_perm.
    + destruct (id invoice) as [k |] eqn:Hid.
      * apply (positions_NoDup_of_pairs k).
        -- apply List.Forall_forall. intros r Hr.
           apply List.filter_In in Hr. destruct Hr as [_ Hr].
           simpl in Hr. apply Z.eqb_eq in Hr. exact Hr.
        -- apply NoDup_map_filter. exact (positions_unique db Hok).
      * replace (List.filter _ (line_items db)) with (@nil XRechnungLineItem);
          [constructor |].
        symmetry. clear. induction (line_items db) as [| r l IH];
          simpl; [reflexivity | exact IH].
Qed.

Section ConfigFacts.

Import Config ConfigAccess.

Lemma default_key_present (env : Environment) (key : string) :
  is_Some (DEFAULT_CONFIG !! key) -> is_Some (_load_config env !! key).
Proof.
  intros [v Hv]. rewrite _load_config_union.
  destruct (default ∅ (pyproject_table env) !! key) as [v1 |] eqn:H1.
  - exists v1. apply lookup_union_Some_l. exact H1.
  - rewrite lookup_union_r by exact H1.
    destruct (default ∅ (DJANGO_XRECHNUNG env) !! key) as [v2 |] eqn:H2.
    + exists v2. apply lookup_union_Some_l. exact H2.
    + rewrite lookup_union_r by exact H2. exists v. exact Hv.
Qed.

End ConfigFacts.

(** X19. How the configuration resolves a key: the pyproject table wins,
    then the Django settings, then the built-in defaults; [get] falls back
    to its default argument only when no source has the key.  A source can
    give any value under any key: nothing is checked or dropped. *)
Theorem config_resolution_order (env : Config.Environment) (key : string)
  (fallback : Config.ConfigValue) :
  Config._load_config env !! key
  = match default ∅ (Config.pyproject_table env) !! key with
    | Some v => Some v
    | None =>
        match default ∅ (Config.DJANGO_XRECHNUNG env) !! key with
        | Some v => Some v
        | None => Config.DEFAULT_CONFIG !! key
        end
    end /\
  Config.get (Config._load_config env) key fallback
  = default fallback (Config._load_config env !! key).
Proof.
  split; [| reflexivity].
  rewrite _load_config_union.
  destruct (default ∅ (Config.pyproject_table env) !! key) as [v1 |] eqn:H1.
  - apply lookup_union_Some_l. exact H1.
  - rewrite lookup_union_r by exact H1.
    destruct (default ∅ (Config.DJANGO_XRECHNUNG env) !! key) as [v2 |] eqn:H2.
    + apply lookup_union_Some_l. exact H2.
    + apply lookup_union_r. exact H2.
Qed.

(** X20. Every key of the built-in defaults is a key of the loaded
    configuration, whatever the sources hold; so [__getattr__] finds it
    under every spelling of its name that upper-cases to the key, and the
    fallback of [get] is not used for it. *)
Theorem default_keys_always_configured (env : Config.Environment)
  (key name : string) (fallback : Config.ConfigValue) :
  is_Some (Config.DEFAULT_CONFIG !! key) ->
  ConfigAccess.upper name = key ->
  exists v,
    Config._load_config env !! key = Some v /\
    ConfigAccess.__getattr__ (Config._load_config env) name = Some v /\
    Config.get (Config._load_config env) key fallback = v.
Proof.
  intros Hdefault Hname.
  destruct (default_key_present env key Hdefault) as [v Hv].
  exists v. split; [exact Hv | split].
  - unfold ConfigAccess.__getattr__. rewrite Hname, Hv.
    rewrite bool_decide_true by (exists v; reflexivity). reflexivity.
  - unfold Config.get. rewrite Hv. reflexivity.
Qed.

(** X20 at the attribute [decimal_places] under settings that override the
    page size only. *)
Lemma default_keys_always_configured_witness :
  ConfigAccess.__getattr__ (Config._load_config env_page_size_50)
    "decimal_places" = Some (Config.CInt 2) /\
  ConfigAccess.__getattr__ (Config._load_config env_page_size_50)
    "Pagination_Size" = Some (Config.CInt 50).
Proof.
  destruct (default_keys_always_configured env_page_size_50 "DECIMAL_PLACES"
              "decimal_places" (Config.CInt 0)
              ltac:(eexists; reflexivity) eq_refl) as (v & Hv & Hattr & _).
  destruct (default_keys_always_configured env_page_size_50 "PAGINATION_SIZE"
              "Pagination_Size" (Config.CInt 0)
              ltac:(eexists; reflexivity) eq_refl) as (w & Hw & Hattr' & _).
  rewrite Hattr, Hattr', <- Hv, <- Hw. split.
  - rewrite (defaults_remain env_page_size_50 "DECIMAL_PLACES");
      reflexivity.
  - rewrite (settings_win env_page_size_50
               {[ "PAGINATION_SIZE" := Config.CInt 50 ]}
               "PAGINATION_SIZE" (Config.CInt 50)); reflexivity.
Defined.

(** X21. The validation of the currency field accepts exactly the codes of
    three capital letters A to Z.  The pattern alone would also accept such
    a code followed by a line feed; the length limit of the field refuses
    that one. *)
Theorem clean_currency_accepts_iff (value : string) :
  (clean_currency value = ok value <->
   exists a b c,
     value = String a (String b (String c EmptyString)) /\
     is_AZ a = true /\ is_AZ b = true /\ is_AZ c = true) /\
  (forall a b c,
      is_AZ a = true -> is_AZ b = true -> is_AZ c = true ->
      currency_regex_search (String a (String b (String c nl))) = true /\
      clean_currency (String a (String b (String c nl)))
      = raise ValidationError).
Proof.
  split.
  - unfold clean_currency, currency_regex_search, currency_max_length_ok.
    destruct value as [| a [| b [| c rest]]]; simpl;
      try (split; [discriminate | intros (x & y & z & H & _); discriminate H]).
    split.
    + destruct (is_AZ a) eqn:Ha, (is_AZ b) eqn:Hb, (is_AZ c) eqn:Hc; simpl;
        try discriminate.
      destruct rest as [| d rest]; simpl;
        [| rewrite andb_false_r; discriminate].
      intros _. exists a, b, c. repeat split; assumption.
    + intros (x & y & z & H & Hx & Hy & Hz). injection H as -> -> -> ->.
      rewrite Hx, Hy, Hz. reflexivity.
  - intros a b c Ha Hb Hc.
    unfold clean_currency, currency_regex_search, currency_max_length_ok.
    simpl. rewrite Ha, Hb, Hc. split; reflexivity.
Qed.
